(** * Customer service: tenant-scoped store, repositories, domain model

    A shallow embedding of the Go sources of the customer service
    (package [postgres], package [model], package [service] and the
    gRPC handler), with the properties the specification states about
    them.

    Conventions of the embedding.
    - A Go [string] is a byte sequence: Rocq's [string], whose
      characters are bytes; [len] is [String.length].
    - A Go pointer [*T] used as an optional value is [option T].
    - A Go [int] / [int64] is a [Z]; arithmetic that can leave the
      64-bit range is wrapped explicitly ([wrap64]).
    - [time.Now()] is an explicit argument [now] of the function that
      calls it.
    - A function returning [(T, error)] is a computation in the monad
      [M] of the store (a state over the database world with an error
      and a panic outcome). *)

From Stdlib Require Import ZArith String Ascii List Bool Lia.
From Stdlib Require Import DecimalString.
From stdpp Require Import base option list strings gmap sorting.

Local Open Scope string_scope.
Local Open Scope Z_scope.

(** ** Go strings: bytes and [range] *)

Module GoString.

(** The bytes of a string, as numbers in [0, 256). *)
Definition byte_of (a : ascii) : Z := Z.of_N (N_of_ascii a).

Definition bytes (s : string) : list Z :=
  byte_of <$> list_ascii_of_string s.

Definition len (s : string) : Z := Z.of_nat (String.length s).

(** [utf8.RuneError], produced for every byte that does not start a
    well-formed UTF-8 sequence. *)
Definition RuneError : Z := 0xFFFD.

Definition between (lo hi b : Z) : bool := (lo <=? b) && (b <=? hi).

(** Width of the sequence announced by a lead byte together with the
    range accepted for its second byte (Go's [first] and
    [acceptRanges] tables); [None] for ASCII and for invalid lead
    bytes. *)
Definition lead (b0 : Z) : option (nat * Z * Z) :=
  if b0 <? 0xC2 then None
  else if b0 <? 0xE0 then Some (2%nat, 0x80, 0xBF)
  else if b0 =? 0xE0 then Some (3%nat, 0xA0, 0xBF)
  else if b0 =? 0xED then Some (3%nat, 0x80, 0x9F)
  else if b0 <? 0xF0 then Some (3%nat, 0x80, 0xBF)
  else if b0 =? 0xF0 then Some (4%nat, 0x90, 0xBF)
  else if b0 <? 0xF4 then Some (4%nat, 0x80, 0xBF)
  else if b0 =? 0xF4 then Some (4%nat, 0x80, 0x8F)
  else None.

(** The rune at the head of [b0 :: rest] and the number of bytes it
    occupies, as [for range] over a string decodes it: an ill-formed
    sequence yields [RuneError] and advances by one byte. *)
Definition decodeRune (b0 : Z) (rest : list Z) : Z * nat :=
  if b0 <? 0x80 then (b0, 1%nat)
  else
    match lead b0, rest with
    | Some (2%nat, lo, hi), b1 :: _ =>
        if between lo hi b1
        then (Z.lor (Z.shiftl (Z.land b0 0x1F) 6) (Z.land b1 0x3F), 2%nat)
        else (RuneError, 1%nat)
    | Some (3%nat, lo, hi), b1 :: b2 :: _ =>
        if between lo hi b1 && between 0x80 0xBF b2
        then (Z.lor (Z.lor (Z.shiftl (Z.land b0 0x0F) 12)
                           (Z.shiftl (Z.land b1 0x3F) 6))
                    (Z.land b2 0x3F), 3%nat)
        else (RuneError, 1%nat)
    | Some (4%nat, lo, hi), b1 :: b2 :: b3 :: _ =>
        if between lo hi b1 && between 0x80 0xBF b2 && between 0x80 0xBF b3
        then (Z.lor (Z.lor (Z.lor (Z.shiftl (Z.land b0 0x07) 18)
                                  (Z.shiftl (Z.land b1 0x3F) 12))
                           (Z.shiftl (Z.land b2 0x3F) 6))
                    (Z.land b3 0x3F), 4%nat)
        else (RuneError, 1%nat)
    | _, _ => (RuneError, 1%nat)
    end.

(** [runesFrom skip l]: the runes of [l] once its first [skip] bytes,
    already consumed as continuation bytes, are passed over. *)
Fixpoint runesFrom (skip : nat) (l : list Z) : list Z :=
  match l with
  | [] => []
  | b0 :: rest =>
      match skip with
      | S k => runesFrom k rest
      | O => let '(r, w) := decodeRune b0 rest in
             r :: runesFrom (Nat.pred w) rest
      end
  end.

(** The values of [for _, c := range s]. *)
Definition runes (s : string) : list Z := runesFrom 0 (bytes s).

(** [s == ""] *)
Definition isEmpty (s : string) : bool :=
  match s with EmptyString => true | _ => false end.

(** [s[lo:hi]]: the bytes from [lo] up to [hi]; [None] is the run-time
    panic "slice bounds out of range". *)
Definition slice (s : string) (lo hi : Z) : option string :=
  if (0 <=? lo) && (lo <=? hi) && (hi <=? len s)
  then Some (String.substring (Z.to_nat lo) (Z.to_nat (hi - lo)) s)
  else None.

End GoString.

(** ** Go integers and their decimal text *)

Module GoInt.

(** Arithmetic on [int] (64 bits) and on [int32] wraps around. *)
Definition wrap (z : Z) : Z := (z + 2^63) mod 2^64 - 2^63.
Definition wrap32 (z : Z) : Z := (z + 2^31) mod 2^32 - 2^31.

(** [fmt.Sprintf("%d", z)] *)
Definition itoa (z : Z) : string := NilZero.string_of_int (Z.to_int z).

End GoInt.

(** ** Time *)

(** A [time.Time] is an instant, kept as a number; [zeroTime] is the
  zero value [time.Time{}]. *)
Definition Time := Z.
Definition zeroTime : Time := 0.

(** ** Errors *)

(** The [error] values the embedded functions produce.  [ErrWrap msg e]
  is [fmt.Errorf("msg: %w", e)]. *)
Inductive Error :=
| ErrTenantMissing                 (* "tenant ID not found in context" *)
| ErrNoRows                        (* sql.ErrNoRows *)
| ErrTxDone                        (* sql.ErrTxDone *)
| ErrDriver                        (* an error reported by the driver or the database *)
| ErrNotFound (what : string) (id : Z)  (* "<what> with ID <id> not found" *)
| ErrNotFoundBy (what key : string)     (* "<what> <key> not found" *)
| ErrExists (what key : string)         (* "<what> <key> already exists" *)
| ErrValidation (field msg : string)    (* *model.ValidationError *)
| ErrMsg (msg : string)
| ErrWrap (msg : string) (e : Error).

(** [err.Error()]: the text of an error.  [driver] is the text of the
    error the driver or the database reported. *)
Fixpoint Error_ (driver : string) (e : Error) : string :=
  match e with
  | ErrTenantMissing => "tenant ID not found in context"
  | ErrNoRows => "sql: no rows in result set"
  | ErrTxDone => "sql: transaction has already been committed or rolled back"
  | ErrDriver => driver
  | ErrNotFound what id => what ++ " with ID " ++ GoInt.itoa id ++ " not found"
  | ErrNotFoundBy what key => what ++ " " ++ key ++ " not found"
  | ErrExists what key => what ++ " " ++ key ++ " already exists"
  | ErrValidation field msg => "validation error on field '" ++ field ++ "': " ++ msg
  | ErrMsg msg => msg
  | ErrWrap msg e => msg ++ ": " ++ Error_ driver e
  end.

(** ** Nullable wrappers of [database/sql] and the conversion helpers *)

Module sql.
Record NullString := { ns_String : string; ns_Valid : bool }.
Record NullTime := { nt_Time : Time; nt_Valid : bool }.
Record NullInt64 := { ni_Int64 : Z; ni_Valid : bool }.

(** [NullString.Value] and [NullString.Scan] of [database/sql], between
    the wrapper and a nullable column ([None] is SQL [NULL]); likewise
    for [NullTime]. *)
Definition valueString (ns : NullString) : option string :=
  if ns_Valid ns then Some (ns_String ns) else None.

Definition scanString (col : option string) : NullString :=
  match col with
  | None => {| ns_String := ""; ns_Valid := false |}
  | Some s => {| ns_String := s; ns_Valid := true |}
  end.

Definition valueTime (nt : NullTime) : option Time :=
  if nt_Valid nt then Some (nt_Time nt) else None.

Definition scanTime (col : option Time) : NullTime :=
  match col with
  | None => {| nt_Time := zeroTime; nt_Valid := false |}
  | Some t => {| nt_Time := t; nt_Valid := true |}
  end.
End sql.

Module Nullable.

(** [NullString]: [nil] becomes the invalid wrapper. *)
Definition NullString (s : option string) : sql.NullString :=
  match s with
  | None => {| sql.ns_String := ""; sql.ns_Valid := false |}
  | Some v => {| sql.ns_String := v; sql.ns_Valid := true |}
  end.

Definition StringFromNull (ns : sql.NullString) : option string :=
  if negb (sql.ns_Valid ns) then None else Some (sql.ns_String ns).

Definition NullTime (t : option Time) : sql.NullTime :=
  match t with
  | None => {| sql.nt_Time := zeroTime; sql.nt_Valid := false |}
  | Some v => {| sql.nt_Time := v; sql.nt_Valid := true |}
  end.

Definition TimeFromNull (nt : sql.NullTime) : option Time :=
  if negb (sql.nt_Valid nt) then None else Some (sql.nt_Time nt).

Definition NullInt64 (i : option Z) : sql.NullInt64 :=
  match i with
  | None => {| sql.ni_Int64 := 0; sql.ni_Valid := false |}
  | Some v => {| sql.ni_Int64 := v; sql.ni_Valid := true |}
  end.

Definition Int64FromNull (ni : sql.NullInt64) : option Z :=
  if negb (sql.ni_Valid ni) then None else Some (sql.ni_Int64 ni).

End Nullable.

(** ** Domain model (package [model]) *)

(** JSON-compatible values held by the free-form maps
    ([map[string]interface{}]). *)
Inductive JSON :=
| JNull
| JBool (b : bool)
| JNumber (z : Z)
| JString (s : string)
| JComposite (text : string).   (* arrays and nested objects, by their text *)

(** A pointer slot the embedded functions neither assign nor follow. *)
Definition Ref := positive.

(** [if p != nil { x = *p }] and [if p != nil { x = p }]. *)
Definition assign {A} (p : option A) (old : A) : A :=
  match p with Some v => v | None => old end.

Definition assignPtr {A} (p : option A) (old : option A) : option A :=
  match p with Some _ => p | None => old end.

(** The files of the sources disagree on the type of entity
    identifiers ([int64] in the model and in the customer and vehicle
    repositories, [string] in the handler); the entities are therefore
    parameterised by the identifier type [K].  [TenantID] is the string
    carried by the context, as the repository assigns it. *)

Module VehicleUpdate.
Section WithID.
Context {K : Type}.
Record t := mk {
  ID : K;
  Make : option string;
  Model : option string;
  Year : option Z;
  VIN : option string;
  LicensePlate : option string;
  Color : option string;
  Engine : option string;
  Notes : option string;
  IsActive : option bool;
  Metadata : option (gmap string JSON)
}.
End WithID.
Arguments t : clear implicits.
End VehicleUpdate.

Module VehicleCreate.
Section WithID.
Context {K : Type}.
Record t := mk {
  CustomerID : K;
  Make : string;
  Model : string;
  Year : Z;
  VIN : option string;
  LicensePlate : option string;
  Color : option string;
  Engine : option string;
  Notes : option string;
  Metadata : option (gmap string JSON)
}.
End WithID.
Arguments t : clear implicits.
End VehicleCreate.

Module VehicleFilter.
Record t := mk {
  CustomerID : Z;
  Search : string;
  ActiveOnly : bool;
  Page : Z;
  Limit : Z
}.
End VehicleFilter.

Module Vehicle.
Section WithID.
Context {K : Type}.

Record t := mk {
  ID : K;
  CustomerID : K;
  Make : string;
  Model : string;
  Year : Z;
  VIN : option string;
  LicensePlate : option string;
  Color : option string;
  Engine : option string;
  Notes : option string;
  IsActive : bool;
  Metadata : option (gmap string JSON);
  CreatedAt : Time;
  UpdatedAt : Time;
  (* not persisted *)
  Customer : option Ref
}.

(** [NewVehicle]; the identifier is the zero value [zero] of [K] until
    the insert returns one. *)
Definition NewVehicle (now : Time) (zero : K) (create : VehicleCreate.t K) : t :=
  {| ID := zero;
     CustomerID := VehicleCreate.CustomerID create;
     Make := VehicleCreate.Make create;
     Model := VehicleCreate.Model create;
     Year := VehicleCreate.Year create;
     VIN := VehicleCreate.VIN create;
     LicensePlate := VehicleCreate.LicensePlate create;
     Color := VehicleCreate.Color create;
     Engine := VehicleCreate.Engine create;
     Notes := VehicleCreate.Notes create;
     IsActive := true;
     Metadata := match VehicleCreate.Metadata create with
                 | None => Some ∅
                 | Some m => Some m
                 end;
     CreatedAt := now;
     UpdatedAt := now;
     Customer := None |}.

Definition setActive (now : Time) (b : bool) (v : t) : t :=
  {| ID := ID v; CustomerID := CustomerID v; Make := Make v; Model := Model v;
     Year := Year v; VIN := VIN v; LicensePlate := LicensePlate v;
     Color := Color v; Engine := Engine v; Notes := Notes v;
     IsActive := b;
     Metadata := Metadata v; CreatedAt := CreatedAt v;
     UpdatedAt := now;
     Customer := Customer v |}.

Definition Activate (now : Time) (v : t) : t := setActive now true v.
Definition Deactivate (now : Time) (v : t) : t := setActive now false v.

(** [UpdateFromUpdate]: one guarded assignment per field of the update,
    then [v.UpdatedAt = now]. *)
Definition UpdateFromUpdate (now : Time) (update : VehicleUpdate.t K) (v : t) : t :=
  {| ID := ID v;
     CustomerID := CustomerID v;
     Make := assign (VehicleUpdate.Make update) (Make v);
     Model := assign (VehicleUpdate.Model update) (Model v);
     Year := assign (VehicleUpdate.Year update) (Year v);
     VIN := assignPtr (VehicleUpdate.VIN update) (VIN v);
     LicensePlate := assignPtr (VehicleUpdate.LicensePlate update) (LicensePlate v);
     Color := assignPtr (VehicleUpdate.Color update) (Color v);
     Engine := assignPtr (VehicleUpdate.Engine update) (Engine v);
     Notes := assignPtr (VehicleUpdate.Notes update) (Notes v);
     IsActive := assign (VehicleUpdate.IsActive update) (IsActive v);
     Metadata := assignPtr (VehicleUpdate.Metadata update) (Metadata v);
     CreatedAt := CreatedAt v;
     UpdatedAt := now;
     Customer := Customer v |}.

Definition HasVIN (v : t) : bool :=
  match VIN v with
  | Some s => negb (GoString.isEmpty s)
  | None => false
  end.

(** The letters excluded from a VIN. *)
Definition prohibitedChars : string := "IOQ".

(** The nested [range] loops of [ValidateVIN]: some rune of [vin]
    equals some rune of [prohibitedChars]. *)
Definition hasProhibited (vin : string) : bool :=
  existsb (fun char => existsb (fun prohibited => char =? prohibited)
                               (GoString.runes prohibitedChars))
          (GoString.runes vin).

(** [ValidateVIN]: [None] is the [nil] error. *)
Definition ValidateVIN (v : t) : option Error :=
  match VIN v with
  | None => None
  | Some vin =>
      if GoString.isEmpty vin then None
      else if negb (GoString.len vin =? 17)
      then Some (ErrValidation "vin" "VIN debe tener exactamente 17 caracteres")
      else if hasProhibited vin
      then Some (ErrValidation "vin" "VIN no puede contener las letras I, O o Q")
      else None
  end.

Definition HasLicensePlate (v : t) : bool :=
  match LicensePlate v with
  | Some s => negb (GoString.isEmpty s)
  | None => false
  end.

(** [DisplayName]: [fmt.Sprintf("%d %s %s", v.Year, v.Make, v.Model)] *)
Definition DisplayName (v : t) : string :=
  GoInt.itoa (Year v) ++ " " ++ Make v ++ " " ++ Model v.

(** [FullDescription] *)
Definition FullDescription (v : t) : string :=
  let description := DisplayName v in
  let description :=
    match Color v with
    | Some color => if negb (GoString.isEmpty color)
                    then description ++ " (" ++ color ++ ")" else description
    | None => description
    end in
  match LicensePlate v with
  | Some plate => if negb (GoString.isEmpty plate)
                  then description ++ " - Placa: " ++ plate else description
  | None => description
  end.

(** [GetCompatibilityString]: [fmt.Sprintf("%s %s %d", ...)] *)
Definition GetCompatibilityString (v : t) : string :=
  Make v ++ " " ++ Model v ++ " " ++ GoInt.itoa (Year v).

(** [IsCompatibleWith]; [other] may be [nil].  The difference of the
    years and its negation are taken in [int]. *)
Definition IsCompatibleWith (v : t) (other : option t) : bool :=
  match other with
  | None => false
  | Some o =>
      if negb (String.eqb (Make v) (Make o)) || negb (String.eqb (Model v) (Model o))
      then false
      else
        let yearDiff := GoInt.wrap (Year v - Year o) in
        let yearDiff := if yearDiff <? 0 then GoInt.wrap (- yearDiff) else yearDiff in
        yearDiff <=? 3
  end.

(** [SetMetadata]: the map is made when it is [nil]. *)
Definition SetMetadata (now : Time) (key : string) (value : JSON) (v : t) : t :=
  {| ID := ID v; CustomerID := CustomerID v; Make := Make v; Model := Model v;
     Year := Year v; VIN := VIN v; LicensePlate := LicensePlate v;
     Color := Color v; Engine := Engine v; Notes := Notes v;
     IsActive := IsActive v;
     Metadata := Some (<[key := value]> (match Metadata v with
                                         | Some m => m
                                         | None => ∅
                                         end));
     CreatedAt := CreatedAt v;
     UpdatedAt := now;
     Customer := Customer v |}.

(** [GetMetadata]: the value and whether the key is there. *)
Definition GetMetadata (key : string) (v : t) : JSON * bool :=
  match Metadata v with
  | None => (JNull, false)
  | Some m => match m !! key with
              | Some value => (value, true)
              | None => (JNull, false)
              end
  end.

(** [GetMetadataString]: the value when it is a [string], else [""]. *)
Definition GetMetadataString (key : string) (v : t) : string :=
  match GetMetadata key v with
  | (JString str, true) => str
  | _ => ""
  end.

End WithID.
Arguments t : clear implicits.

(** [Validate], for the [int64] identifiers of the model file. *)
Definition Validate (v : t Z) : option Error :=
  if CustomerID v <=? 0
  then Some (ErrValidation "customer_id" "ID de cliente es requerido")
  else if GoString.isEmpty (Make v)
  then Some (ErrValidation "make" "la marca es requerida")
  else if GoString.isEmpty (Model v)
  then Some (ErrValidation "model" "el modelo es requerido")
  else if (Year v <? 1900) || (Year v >? 2100)
  then Some (ErrValidation "year" "año inválido")
  else match VIN v with
       | Some vin =>
           if (GoString.len vin >? 0) && negb (GoString.len vin =? 17)
           then Some (ErrValidation "vin" "VIN debe tener exactamente 17 caracteres")
           else None
       | None => None
       end.

End Vehicle.

Module CustomerNote.
Record t := mk {
  ID : string;
  CustomerID : string;
  StaffID : string;
  StaffName : string;
  Note : string;
  Type_ : string;
  CreatedAt : Time
}.
End CustomerNote.

Module CustomerNoteCreate.
Record t := mk {
  CustomerID : string;
  StaffID : string;
  StaffName : string;
  Note : string;
  Type_ : string
}.
End CustomerNoteCreate.

(** The functions of [customer_note.go]. *)
Module Note.

Definition NoteTypeGeneral : string := "general".
Definition NoteTypeService : string := "service".
Definition NoteTypeComplaint : string := "complaint".
Definition NoteTypeCompliment : string := "compliment".
Definition NoteTypeReminder : string := "reminder".
Definition NoteTypeWarning : string := "warning".

(** [NewCustomerNote]; the identifier is empty until the insert returns
    one, [now] is the instant read by [time.Now()]. *)
Definition NewCustomerNote (now : Time) (create : CustomerNoteCreate.t) : CustomerNote.t :=
  {| CustomerNote.ID := "";
     CustomerNote.CustomerID := CustomerNoteCreate.CustomerID create;
     CustomerNote.StaffID := CustomerNoteCreate.StaffID create;
     CustomerNote.StaffName := CustomerNoteCreate.StaffName create;
     CustomerNote.Note := CustomerNoteCreate.Note create;
     CustomerNote.Type_ := if GoString.isEmpty (CustomerNoteCreate.Type_ create)
                           then NoteTypeGeneral
                           else CustomerNoteCreate.Type_ create;
     CustomerNote.CreatedAt := now |}.

Definition IsComplaint (cn : CustomerNote.t) : bool :=
  String.eqb (CustomerNote.Type_ cn) NoteTypeComplaint.
Definition IsCompliment (cn : CustomerNote.t) : bool :=
  String.eqb (CustomerNote.Type_ cn) NoteTypeCompliment.
Definition IsService (cn : CustomerNote.t) : bool :=
  String.eqb (CustomerNote.Type_ cn) NoteTypeService.
Definition IsReminder (cn : CustomerNote.t) : bool :=
  String.eqb (CustomerNote.Type_ cn) NoteTypeReminder.
Definition IsWarning (cn : CustomerNote.t) : bool :=
  String.eqb (CustomerNote.Type_ cn) NoteTypeWarning.

(** [GetTypeDisplayName]: the [switch] on the type. *)
Definition GetTypeDisplayName (cn : CustomerNote.t) : string :=
  let ty := CustomerNote.Type_ cn in
  if String.eqb ty NoteTypeGeneral then "General"
  else if String.eqb ty NoteTypeService then "Servicio"
  else if String.eqb ty NoteTypeComplaint then "Queja"
  else if String.eqb ty NoteTypeCompliment then "Elogio"
  else if String.eqb ty NoteTypeReminder then "Recordatorio"
  else if String.eqb ty NoteTypeWarning then "Advertencia"
  else "Desconocido".

(** [ShortNote]; [None] is the panic of the slice expression
    [cn.Note[:maxLength-3]]. *)
Definition ShortNote (maxLength : Z) (cn : CustomerNote.t) : option string :=
  if GoString.len (CustomerNote.Note cn) <=? maxLength
  then Some (CustomerNote.Note cn)
  else match GoString.slice (CustomerNote.Note cn) 0 (GoInt.wrap (maxLength - 3)) with
       | Some head => Some (head ++ "...")
       | None => None
       end.

(** [GetValidNoteTypes] *)
Definition GetValidNoteTypes : list string :=
  [NoteTypeGeneral; NoteTypeService; NoteTypeComplaint;
   NoteTypeCompliment; NoteTypeReminder; NoteTypeWarning].

(** [isValidNoteType]: the loop over its own list of the six types. *)
Definition isValidNoteType (noteType : string) : bool :=
  existsb (fun validType => String.eqb noteType validType)
    [NoteTypeGeneral; NoteTypeService; NoteTypeComplaint;
     NoteTypeCompliment; NoteTypeReminder; NoteTypeWarning].

(** [GetNoteTypeDisplayNames] *)
Definition GetNoteTypeDisplayNames : gmap string string :=
  list_to_map [(NoteTypeGeneral, "General"); (NoteTypeService, "Servicio");
               (NoteTypeComplaint, "Queja"); (NoteTypeCompliment, "Elogio");
               (NoteTypeReminder, "Recordatorio"); (NoteTypeWarning, "Advertencia")].

(** [Validate]: [None] is the [nil] error. *)
Definition Validate (cn : CustomerNote.t) : option Error :=
  if GoString.isEmpty (CustomerNote.CustomerID cn)
  then Some (ErrValidation "customer_id" "ID de cliente es requerido")
  else if GoString.isEmpty (CustomerNote.StaffID cn)
  then Some (ErrValidation "staff_id" "ID de staff es requerido")
  else if GoString.isEmpty (CustomerNote.StaffName cn)
  then Some (ErrValidation "staff_name" "nombre del staff es requerido")
  else if GoString.isEmpty (CustomerNote.Note cn)
  then Some (ErrValidation "note" "el contenido de la nota es requerido")
  else if GoString.len (CustomerNote.Note cn) >? 2000
  then Some (ErrValidation "note" "la nota no puede exceder 2000 caracteres")
  else if negb (isValidNoteType (CustomerNote.Type_ cn))
  then Some (ErrValidation "type" "tipo de nota inválido")
  else None.

End Note.

Module CustomerUpdate.
Section WithID.
Context {K : Type}.
Record t := mk {
  ID : K;
  FirstName : option string;
  LastName : option string;
  Email : option string;
  Phone : option string;
  CustomerType : option string;
  CompanyName : option string;
  TaxID : option string;
  Address : option string;
  Birthday : option Time;
  Notes : option string;
  Preferences : option (gmap string JSON);
  IsActive : option bool
}.
End WithID.
Arguments t : clear implicits.
End CustomerUpdate.

Module CustomerCreate.
Record t := mk {
  TenantID : string;
  FirstName : string;
  LastName : string;
  Email : option string;
  Phone : option string;
  CustomerType : string;
  CompanyName : option string;
  TaxID : option string;
  Address : option string;
  Birthday : option Time;
  Notes : option string;
  Preferences : option (gmap string JSON)
}.
End CustomerCreate.

Module CustomerFilter.
Record t := mk {
  Search : string;
  CustomerType : string;
  ActiveOnly : bool;
  Page : Z;
  Limit : Z;
  SortBy : string;
  SortOrder : string
}.
End CustomerFilter.

Module Customer.

Definition CustomerTypeIndividual : string := "individual".
Definition CustomerTypeBusiness : string := "business".

Section WithID.
Context {K : Type}.

Record t := mk {
  ID : K;
  TenantID : string;
  FirstName : string;
  LastName : string;
  Email : option string;
  Phone : option string;
  CustomerType : string;
  CompanyName : option string;
  TaxID : option string;
  Address : option string;
  Birthday : option Time;
  Notes : option string;
  Preferences : option (gmap string JSON);
  IsActive : bool;
  CreatedAt : Time;
  UpdatedAt : Time;
  (* not persisted *)
  Vehicles : list (Vehicle.t K);
  CustomerNotes : list CustomerNote.t;
  Stats : option Ref
}.

Definition setActive (now : Time) (b : bool) (c : t) : t :=
  {| ID := ID c; TenantID := TenantID c; FirstName := FirstName c;
     LastName := LastName c; Email := Email c; Phone := Phone c;
     CustomerType := CustomerType c; CompanyName := CompanyName c;
     TaxID := TaxID c; Address := Address c; Birthday := Birthday c;
     Notes := Notes c; Preferences := Preferences c;
     IsActive := b;
     CreatedAt := CreatedAt c;
     UpdatedAt := now;
     Vehicles := Vehicles c; CustomerNotes := CustomerNotes c;
     Stats := Stats c |}.

Definition Activate (now : Time) (c : t) : t := setActive now true c.
Definition Deactivate (now : Time) (c : t) : t := setActive now false c.

(** [UpdateFromUpdate]: one guarded assignment per field of the update,
    then [c.UpdatedAt = now]. *)
Definition UpdateFromUpdate (now : Time) (update : CustomerUpdate.t K) (c : t) : t :=
  {| ID := ID c;
     TenantID := TenantID c;
     FirstName := assign (CustomerUpdate.FirstName update) (FirstName c);
     LastName := assign (CustomerUpdate.LastName update) (LastName c);
     Email := assignPtr (CustomerUpdate.Email update) (Email c);
     Phone := assignPtr (CustomerUpdate.Phone update) (Phone c);
     CustomerType := assign (CustomerUpdate.CustomerType update) (CustomerType c);
     CompanyName := assignPtr (CustomerUpdate.CompanyName update) (CompanyName c);
     TaxID := assignPtr (CustomerUpdate.TaxID update) (TaxID c);
     Address := assignPtr (CustomerUpdate.Address update) (Address c);
     Birthday := assignPtr (CustomerUpdate.Birthday update) (Birthday c);
     Notes := assignPtr (CustomerUpdate.Notes update) (Notes c);
     Preferences := assignPtr (CustomerUpdate.Preferences update) (Preferences c);
     IsActive := assign (CustomerUpdate.IsActive update) (IsActive c);
     CreatedAt := CreatedAt c;
     UpdatedAt := now;
     Vehicles := Vehicles c;
     CustomerNotes := CustomerNotes c;
     Stats := Stats c |}.

(** [containsChar]: a [range] loop comparing every rune with [char]. *)
Definition containsChar (s : string) (char : Z) : bool :=
  existsb (fun c => c =? char) (GoString.runes s).

Definition isValidEmail (email : string) : bool :=
  (GoString.len email >? 3) && (GoString.len email <=? 255)
  && containsChar email 64 (* '@' *) && containsChar email 46 (* '.' *).

Definition nonEmpty (p : option string) : bool :=
  match p with
  | Some s => negb (GoString.isEmpty s)
  | None => false
  end.

Definition Validate (c : t) : option Error :=
  if GoString.isEmpty (FirstName c)
  then Some (ErrValidation "first_name" "el nombre es requerido")
  else if GoString.isEmpty (LastName c)
  then Some (ErrValidation "last_name" "el apellido es requerido")
  else if negb (String.eqb (CustomerType c) CustomerTypeIndividual)
          && negb (String.eqb (CustomerType c) CustomerTypeBusiness)
  then Some (ErrValidation "customer_type" "tipo de cliente inválido")
  else if String.eqb (CustomerType c) CustomerTypeBusiness
          && negb (nonEmpty (CompanyName c))
  then Some (ErrValidation "company_name"
               "el nombre de la empresa es requerido para clientes empresariales")
  else match Email c with
       | Some email =>
           if negb (GoString.isEmpty email) && negb (isValidEmail email)
           then Some (ErrValidation "email" "formato de email inválido")
           else None
       | None => None
       end.

(** [FullName]: [fmt.Sprintf("%s %s", c.FirstName, c.LastName)] *)
Definition FullName (c : t) : string := FirstName c ++ " " ++ LastName c.

(** [DisplayName] *)
Definition DisplayName (c : t) : string :=
  match CompanyName c with
  | Some company =>
      if String.eqb (CustomerType c) CustomerTypeBusiness && negb (GoString.isEmpty company)
      then company else FullName c
  | None => FullName c
  end.

Definition IsIndividual (c : t) : bool := String.eqb (CustomerType c) CustomerTypeIndividual.
Definition IsBusiness (c : t) : bool := String.eqb (CustomerType c) CustomerTypeBusiness.

(** [SetPreference]: the map is made when it is [nil]; [now] is the
    instant read by [time.Now()]. *)
Definition SetPreference (now : Time) (key : string) (value : JSON) (c : t) : t :=
  {| ID := ID c; TenantID := TenantID c; FirstName := FirstName c;
     LastName := LastName c; Email := Email c; Phone := Phone c;
     CustomerType := CustomerType c; CompanyName := CompanyName c;
     TaxID := TaxID c; Address := Address c; Birthday := Birthday c;
     Notes := Notes c;
     Preferences := Some (<[key := value]> (match Preferences c with
                                            | Some m => m
                                            | None => ∅
                                            end));
     IsActive := IsActive c;
     CreatedAt := CreatedAt c;
     UpdatedAt := now;
     Vehicles := Vehicles c; CustomerNotes := CustomerNotes c;
     Stats := Stats c |}.

(** [GetPreference]: the value and whether the key is there; the value
    is [nil] ([JNull]) when it is not. *)
Definition GetPreference (key : string) (c : t) : JSON * bool :=
  match Preferences c with
  | None => (JNull, false)
  | Some m => match m !! key with
              | Some value => (value, true)
              | None => (JNull, false)
              end
  end.

(** [GetPreferenceString]: the value when it is a [string], else [""]. *)
Definition GetPreferenceString (key : string) (c : t) : string :=
  match GetPreference key c with
  | (JString str, true) => str
  | _ => ""
  end.

(** [GetPreferenceBool]: the value when it is a [bool], else [false]. *)
Definition GetPreferenceBool (key : string) (c : t) : bool :=
  match GetPreference key c with
  | (JBool b, true) => b
  | _ => false
  end.

Definition HasEmail (c : t) : bool := nonEmpty (Email c).
Definition HasPhone (c : t) : bool := nonEmpty (Phone c).
Definition HasBirthday (c : t) : bool :=
  match Birthday c with Some _ => true | None => false end.

(** [NewCustomer]; the identifier is the zero value [zero] of [K] until
    the insert returns one, [now] is the instant read by [time.Now()]. *)
Definition NewCustomer (now : Time) (zero : K) (create : CustomerCreate.t) : t :=
  {| ID := zero;
     TenantID := CustomerCreate.TenantID create;
     FirstName := CustomerCreate.FirstName create;
     LastName := CustomerCreate.LastName create;
     Email := CustomerCreate.Email create;
     Phone := CustomerCreate.Phone create;
     CustomerType := CustomerCreate.CustomerType create;
     CompanyName := CustomerCreate.CompanyName create;
     TaxID := CustomerCreate.TaxID create;
     Address := CustomerCreate.Address create;
     Birthday := CustomerCreate.Birthday create;
     Notes := CustomerCreate.Notes create;
     Preferences := match CustomerCreate.Preferences create with
                    | None => Some ∅
                    | Some m => Some m
                    end;
     IsActive := true;
     CreatedAt := now;
     UpdatedAt := now;
     Vehicles := [];
     CustomerNotes := [];
     Stats := None |}.

End WithID.
Arguments t : clear implicits.
End Customer.

(** ** Call context (package [context], tenant helpers of package [postgres]) *)

Module Ctx.

(** Keys are typed in Go: [TenantIDKey] is the only key of type
    [contextKey]; [OtherKey] stands for the keys of other packages. *)
Inductive Key := TenantIDKey | OtherKey (name : string).

(** A stored value: a string, or a value of some other dynamic type. *)
Inductive Value := VString (s : string) | VOther.

(** A context is the chain of [WithValue] frames, innermost first. *)
Definition Context := list (Key * Value).

Definition Background : Context := [].

Definition key_eqb (a b : Key) : bool :=
  match a, b with
  | TenantIDKey, TenantIDKey => true
  | OtherKey x, OtherKey y => String.eqb x y
  | _, _ => false
  end.

Definition WithValue (ctx : Context) (k : Key) (v : Value) : Context :=
  (k, v) :: ctx.

Fixpoint Value_ (ctx : Context) (k : Key) : option Value :=
  match ctx with
  | [] => None
  | (k', v) :: parent => if key_eqb k' k then Some v else Value_ parent k
  end.

(** [WithTenantID] *)
Definition WithTenantID (ctx : Context) (tenantID : string) : Context :=
  WithValue ctx TenantIDKey (VString tenantID).

(** [GetTenantID]: [ctx.Value(TenantIDKey).(string)] *)
Definition GetTenantID (ctx : Context) : string * bool :=
  match Value_ ctx TenantIDKey with
  | Some (VString s) => (s, true)
  | _ => ("", false)
  end.

(** [GetTenantIDFromContext] *)
Definition GetTenantIDFromContext (ctx : Context) : Error + string :=
  let '(tenantID, ok) := GetTenantID ctx in
  if negb ok then inl ErrTenantMissing else inr tenantID.

(** [WithTenantContext] *)
Definition WithTenantContext (ctx : Context) (tenantID : string) : Context :=
  WithTenantID ctx tenantID.

End Ctx.

(** ** gRPC handler: decoding of [UpdateCustomerRequest] *)

Module Handler.

Inductive Code := InvalidArgument | NotFound | AlreadyExists | Internal.

(** The request fields the handler reads.  A proto3 scalar that the
    caller omits arrives as the zero value of its type. *)
Record UpdateCustomerRequest := {
  Id : string;
  FirstName : string;
  LastName : string;
  Email : string;
  Phone : string;
  CustomerType : string;
  CompanyName : string;
  TaxId : string;
  Address : string;
  Birthday : option Time;                       (* *timestamppb.Timestamp *)
  Notes : string;
  Preferences : option (gmap string JSON);      (* *structpb.Struct *)
  IsActive : bool
}.

(** [if s != "" { update.F = &s }] *)
Definition ptrIfNonEmpty (s : string) : option string :=
  if negb (GoString.isEmpty s) then Some s else None.

(** [stringPtrFromProto] *)
Definition stringPtrFromProto (s : string) : option string :=
  if GoString.isEmpty s then None else Some s.

(** The first part of [CustomerHandler.UpdateCustomer]: the check of
    the id and the construction of [update] from the request. *)
Definition UpdateCustomer_decode (req : UpdateCustomerRequest)
  : Code * string + CustomerUpdate.t string :=
  if GoString.isEmpty (Id req)
  then inl (InvalidArgument, "customer ID is required")
  else inr {| CustomerUpdate.ID := Id req;
              CustomerUpdate.FirstName := ptrIfNonEmpty (FirstName req);
              CustomerUpdate.LastName := ptrIfNonEmpty (LastName req);
              CustomerUpdate.Email := ptrIfNonEmpty (Email req);
              CustomerUpdate.Phone := ptrIfNonEmpty (Phone req);
              CustomerUpdate.CustomerType := ptrIfNonEmpty (CustomerType req);
              CustomerUpdate.CompanyName := ptrIfNonEmpty (CompanyName req);
              CustomerUpdate.TaxID := ptrIfNonEmpty (TaxId req);
              CustomerUpdate.Address := ptrIfNonEmpty (Address req);
              CustomerUpdate.Birthday := Birthday req;
              CustomerUpdate.Notes := ptrIfNonEmpty (Notes req);
              CustomerUpdate.Preferences := Preferences req;
              CustomerUpdate.IsActive := Some (IsActive req) |}.

(** *** Classification of errors *)

(** The loop of [findSubstring] from position [i], with [fuel]
    positions left to try. *)
Fixpoint findFrom (fuel i : nat) (s substr : string) : bool :=
  match fuel with
  | O => false
  | S fuel =>
      if String.eqb (String.substring i (String.length substr) s) substr then true
      else findFrom fuel (S i) s substr
  end.

(** [findSubstring]: [for i := 0; i <= len(s)-len(substr); i++] *)
Definition findSubstring (s substr : string) : bool :=
  findFrom (Z.to_nat (GoString.len s - GoString.len substr + 1)) 0 s substr.

(** [containsString] *)
Definition containsString (s substr : string) : bool :=
  (GoString.len s >=? GoString.len substr)
  && (String.eqb s substr
      || ((GoString.len s >? GoString.len substr)
          && (String.eqb (String.substring 0 (String.length substr) s) substr
              || String.eqb (String.substring (String.length s - String.length substr)
                               (String.length substr) s) substr
              || findSubstring s substr))).

(** [isNotFoundError]; [None] is the [nil] error. *)
Definition isNotFoundError (driver : string) (err : option Error) : bool :=
  match err with
  | Some ErrNoRows => true
  | Some e => containsString (Error_ driver e) "not found"
              || containsString (Error_ driver e) "does not exist"
  | None => false
  end.

(** [isValidationError] *)
Definition isValidationError (driver : string) (err : option Error) : bool :=
  match err with
  | None => false
  | Some (ErrValidation _ _) => true
  | Some e => containsString (Error_ driver e) "validation error"
  end.

(** [isDuplicateError] *)
Definition isDuplicateError (driver : string) (err : option Error) : bool :=
  match err with
  | None => false
  | Some e => containsString (Error_ driver e) "already exists"
              || containsString (Error_ driver e) "duplicate"
              || containsString (Error_ driver e) "unique constraint"
  end.

(** The status a handler answers with for the error [err] of the
    service: the [if isNotFoundError(err) ... ] chains of [GetCustomer],
    [CreateCustomer], [UpdateCustomer] and [DeleteCustomer]. *)
Definition GetCustomer_status (driver : string) (err : Error) : Code * string :=
  if isNotFoundError driver (Some err) then (NotFound, "customer not found")
  else (Internal, "failed to get customer: " ++ Error_ driver err).

Definition CreateCustomer_status (driver : string) (err : Error) : Code * string :=
  if isValidationError driver (Some err)
  then (InvalidArgument, "validation error: " ++ Error_ driver err)
  else if isDuplicateError driver (Some err)
  then (AlreadyExists, "customer already exists: " ++ Error_ driver err)
  else (Internal, "failed to create customer: " ++ Error_ driver err).

Definition UpdateCustomer_status (driver : string) (err : Error) : Code * string :=
  if isNotFoundError driver (Some err) then (NotFound, "customer not found")
  else if isValidationError driver (Some err)
  then (InvalidArgument, "validation error: " ++ Error_ driver err)
  else if isDuplicateError driver (Some err)
  then (AlreadyExists, "customer already exists: " ++ Error_ driver err)
  else (Internal, "failed to update customer: " ++ Error_ driver err).

Definition DeleteCustomer_status (driver : string) (err : Error) : Code * string :=
  if isNotFoundError driver (Some err) then (NotFound, "customer not found")
  else (Internal, "failed to delete customer: " ++ Error_ driver err).

End Handler.

(** ** Interceptors (package [middleware]) *)

Module Middleware.

(** [metadata.MD]: the values under each (lower-case) key. *)
Definition MD := gmap string (list string).

(** [md.Get(k)] for a lower-case key. *)
Definition Get (md : MD) (k : string) : list string :=
  match md !! k with Some vs => vs | None => [] end.

(** [TenantInterceptor] and [StreamTenantInterceptor], without their
    log lines.  [md] is what [metadata.FromIncomingContext(ctx)]
    finds, [None] when there is no metadata; [handler] is the rest of
    the call. *)
Definition TenantInterceptor {R} (md : option MD) (ctx : Ctx.Context)
  (handler : Ctx.Context -> R) : Handler.Code * string + R :=
  match md with
  | None => inl (Handler.InvalidArgument, "tenant_id is required")
  | Some md =>
      match Get md "x-tenant-id" with
      | [] => inl (Handler.InvalidArgument, "tenant_id is required")
      | tenantID :: _ =>
          if GoString.isEmpty tenantID
          then inl (Handler.InvalidArgument, "tenant_id is required")
          else inr (handler (Ctx.WithTenantID ctx tenantID))
      end
  end.

End Middleware.

(** ** The database behind [*sql.DB] *)

Module Db.

(** *** Statements *)

(** A condition of a [WHERE] clause, with the argument its placeholder
    refers to. *)
Inductive CustomerCond :=
| CSearch (pattern : string)   (* first_name/last_name/email/company_name ILIKE $n *)
| CType (customerType : string) (* customer_type = $n *)
| CActive.                      (* is_active = true *)

Inductive VehicleCond :=
| VCustomer (customerID : Z)   (* v.customer_id = $n *)
| VSearch (pattern : string)   (* v.make/model/vin/license_plate ILIKE $n *)
| VActive.                     (* v.is_active = true *)

(** [ORDER BY] of the customer list: a column group and [DESC]. *)
Inductive CustomerOrder :=
| OrderCreatedAt (desc : bool)
| OrderName (desc : bool)
| OrderCompanyName (desc : bool).

(** The arguments of [UPDATE customers SET ... WHERE id = $1]. *)
Record CustomerArgs := {
  a_id : Z;
  a_first_name : string;
  a_last_name : string;
  a_email : sql.NullString;
  a_phone : sql.NullString;
  a_customer_type : string;
  a_company_name : sql.NullString;
  a_tax_id : sql.NullString;
  a_address : sql.NullString;
  a_birthday : sql.NullTime;
  a_notes : sql.NullString;
  a_preferences : option (gmap string JSON);
  a_is_active : bool;
  a_updated_at : Time
}.

(** The statements of the repositories.  The ones the properties below
    depend on are kept structured; [QOther] is any other statement, by
    a short form of its text and its numeric arguments. *)
Inductive Query :=
| QCustomerByID (id : Z)
| QCustomerUpdate (args : CustomerArgs)
| QCustomerDelete (id : Z)
| QCustomerCount (where_ : list CustomerCond)
| QCustomerSelect (where_ : list CustomerCond) (order : CustomerOrder)
                  (limit offset : Z)
| QVehicleCount (where_ : list VehicleCond)
| QVehicleSelect (where_ : list VehicleCond) (limit offset : Z)
| QOther (text : string) (nums : list Z).

(** What is sent on a connection: the tenant directive
    [SET app.current_tenant_id = '<tenantID>'] or a statement. *)
Inductive Stmt :=
| SetTenant (tenantID : string)
| Sql (q : Query).

(** *** Tables and results *)

Record Tables := {
  customers : list (Customer.t Z);
  vehicles : list (Vehicle.t Z)
}.

Inductive Rows :=
| RCustomers (l : list (Customer.t Z))
| RVehicles (l : list (Vehicle.t Z))
| RNotes (l : list CustomerNote.t)
| RCount (n : Z)                              (* SELECT COUNT *)
| RReturning (l : list (Z * Time * Time))     (* RETURNING id, created_at, updated_at *)
| RNoteReturning (l : list (string * Time))   (* RETURNING id, created_at *)
| RTypeCounts (l : list (string * Z))
| RStaff (l : list (string * string * Z * Time))
| RNone.

Record Reply := { rows : Rows; affected : Z }.

(** What the sources leave to the database: the text operators of the
    engine, [ILIKE] (pattern, text) and the collation order of text,
    and what the foreign key of [vehicles] to [customers] does when a
    customer is deleted ([fk_cascade]: the vehicles that refer to it go
    with it; otherwise the delete is refused). *)
Record Engine := {
  ilike : string -> string -> bool;
  text_leb : string -> string -> bool;
  fk_cascade : bool
}.

(** [ILIKE] and comparison on a nullable column: [NULL] never matches. *)
Definition ilikeNull (eng : Engine) (pattern : string) (col : option string) : bool :=
  match col with Some s => ilike eng pattern s | None => false end.

(** What the database reads in the string constant ['<text>'] of the
    directive, into which the code splices the tenant id as it is: the
    text itself when it holds no quote; two quotes in a row stand for
    one (a backslash is an ordinary character, as it is with
    [standard_conforming_strings] on, the default).  A text in which a
    quote stands alone does not make one
    constant: the statement is then no directive of any tenant (the
    database refuses it, or reads something else in it, which is not
    followed here). *)
Fixpoint literalValue (text : string) : option string :=
  match text with
  | EmptyString => Some EmptyString
  | String a rest =>
      if Ascii.eqb a "'"
      then match rest with
           | String b rest' =>
               if Ascii.eqb b "'" then String "'" <$> literalValue rest' else None
           | EmptyString => None
           end
      else String a <$> literalValue rest
  end.

(** Modelled from the spec: the row-level policy of the schema, which is
    not among the sources.  A [customers] row is visible to a session
    exactly when its [tenant_id] is the session's current tenant, the
    value the database read in the last directive; a session without
    directive sees no row. *)
Definition visible (session : option string) (c : Customer.t Z) : bool :=
  match session with
  | Some tenantID =>
      match literalValue tenantID with
      | Some current => String.eqb (Customer.TenantID c) current
      | None => false
      end
  | None => false
  end.

Definition customerCond (eng : Engine) (cond : CustomerCond) (c : Customer.t Z) : bool :=
  match cond with
  | CSearch p => ilike eng p (Customer.FirstName c)
                 || ilike eng p (Customer.LastName c)
                 || ilikeNull eng p (Customer.Email c)
                 || ilikeNull eng p (Customer.CompanyName c)
  | CType ty => String.eqb (Customer.CustomerType c) ty
  | CActive => Customer.IsActive c
  end.

Definition vehicleCond (eng : Engine) (cond : VehicleCond) (v : Vehicle.t Z) : bool :=
  match cond with
  | VCustomer id => Vehicle.CustomerID v =? id
  | VSearch p => ilike eng p (Vehicle.Make v)
                 || ilike eng p (Vehicle.Model v)
                 || ilikeNull eng p (Vehicle.VIN v)
                 || ilikeNull eng p (Vehicle.LicensePlate v)
  | VActive => Vehicle.IsActive v
  end.

(** [FROM customers WHERE <conds>] under the session's policy. *)
Definition customersWhere (eng : Engine) (session : option string)
  (conds : list CustomerCond) (tb : Tables) : list (Customer.t Z) :=
  List.filter
    (fun c => visible session c && forallb (fun cond => customerCond eng cond c) conds)
    (customers tb).

(** [FROM vehicles v INNER JOIN customers c ON v.customer_id = c.id
    WHERE <conds>]: one row per vehicle and visible customer it joins. *)
Definition vehiclesWhere (eng : Engine) (session : option string)
  (conds : list VehicleCond) (tb : Tables) : list (Vehicle.t Z) :=
  v ← vehicles tb;
  c ← customers tb;
  if visible session c && (Vehicle.CustomerID v =? Customer.ID c)
     && forallb (fun cond => vehicleCond eng cond v) conds
  then [v] else [].

(** *** ORDER BY, LIMIT, OFFSET *)

(** Lexicographic combination of two "may precede" tests. *)
Definition lexLeb {A} (le1 le2 : A -> A -> bool) (x y : A) : bool :=
  if le1 x y then (if le1 y x then le2 x y else true) else false.

Definition dir {A} (desc : bool) (le : A -> A -> bool) (x y : A) : bool :=
  if desc then le y x else le x y.

(** A nullable text column: [NULL] sorts after every text. *)
Definition nullLeb (eng : Engine) (a b : option string) : bool :=
  match a, b with
  | _, None => true
  | None, Some _ => false
  | Some x, Some y => text_leb eng x y
  end.

Definition customerLeb (eng : Engine) (o : CustomerOrder)
  : Customer.t Z -> Customer.t Z -> bool :=
  match o with
  | OrderCreatedAt desc =>
      dir desc (fun x y => Customer.CreatedAt x <=? Customer.CreatedAt y)
  | OrderName desc =>
      lexLeb (dir desc (fun x y => text_leb eng (Customer.FirstName x) (Customer.FirstName y)))
             (dir desc (fun x y => text_leb eng (Customer.LastName x) (Customer.LastName y)))
  | OrderCompanyName desc =>
      dir desc (fun x y => nullLeb eng (Customer.CompanyName x) (Customer.CompanyName y))
  end.

(** [ORDER BY v.year DESC, v.make, v.model] *)
Definition vehicleLeb (eng : Engine) : Vehicle.t Z -> Vehicle.t Z -> bool :=
  lexLeb (fun x y => Vehicle.Year y <=? Vehicle.Year x)
    (lexLeb (fun x y => text_leb eng (Vehicle.Make x) (Vehicle.Make y))
            (fun x y => text_leb eng (Vehicle.Model x) (Vehicle.Model y))).

(** Rows in the order of [leb]; rows that compare equal keep the order
    of the table. *)
Definition orderBy {A} (leb : A -> A -> bool) (l : list A) : list A :=
  merge_sort (fun x y => Is_true (leb x y)) l.

(** [LIMIT limit OFFSET offset] *)
Definition limitOffset {A} (limit offset : Z) (l : list A) : list A :=
  take (Z.to_nat limit) (drop (Z.to_nat offset) l).

(** The rows a customer list statement ranges over, in order. *)
Definition customersOrdered (eng : Engine) (session : option string)
  (conds : list CustomerCond) (o : CustomerOrder) (tb : Tables) : list (Customer.t Z) :=
  orderBy (customerLeb eng o) (customersWhere eng session conds tb).

Definition vehiclesOrdered (eng : Engine) (session : option string)
  (conds : list VehicleCond) (tb : Tables) : list (Vehicle.t Z) :=
  orderBy (vehicleLeb eng) (vehiclesWhere eng session conds tb).

(** *** Evaluation of a statement *)

(** The row [UPDATE customers SET ...] leaves in place of [row]. *)
Definition applyArgs (a : CustomerArgs) (row : Customer.t Z) : Customer.t Z :=
  {| Customer.ID := Customer.ID row;
     Customer.TenantID := Customer.TenantID row;
     Customer.FirstName := a_first_name a;
     Customer.LastName := a_last_name a;
     Customer.Email := sql.valueString (a_email a);
     Customer.Phone := sql.valueString (a_phone a);
     Customer.CustomerType := a_customer_type a;
     Customer.CompanyName := sql.valueString (a_company_name a);
     Customer.TaxID := sql.valueString (a_tax_id a);
     Customer.Address := sql.valueString (a_address a);
     Customer.Birthday := sql.valueTime (a_birthday a);
     Customer.Notes := sql.valueString (a_notes a);
     Customer.Preferences := a_preferences a;
     Customer.IsActive := a_is_active a;
     Customer.CreatedAt := Customer.CreatedAt row;
     Customer.UpdatedAt := a_updated_at a;
     Customer.Vehicles := Customer.Vehicles row;
     Customer.CustomerNotes := Customer.CustomerNotes row;
     Customer.Stats := Customer.Stats row |}.

(** [WHERE id = $1] under the session's policy. *)
Definition targets (session : option string) (id : Z) (c : Customer.t Z) : bool :=
  visible session c && (Customer.ID c =? id).

Definition withCustomers (l : list (Customer.t Z)) (tb : Tables) : Tables :=
  {| customers := l; vehicles := vehicles tb |}.

(** Vehicle [v] refers to one of the customers [hit]. *)
Definition references (hit : list (Customer.t Z)) (v : Vehicle.t Z) : bool :=
  existsb (fun c => Vehicle.CustomerID v =? Customer.ID c) hit.

Definition reply (r : Rows) (n : Z) : Reply := {| rows := r; affected := n |}.

Definition count {A} (l : list A) : Z := Z.of_nat (length l).

(** [eval eng session other q tb]: what statement [q] returns and the
    tables it leaves, on a connection whose current tenant is
    [session].  [other] is the answer to a statement that is not
    interpreted ([affected] is then its first number, if any).  A
    negative [LIMIT] or [OFFSET] is an error.

    Modelled from the spec: vehicles foreign-key to customers (the
    schema is not among the sources, and the spec does not say what
    the key does on delete).  [DELETE FROM customers] on a customer
    some vehicle refers to deletes those vehicles too when the key
    cascades and is refused otherwise.  The notes are no part of
    [Tables]: a delete their key refuses is one of the statements the
    schedule lets fail. *)
Definition eval (eng : Engine) (session : option string) (other : Rows * Z)
  (q : Query) (tb : Tables) : (Error + Reply) * Tables :=
  match q with
  | QCustomerByID id =>
      let l := List.filter (targets session id) (customers tb) in
      (inr (reply (RCustomers l) (count l)), tb)
  | QCustomerUpdate a =>
      let hit := List.filter (targets session (a_id a)) (customers tb) in
      (inr (reply RNone (count hit)),
       withCustomers
         ((fun c => if targets session (a_id a) c then applyArgs a c else c)
            <$> customers tb) tb)
  | QCustomerDelete id =>
      let hit := List.filter (targets session id) (customers tb) in
      let others := List.filter (fun c => negb (targets session id c)) (customers tb) in
      if existsb (references hit) (vehicles tb)
      then if fk_cascade eng
           then (inr (reply RNone (count hit)),
                 {| customers := others;
                    vehicles := List.filter (fun v => negb (references hit v)) (vehicles tb) |})
           else (inl ErrDriver, tb)
      else (inr (reply RNone (count hit)), withCustomers others tb)
  | QCustomerCount conds =>
      (inr (reply (RCount (count (customersWhere eng session conds tb))) 0), tb)
  | QCustomerSelect conds o limit offset =>
      if (limit <? 0) || (offset <? 0) then (inl ErrDriver, tb)
      else let l := limitOffset limit offset (customersOrdered eng session conds o tb) in
           (inr (reply (RCustomers l) (count l)), tb)
  | QVehicleCount conds =>
      (inr (reply (RCount (count (vehiclesWhere eng session conds tb))) 0), tb)
  | QVehicleSelect conds limit offset =>
      if (limit <? 0) || (offset <? 0) then (inl ErrDriver, tb)
      else let l := limitOffset limit offset (vehiclesOrdered eng session conds tb) in
           (inr (reply (RVehicles l) (count l)), tb)
  | QOther _ _ => (inr (reply (fst other) (snd other)), tb)
  end.

End Db.

(** ** The pooled handle and the session-scoped store (package [postgres]) *)

Module Postgres.
Import Db.

(** *** Outcomes and the monad of database computations *)

(** A call returns a value, returns an error, or panics. *)
Inductive Res (A : Type) :=
| Ok (a : A)
| Fail (e : Error)
| Panic.
Arguments Ok {A} a.
Arguments Fail {A} e.
Arguments Panic {A}.

(** A connection of the pool: the tenant its session is scoped to (the
    tenant id of the last directive executed on it, as the code spliced
    it into the statement; [visible] reads it the way the database
    reads that constant) and, while a transaction holds it, the state
    to restore on rollback. *)
Record Conn := {
  session : option string;
  held : option (Tables * option string)
}.

(** What the pool and the database decide for one call: the connection
    handed out, whether the statement succeeds, and the answer (rows,
    rows affected) to a statement that is not interpreted. *)
Record Pick := {
  pick_conn : nat;
  pick_ok : bool;
  pick_rows : Rows;
  pick_affected : Z
}.

(** What reaches the database, in order.  [EvStmt conn session s]:
    statement [s] was sent on connection [conn], whose session was
    scoped to [session] at that moment. *)
Inductive Event :=
| EvStmt (conn : nat) (session : option string) (s : Stmt)
| EvBegin (conn : nat)
| EvCommit (conn : nat)
| EvRollback (conn : nat).

(** The world of a [*sql.DB]: the engine, the connections of the pool,
    the tables, the trace, and the schedule [sched], read at [clock],
    that resolves the choices [database/sql] leaves open. *)
Record World := {
  engine : Engine;
  conns : list Conn;
  tables : Tables;
  log : list Event;
  clock : nat;
  sched : nat -> Pick
}.

Definition M (A : Type) : Type := World -> Res A * World.

Definition ret {A} (a : A) : M A := fun w => (Ok a, w).
Definition fail {A} (e : Error) : M A := fun w => (Fail e, w).
Definition panic {A} : M A := fun w => (Panic, w).

Definition bind {A B} (m : M A) (k : A -> M B) : M B := fun w =>
  match m w with
  | (Ok a, w') => k a w'
  | (Fail e, w') => (Fail e, w')
  | (Panic, w') => (Panic, w')
  end.

(** [x, err := m; if err != nil { ... }]: the error becomes a value; a
    panic still propagates. *)
Definition try {A} (m : M A) : M (Error + A) := fun w =>
  match m w with
  | (Ok a, w') => (Ok (inr a), w')
  | (Fail e, w') => (Ok (inl e), w')
  | (Panic, w') => (Panic, w')
  end.

(** [if err != nil { return fmt.Errorf("msg: %w", err) }] *)
Definition wrap {A} (msg : string) (m : M A) : M A := fun w =>
  match m w with
  | (Fail e, w') => (Fail (ErrWrap msg e), w')
  | r => r
  end.

Definition lift {A} (r : Error + A) : M A :=
  match r with inl e => fail e | inr a => ret a end.

Declare Scope db_scope.
Delimit Scope db_scope with db.
Notation "x <- m ;; k" := (bind m (fun x => k))
  (at level 100, m at next level, right associativity) : db_scope.
Notation "m ;; k" := (bind m (fun _ => k))
  (at level 100, right associativity) : db_scope.
Local Open Scope db_scope.

(** *** State access *)

Definition setConns (l : list Conn) (w : World) : World :=
  {| engine := engine w; conns := l; tables := tables w; log := log w;
     clock := clock w; sched := sched w |}.

Definition setTables (tb : Tables) (w : World) : World :=
  {| engine := engine w; conns := conns w; tables := tb; log := log w;
     clock := clock w; sched := sched w |}.

Definition addLog (e : Event) (w : World) : World :=
  {| engine := engine w; conns := conns w; tables := tables w;
     log := log w ++ [e]; clock := clock w; sched := sched w |}.

Definition tick (w : World) : World :=
  {| engine := engine w; conns := conns w; tables := tables w; log := log w;
     clock := S (clock w); sched := sched w |}.

Definition setSession (s : option string) (c : Conn) : Conn :=
  {| session := s; held := held c |}.

Definition setHeld (h : option (Tables * option string)) (c : Conn) : Conn :=
  {| session := session c; held := h |}.

Definition fresh : Conn := {| session := None; held := None |}.

Definition sessionOf (i : nat) (w : World) : option string :=
  c ← conns w !! i; session c.

Definition heldOf (i : nat) (w : World) : option (Tables * option string) :=
  c ← conns w !! i; held c.

(** *** The pool *)

(** The pool hands out the connection of the schedule when it exists
    and no transaction holds it, and a newly opened one otherwise. *)
Definition acquire : M (nat * Pick) := fun w =>
  let p := sched w (clock w) in
  let w := tick w in
  match conns w !! pick_conn p with
  | Some {| held := None |} => (Ok (pick_conn p, p), w)
  | _ => (Ok (length (conns w), p), setConns (conns w ++ [fresh]) w)
  end.

(** One statement on connection [i].  The directive leaves the session
    with the tenant id as the code put it between the quotes of
    [SET app.current_tenant_id = '...']; what the database reads there
    is [literalValue], which [visible] applies. *)
Definition send (i : nat) (p : Pick) (s : Stmt) : M Reply := fun w =>
  let sess := sessionOf i w in
  let w := addLog (EvStmt i sess s) w in
  if negb (pick_ok p) then (Fail ErrDriver, w)
  else match s with
       | SetTenant tenantID =>
           (Ok (reply RNone 0),
            setConns (alter (setSession (Some tenantID)) i (conns w)) w)
       | Sql q =>
           let '(r, tb) := eval (engine w) sess (pick_rows p, pick_affected p) q (tables w) in
           (match r with inl e => Fail e | inr x => Ok x end, setTables tb w)
       end.

(** [db.ExecContext], [db.QueryContext]: a connection of the pool for
    this call alone. *)
Definition ExecContext (s : Stmt) : M Reply :=
  ip <- acquire ;; send (fst ip) (snd ip) s.

Definition QueryContext (s : Stmt) : M Rows :=
  r <- ExecContext s ;; ret (rows r).

(** [*sql.Row]: the rows, or the error [Scan] will report. *)
Definition Row : Type := Error + Rows.

(** [db.QueryRowContext] never returns an error itself. *)
Definition QueryRowContext (s : Stmt) : M Row :=
  r <- try (QueryContext s) ;; ret r.

(** *** Transactions *)

(** [*sql.Tx]: the connection the transaction owns. *)
Record Tx := { tx_conn : nat }.

(** [db.BeginTx]: a connection of the pool, held until commit or
    rollback; the state at this point is what a rollback restores. *)
Definition BeginTx : M Tx :=
  ip <- acquire ;;
  fun w =>
    let i := fst ip in
    if negb (pick_ok (snd ip)) then (Fail ErrDriver, w)
    else (Ok {| tx_conn := i |},
          addLog (EvBegin i)
            (setConns (alter (setHeld (Some (tables w, sessionOf i w))) i (conns w)) w)).

(** [tx.ExecContext] / [tx.QueryRowContext]: on the connection of the
    transaction. *)
Definition Tx_ExecContext (tx : Tx) (s : Stmt) : M Reply := fun w =>
  match heldOf (tx_conn tx) w with
  | None => (Fail ErrTxDone, w)
  | Some _ => send (tx_conn tx) (sched w (clock w)) s (tick w)
  end.

(** The connection goes back to the pool with the saved state. *)
Definition release (restore : bool) (i : nat) (saved : Tables * option string)
  (w : World) : World :=
  if restore
  then setTables (fst saved)
         (setConns (alter (fun c => setHeld None (setSession (snd saved) c)) i (conns w)) w)
  else setConns (alter (setHeld None) i (conns w)) w.

(** [tx.Rollback] *)
Definition Tx_Rollback (tx : Tx) : M unit := fun w =>
  match heldOf (tx_conn tx) w with
  | None => (Fail ErrTxDone, w)
  | Some saved =>
      (Ok tt, release true (tx_conn tx) saved (addLog (EvRollback (tx_conn tx)) w))
  end.

(** [tx.Commit]; a commit the database refuses leaves nothing of the
    transaction. *)
Definition Tx_Commit (tx : Tx) : M unit := fun w =>
  match heldOf (tx_conn tx) w with
  | None => (Fail ErrTxDone, w)
  | Some saved =>
      let p := sched w (clock w) in
      let w := addLog (EvCommit (tx_conn tx)) (tick w) in
      if pick_ok p then (Ok tt, release false (tx_conn tx) saved w)
      else (Fail ErrDriver, release true (tx_conn tx) saved w)
  end.

(** *** The session-scoped store *)

(** [SetTenantID]: the directive, by [db.ExecContext]. *)
Definition SetTenantID (tenantID : string) : M unit :=
  ExecContext (SetTenant tenantID) ;; ret tt.

(** [BeginTxWithTenant] *)
Definition BeginTxWithTenant (tenantID : string) : M Tx :=
  tx <- BeginTx ;;
  r <- try (Tx_ExecContext tx (SetTenant tenantID)) ;;
  match r with
  | inl err => try (Tx_Rollback tx) ;; fail (ErrWrap "failed to set tenant ID" err)
  | inr _ => ret tx
  end.

(** [ExecWithTenant] *)
Definition ExecWithTenant (tenantID : string) (query : Query) : M Reply :=
  SetTenantID tenantID ;;
  ExecContext (Sql query).

(** [QueryWithTenant] *)
Definition QueryWithTenant (tenantID : string) (query : Query) : M Rows :=
  SetTenantID tenantID ;;
  QueryContext (Sql query).

(** [QueryRowWithTenant]: the error of the directive is dropped. *)
Definition QueryRowWithTenant (tenantID : string) (query : Query) : M Row :=
  try (SetTenantID tenantID) ;;
  QueryRowContext (Sql query).

(** [TransactionWithTenant] *)
Definition TransactionWithTenant (tenantID : string) (fn : Tx -> M unit) : M unit :=
  tx <- BeginTxWithTenant tenantID ;;
  r <- try (fn tx) ;;
  match r with
  | inl err => try (Tx_Rollback tx) ;; fail err
  | inr _ => Tx_Commit tx
  end.

(** *** Functions passed to [TransactionWithTenant] *)

(** A function that works through the transaction handle alone: it
    sends statements on the transaction and, from their results, goes
    on, returns ([None] is [nil]) or panics. *)
Inductive TxProg :=
| TxReturn (err : option Error)
| TxPanic
| TxExec (q : Query) (k : Error + Reply -> TxProg).

Fixpoint runTx (p : TxProg) (tx : Tx) : M unit :=
  match p with
  | TxReturn None => ret tt
  | TxReturn (Some err) => fail err
  | TxPanic => panic
  | TxExec q k => r <- try (Tx_ExecContext tx (Sql q)) ;; runTx (k r) tx
  end.

End Postgres.

(** *** Rows as maps *)

Module Scan.

(** A column value as the driver hands it to [Scan] into an
    [interface{}]: [nil], [int64], [float64] (by its bits), [bool],
    [[]byte], [string] or [time.Time]. *)
Inductive Value :=
| VNil
| VInt (z : Z)
| VFloat (bits : Z)
| VBool (b : bool)
| VBytes (b : string)
| VString (s : string)
| VTime (t : Time).

(** [*sql.Rows] as [ScanRowsToMap] reads it: what [Columns] returns and
    the rows [Next] steps through before it returns [false]. *)
Record Rows := {
  columns : Error + list string;
  data : list (list Value)
}.

(** [if b, ok := val.([]byte); ok { v = string(b) } else { v = val }] *)
Definition textOf (val : Value) : Value :=
  match val with
  | VBytes b => VString b
  | _ => val
  end.

(** The loop over [columns] that fills [rowMap]. *)
Definition rowMap (columns : list string) (values : list Value) : gmap string Value :=
  foldl (fun m cv => <[fst cv := textOf (snd cv)]> m) ∅ (zip columns values).

(** The loop over [rows.Next()]; [Scan] refuses a row whose width is
    not the number of destinations. *)
Fixpoint scanLoop (columns : list string) (data : list (list Value))
  (results : list (gmap string Value)) : Error + list (gmap string Value) :=
  match data with
  | [] => inr results
  | values :: rest =>
      if (length values =? length columns)%nat
      then scanLoop columns rest (results ++ [rowMap columns values])
      else inl ErrDriver
  end.

(** [ScanRowsToMap] *)
Definition ScanRowsToMap (rows : Rows) : Error + list (gmap string Value) :=
  match columns rows with
  | inl err => inl err
  | inr cols => scanLoop cols (data rows) []
  end.

End Scan.

(** ** Repositories (package [postgres]) *)

Module Repo.
Import Db Postgres.
Local Open Scope db_scope.

(** Go's [int] arithmetic on a 64-bit platform. *)
Definition wrap64 (z : Z) : Z := (z + 2^63) mod 2^64 - 2^63.

(** The "Build pagination" block shared by the [List] functions:
    [limit], 50 when not positive, and [offset]. *)
Definition pagination (filterLimit filterPage : Z) : Z * Z :=
  let limit := if filterLimit <=? 0 then 50 else filterLimit in
  let offset := if filterPage >? 0 then wrap64 ((filterPage - 1) * limit) else 0 in
  (limit, offset).

(** [tenantID, err := GetTenantIDFromContext(ctx); if err != nil { return err }] *)
Definition tenantOf (ctx : Ctx.Context) : M string :=
  lift (Ctx.GetTenantIDFromContext ctx).

(** The shapes [Scan] expects. *)
Definition asCustomers (r : Rows) : option (list (Customer.t Z)) :=
  match r with RCustomers l => Some l | _ => None end.
Definition asVehicles (r : Rows) : option (list (Vehicle.t Z)) :=
  match r with RVehicles l => Some l | _ => None end.
Definition asNotes (r : Rows) : option (list CustomerNote.t) :=
  match r with RNotes l => Some l | _ => None end.
Definition asCount (r : Rows) : option (list Z) :=
  match r with RCount n => Some [n] | _ => None end.
Definition asReturning (r : Rows) : option (list (Z * Time * Time)) :=
  match r with RReturning l => Some l | _ => None end.
Definition asNoteReturning (r : Rows) : option (list (string * Time)) :=
  match r with RNoteReturning l => Some l | _ => None end.
Definition asTypeCounts (r : Rows) : option (list (string * Z)) :=
  match r with RTypeCounts l => Some l | _ => None end.
Definition asStaff (r : Rows) : option (list (string * string * Z * Time)) :=
  match r with RStaff l => Some l | _ => None end.

(** [row.Scan(...)]: the deferred error, [sql.ErrNoRows] without a row,
    an error when the columns do not fit. *)
Definition scanRow {A} (shape : Rows -> option (list A)) (row : Row) : M A :=
  match row with
  | inl err => fail err
  | inr r => match shape r with
             | Some (a :: _) => ret a
             | Some [] => fail ErrNoRows
             | None => fail ErrDriver
             end
  end.

(** The [for rows.Next() { rows.Scan(...) }] loop. *)
Definition scanAll {A} (shape : Rows -> option (list A)) (r : Rows) : M (list A) :=
  match shape r with
  | Some l => ret l
  | None => fail ErrDriver
  end.

(** [if err == sql.ErrNoRows { return notFound }; return wrapped] *)
Definition notFoundOr {A} (notFound : Error) (msg : string) (m : M A) : M A := fun w =>
  match m w with
  | (Fail ErrNoRows, w') => (Fail notFound, w')
  | (Fail e, w') => (Fail (ErrWrap msg e), w')
  | r => r
  end.

(** [err = QueryRowWithTenant(...).Scan(&count)] with its wrapping. *)
Definition queryCount (tenantID : string) (q : Query) (msg : string) : M Z :=
  wrap msg (row <- QueryRowWithTenant tenantID q ;; scanRow asCount row).

(** [result.RowsAffected() == 0] is "not found". *)
Definition affectedOr (notFound : Error) (result : Reply) : M unit :=
  if affected result =? 0 then fail notFound else ret tt.

End Repo.

Module CustomerSearchFilter.
Record t := mk { Query : string; SearchFields : list string; Limit : Z }.
End CustomerSearchFilter.

Module CustomerRepository.
Import Db Postgres Repo.
Local Open Scope db_scope.

(** The row as [Scan] and the [...FromNull] helpers deliver it: nullable
    columns through the wrappers, a [NULL] preferences column as the
    empty map, relations unset. *)
Definition scanCustomer (row : Customer.t Z) : Customer.t Z :=
  {| Customer.ID := Customer.ID row;
     Customer.TenantID := Customer.TenantID row;
     Customer.FirstName := Customer.FirstName row;
     Customer.LastName := Customer.LastName row;
     Customer.Email := Nullable.StringFromNull (sql.scanString (Customer.Email row));
     Customer.Phone := Nullable.StringFromNull (sql.scanString (Customer.Phone row));
     Customer.CustomerType := Customer.CustomerType row;
     Customer.CompanyName := Nullable.StringFromNull (sql.scanString (Customer.CompanyName row));
     Customer.TaxID := Nullable.StringFromNull (sql.scanString (Customer.TaxID row));
     Customer.Address := Nullable.StringFromNull (sql.scanString (Customer.Address row));
     Customer.Birthday := Nullable.TimeFromNull (sql.scanTime (Customer.Birthday row));
     Customer.Notes := Nullable.StringFromNull (sql.scanString (Customer.Notes row));
     Customer.Preferences := match Customer.Preferences row with
                             | None => Some ∅
                             | Some m => Some m
                             end;
     Customer.IsActive := Customer.IsActive row;
     Customer.CreatedAt := Customer.CreatedAt row;
     Customer.UpdatedAt := Customer.UpdatedAt row;
     Customer.Vehicles := [];
     Customer.CustomerNotes := [];
     Customer.Stats := None |}.

(** The arguments [Update] passes to its statement. *)
Definition updateArgs (customer : Customer.t Z) : CustomerArgs :=
  {| a_id := Customer.ID customer;
     a_first_name := Customer.FirstName customer;
     a_last_name := Customer.LastName customer;
     a_email := Nullable.NullString (Customer.Email customer);
     a_phone := Nullable.NullString (Customer.Phone customer);
     a_customer_type := Customer.CustomerType customer;
     a_company_name := Nullable.NullString (Customer.CompanyName customer);
     a_tax_id := Nullable.NullString (Customer.TaxID customer);
     a_address := Nullable.NullString (Customer.Address customer);
     a_birthday := Nullable.NullTime (Customer.Birthday customer);
     a_notes := Nullable.NullString (Customer.Notes customer);
     a_preferences := Customer.Preferences customer;
     a_is_active := Customer.IsActive customer;
     a_updated_at := Customer.UpdatedAt customer |}.

(** The customer with the columns [Create] scans back and the tenant it
    assigns. *)
Definition created (tenantID : string) (r : Z * Time * Time) (c : Customer.t Z)
  : Customer.t Z :=
  {| Customer.ID := fst (fst r);
     Customer.TenantID := tenantID;
     Customer.FirstName := Customer.FirstName c;
     Customer.LastName := Customer.LastName c;
     Customer.Email := Customer.Email c;
     Customer.Phone := Customer.Phone c;
     Customer.CustomerType := Customer.CustomerType c;
     Customer.CompanyName := Customer.CompanyName c;
     Customer.TaxID := Customer.TaxID c;
     Customer.Address := Customer.Address c;
     Customer.Birthday := Customer.Birthday c;
     Customer.Notes := Customer.Notes c;
     Customer.Preferences := Customer.Preferences c;
     Customer.IsActive := Customer.IsActive c;
     Customer.CreatedAt := snd (fst r);
     Customer.UpdatedAt := snd r;
     Customer.Vehicles := Customer.Vehicles c;
     Customer.CustomerNotes := Customer.CustomerNotes c;
     Customer.Stats := Customer.Stats c |}.

Definition Create (ctx : Ctx.Context) (customer : Customer.t Z) : M (Customer.t Z) :=
  tenantID <- tenantOf ctx ;;
  r <- wrap "failed to create customer"
         (row <- QueryRowWithTenant tenantID
                   (QOther "INSERT INTO customers RETURNING id, created_at, updated_at" []) ;;
          scanRow asReturning row) ;;
  ret (created tenantID r customer).

Definition GetByID (ctx : Ctx.Context) (id : Z) : M (Customer.t Z) :=
  tenantID <- tenantOf ctx ;;
  row <- notFoundOr (ErrNotFound "customer" id) "failed to get customer"
           (row <- QueryRowWithTenant tenantID (QCustomerByID id) ;;
            scanRow asCustomers row) ;;
  ret (scanCustomer row).

Definition Update (ctx : Ctx.Context) (customer : Customer.t Z) : M unit :=
  tenantID <- tenantOf ctx ;;
  result <- wrap "failed to update customer"
              (ExecWithTenant tenantID (QCustomerUpdate (updateArgs customer))) ;;
  affectedOr (ErrNotFound "customer" (Customer.ID customer)) result.

Definition Delete (ctx : Ctx.Context) (id : Z) : M unit :=
  tenantID <- tenantOf ctx ;;
  result <- wrap "failed to delete customer"
              (ExecWithTenant tenantID (QCustomerDelete id)) ;;
  affectedOr (ErrNotFound "customer" id) result.

(** The "Build WHERE clause" block of [List]. *)
Definition whereConditions (filter : CustomerFilter.t) : list CustomerCond :=
  (if negb (GoString.isEmpty (CustomerFilter.Search filter))
   then [CSearch ("%" ++ CustomerFilter.Search filter ++ "%")] else [])
  ++ (if negb (GoString.isEmpty (CustomerFilter.CustomerType filter))
      then [CType (CustomerFilter.CustomerType filter)] else [])
  ++ (if CustomerFilter.ActiveOnly filter then [CActive] else []).

(** The "Build ORDER BY clause" block of [List]. *)
Definition orderByClause (filter : CustomerFilter.t) : CustomerOrder :=
  if negb (GoString.isEmpty (CustomerFilter.SortBy filter))
  then
    let desc := String.eqb (CustomerFilter.SortOrder filter) "desc" in
    if String.eqb (CustomerFilter.SortBy filter) "name" then OrderName desc
    else if String.eqb (CustomerFilter.SortBy filter) "created_at" then OrderCreatedAt desc
    else if String.eqb (CustomerFilter.SortBy filter) "company_name" then OrderCompanyName desc
    else OrderCreatedAt true
  else OrderCreatedAt true.

Definition List_ (ctx : Ctx.Context) (filter : CustomerFilter.t)
  : M (list (Customer.t Z) * Z) :=
  tenantID <- tenantOf ctx ;;
  let conds := whereConditions filter in
  let order := orderByClause filter in
  total <- queryCount tenantID (QCustomerCount conds) "failed to count customers" ;;
  let limit := fst (pagination (CustomerFilter.Limit filter) (CustomerFilter.Page filter)) in
  let offset := snd (pagination (CustomerFilter.Limit filter) (CustomerFilter.Page filter)) in
  rows <- wrap "failed to list customers"
            (QueryWithTenant tenantID (QCustomerSelect conds order limit offset)) ;;
  customers <- wrap "failed to scan customer" (scanAll asCustomers rows) ;;
  ret (scanCustomer <$> customers, total).

Definition knownSearchField (field : string) : bool :=
  String.eqb field "name" || String.eqb field "email" || String.eqb field "phone"
  || String.eqb field "tax_id" || String.eqb field "company_name".

Definition Search (ctx : Ctx.Context) (filter : CustomerSearchFilter.t)
  : M (list (Customer.t Z)) :=
  tenantID <- tenantOf ctx ;;
  if GoString.isEmpty (CustomerSearchFilter.Query filter) then ret []
  else
    let searchFields :=
      match CustomerSearchFilter.SearchFields filter with
      | [] => ["name"; "email"; "phone"; "tax_id"]
      | l => l
      end in
    if negb (existsb knownSearchField searchFields) then ret []
    else
      let limit := if CustomerSearchFilter.Limit filter <=? 0 then 20
                   else CustomerSearchFilter.Limit filter in
      rows <- wrap "failed to search customers"
                (QueryWithTenant tenantID
                   (QOther "SELECT FROM customers WHERE (search) AND is_active = true LIMIT"
                           [limit])) ;;
      customers <- wrap "failed to scan customer" (scanAll asCustomers rows) ;;
      ret (scanCustomer <$> customers).

Definition getBy (ctx : Ctx.Context) (text what key msg : string) : M (Customer.t Z) :=
  tenantID <- tenantOf ctx ;;
  row <- notFoundOr (ErrNotFoundBy what key) msg
           (row <- QueryRowWithTenant tenantID (QOther text []) ;;
            scanRow asCustomers row) ;;
  ret (scanCustomer row).

Definition GetByEmail (ctx : Ctx.Context) (email : string) : M (Customer.t Z) :=
  getBy ctx "SELECT FROM customers WHERE email = $1" "customer with email" email
        "failed to get customer by email".

Definition GetByTaxID (ctx : Ctx.Context) (taxID : string) : M (Customer.t Z) :=
  getBy ctx "SELECT FROM customers WHERE tax_id = $1" "customer with tax ID" taxID
        "failed to get customer by tax ID".

Definition ListByType (ctx : Ctx.Context) (customerType : string) (page limit : Z)
  : M (list (Customer.t Z) * Z) :=
  List_ ctx {| CustomerFilter.Search := ""; CustomerFilter.CustomerType := customerType;
               CustomerFilter.ActiveOnly := false; CustomerFilter.Page := page;
               CustomerFilter.Limit := limit; CustomerFilter.SortBy := "";
               CustomerFilter.SortOrder := "" |}.

Definition ListActive (ctx : Ctx.Context) (page limit : Z)
  : M (list (Customer.t Z) * Z) :=
  List_ ctx {| CustomerFilter.Search := ""; CustomerFilter.CustomerType := "";
               CustomerFilter.ActiveOnly := true; CustomerFilter.Page := page;
               CustomerFilter.Limit := limit; CustomerFilter.SortBy := "";
               CustomerFilter.SortOrder := "" |}.

Definition ListInactive (ctx : Ctx.Context) (page limit : Z)
  : M (list (Customer.t Z) * Z) :=
  tenantID <- tenantOf ctx ;;
  total <- queryCount tenantID (QOther "SELECT COUNT FROM customers WHERE is_active = false" [])
             "failed to count inactive customers" ;;
  let offset := if page >? 0 then wrap64 ((page - 1) * limit) else 0 in
  rows <- wrap "failed to list inactive customers"
            (QueryWithTenant tenantID
               (QOther "SELECT FROM customers WHERE is_active = false LIMIT $1 OFFSET $2"
                       [limit; offset])) ;;
  customers <- wrap "failed to scan customer" (scanAll asCustomers rows) ;;
  ret (scanCustomer <$> customers, total).

Definition Count (ctx : Ctx.Context) : M Z :=
  tenantID <- tenantOf ctx ;;
  queryCount tenantID (QOther "SELECT COUNT FROM customers" []) "failed to count customers".

Definition CountByType (ctx : Ctx.Context) (customerType : string) : M Z :=
  tenantID <- tenantOf ctx ;;
  queryCount tenantID (QOther "SELECT COUNT FROM customers WHERE customer_type = $1" [])
             "failed to count customers by type".

Definition CountActive (ctx : Ctx.Context) : M Z :=
  tenantID <- tenantOf ctx ;;
  queryCount tenantID (QOther "SELECT COUNT FROM customers WHERE is_active = true" [])
             "failed to count active customers".

(** [ExistsByEmail], [ExistsByTaxID]: the statement gains [AND id != $2]
    when [excludeID] is given. *)
Definition existsBy (ctx : Ctx.Context) (text msg : string) (excludeID : option Z) : M bool :=
  tenantID <- tenantOf ctx ;;
  let query := match excludeID with
               | Some id => QOther (text ++ " AND id != $2") [id]
               | None => QOther text []
               end in
  count <- queryCount tenantID query msg ;;
  ret (count >? 0).

Definition ExistsByEmail (ctx : Ctx.Context) (email : string) (excludeID : option Z) : M bool :=
  existsBy ctx "SELECT COUNT FROM customers WHERE email = $1"
           "failed to check email existence" excludeID.

Definition ExistsByTaxID (ctx : Ctx.Context) (taxID : string) (excludeID : option Z) : M bool :=
  existsBy ctx "SELECT COUNT FROM customers WHERE tax_id = $1"
           "failed to check tax ID existence" excludeID.

End CustomerRepository.

Module VehicleRepository.
Import Db Postgres Repo.
Local Open Scope db_scope.

(** The row as [Scan] and [StringFromNull] deliver it. *)
Definition scanVehicle (row : Vehicle.t Z) : Vehicle.t Z :=
  {| Vehicle.ID := Vehicle.ID row;
     Vehicle.CustomerID := Vehicle.CustomerID row;
     Vehicle.Make := Vehicle.Make row;
     Vehicle.Model := Vehicle.Model row;
     Vehicle.Year := Vehicle.Year row;
     Vehicle.VIN := Nullable.StringFromNull (sql.scanString (Vehicle.VIN row));
     Vehicle.LicensePlate := Nullable.StringFromNull (sql.scanString (Vehicle.LicensePlate row));
     Vehicle.Color := Nullable.StringFromNull (sql.scanString (Vehicle.Color row));
     Vehicle.Engine := Nullable.StringFromNull (sql.scanString (Vehicle.Engine row));
     Vehicle.Notes := Nullable.StringFromNull (sql.scanString (Vehicle.Notes row));
     Vehicle.IsActive := Vehicle.IsActive row;
     Vehicle.Metadata := match Vehicle.Metadata row with
                         | None => Some ∅
                         | Some m => Some m
                         end;
     Vehicle.CreatedAt := Vehicle.CreatedAt row;
     Vehicle.UpdatedAt := Vehicle.UpdatedAt row;
     Vehicle.Customer := None |}.

Definition created (r : Z * Time * Time) (v : Vehicle.t Z) : Vehicle.t Z :=
  {| Vehicle.ID := fst (fst r);
     Vehicle.CustomerID := Vehicle.CustomerID v;
     Vehicle.Make := Vehicle.Make v;
     Vehicle.Model := Vehicle.Model v;
     Vehicle.Year := Vehicle.Year v;
     Vehicle.VIN := Vehicle.VIN v;
     Vehicle.LicensePlate := Vehicle.LicensePlate v;
     Vehicle.Color := Vehicle.Color v;
     Vehicle.Engine := Vehicle.Engine v;
     Vehicle.Notes := Vehicle.Notes v;
     Vehicle.IsActive := Vehicle.IsActive v;
     Vehicle.Metadata := Vehicle.Metadata v;
     Vehicle.CreatedAt := snd (fst r);
     Vehicle.UpdatedAt := snd r;
     Vehicle.Customer := Vehicle.Customer v |}.

Definition insertText : string :=
  "INSERT INTO vehicles RETURNING id, created_at, updated_at".

Definition Create (ctx : Ctx.Context) (vehicle : Vehicle.t Z) : M (Vehicle.t Z) :=
  tenantID <- tenantOf ctx ;;
  r <- wrap "failed to create vehicle"
         (row <- QueryRowWithTenant tenantID (QOther insertText []) ;;
          scanRow asReturning row) ;;
  ret (created r vehicle).

Definition getBy (ctx : Ctx.Context) (text : string) (nums : list Z)
  (notFound : Error) (msg : string) : M (Vehicle.t Z) :=
  tenantID <- tenantOf ctx ;;
  row <- notFoundOr notFound msg
           (row <- QueryRowWithTenant tenantID (QOther text nums) ;;
            scanRow asVehicles row) ;;
  ret (scanVehicle row).

Definition GetByID (ctx : Ctx.Context) (id : Z) : M (Vehicle.t Z) :=
  getBy ctx "SELECT FROM vehicles v INNER JOIN customers c WHERE v.id = $1" [id]
        (ErrNotFound "vehicle" id) "failed to get vehicle".

Definition Update (ctx : Ctx.Context) (vehicle : Vehicle.t Z) : M unit :=
  tenantID <- tenantOf ctx ;;
  result <- wrap "failed to update vehicle"
              (ExecWithTenant tenantID
                 (QOther "UPDATE vehicles SET FROM customers c WHERE vehicles.id = $1"
                         [Vehicle.ID vehicle])) ;;
  affectedOr (ErrNotFound "vehicle" (Vehicle.ID vehicle)) result.

Definition Delete (ctx : Ctx.Context) (id : Z) : M unit :=
  tenantID <- tenantOf ctx ;;
  result <- wrap "failed to delete vehicle"
              (ExecWithTenant tenantID
                 (QOther "DELETE FROM vehicles USING customers c WHERE vehicles.id = $1" [id])) ;;
  affectedOr (ErrNotFound "vehicle" id) result.

(** The "Build WHERE clause" block of [List]. *)
Definition whereConditions (filter : VehicleFilter.t) : list VehicleCond :=
  (if VehicleFilter.CustomerID filter >? 0
   then [VCustomer (VehicleFilter.CustomerID filter)] else [])
  ++ (if negb (GoString.isEmpty (VehicleFilter.Search filter))
      then [VSearch ("%" ++ VehicleFilter.Search filter ++ "%")] else [])
  ++ (if VehicleFilter.ActiveOnly filter then [VActive] else []).

Definition List_ (ctx : Ctx.Context) (filter : VehicleFilter.t)
  : M (list (Vehicle.t Z) * Z) :=
  tenantID <- tenantOf ctx ;;
  let conds := whereConditions filter in
  total <- queryCount tenantID (QVehicleCount conds) "failed to count vehicles" ;;
  let limit := fst (pagination (VehicleFilter.Limit filter) (VehicleFilter.Page filter)) in
  let offset := snd (pagination (VehicleFilter.Limit filter) (VehicleFilter.Page filter)) in
  rows <- wrap "failed to list vehicles"
            (QueryWithTenant tenantID (QVehicleSelect conds limit offset)) ;;
  vehicles <- wrap "failed to scan vehicle" (scanAll asVehicles rows) ;;
  ret (scanVehicle <$> vehicles, total).

Definition ListByCustomer (ctx : Ctx.Context) (customerID : Z) : M (list (Vehicle.t Z)) :=
  r <- List_ ctx {| VehicleFilter.CustomerID := customerID; VehicleFilter.Search := "";
                    VehicleFilter.ActiveOnly := false; VehicleFilter.Page := 0;
                    VehicleFilter.Limit := 100 |} ;;
  ret (fst r).

Definition ListActiveByCustomer (ctx : Ctx.Context) (customerID : Z)
  : M (list (Vehicle.t Z)) :=
  r <- List_ ctx {| VehicleFilter.CustomerID := customerID; VehicleFilter.Search := "";
                    VehicleFilter.ActiveOnly := true; VehicleFilter.Page := 0;
                    VehicleFilter.Limit := 100 |} ;;
  ret (fst r).

Definition GetByVIN (ctx : Ctx.Context) (vin : string) : M (Vehicle.t Z) :=
  getBy ctx "SELECT FROM vehicles v INNER JOIN customers c WHERE v.vin = $1" []
        (ErrNotFoundBy "vehicle with VIN" vin) "failed to get vehicle by VIN".

Definition GetByLicensePlate (ctx : Ctx.Context) (licensePlate : string) : M (Vehicle.t Z) :=
  getBy ctx "SELECT FROM vehicles v INNER JOIN customers c WHERE v.license_plate = $1" []
        (ErrNotFoundBy "vehicle with license plate" licensePlate)
        "failed to get vehicle by license plate".

(** A list query whose rows the model does not interpret. *)
Definition listBy (ctx : Ctx.Context) (text : string) (nums : list Z) (msg : string)
  : M (list (Vehicle.t Z)) :=
  tenantID <- tenantOf ctx ;;
  rows <- wrap msg (QueryWithTenant tenantID (QOther text nums)) ;;
  vehicles <- wrap "failed to scan vehicle" (scanAll asVehicles rows) ;;
  ret (scanVehicle <$> vehicles).

Definition SearchByMakeModel (ctx : Ctx.Context) (make model : string) (year : option Z)
  : M (list (Vehicle.t Z)) :=
  listBy ctx "SELECT FROM vehicles v INNER JOIN customers c WHERE (make, model, year) LIMIT 50"
         (match year with Some y => [y] | None => [] end)
         "failed to search vehicles".

Definition FindCompatibleVehicles (ctx : Ctx.Context) (make model : string)
  (yearFrom yearTo : Z) : M (list (Vehicle.t Z)) :=
  listBy ctx "SELECT FROM vehicles v INNER JOIN customers c WHERE v.year BETWEEN $3 AND $4 LIMIT 100"
         [yearFrom; yearTo] "failed to find compatible vehicles".

Definition ListByMakeModelYear (ctx : Ctx.Context) (make model : string) (year : Z)
  : M (list (Vehicle.t Z)) :=
  listBy ctx "SELECT FROM vehicles v INNER JOIN customers c WHERE v.make = $1 AND v.model = $2 AND v.year = $3"
         [year] "failed to list vehicles by make/model/year".

Definition Count (ctx : Ctx.Context) : M Z :=
  tenantID <- tenantOf ctx ;;
  queryCount tenantID (QOther "SELECT COUNT FROM vehicles v INNER JOIN customers c" [])
             "failed to count vehicles".

Definition CountByCustomer (ctx : Ctx.Context) (customerID : Z) : M Z :=
  tenantID <- tenantOf ctx ;;
  queryCount tenantID
    (QOther "SELECT COUNT FROM vehicles v INNER JOIN customers c WHERE v.customer_id = $1"
            [customerID])
    "failed to count vehicles by customer".

Definition CountActive (ctx : Ctx.Context) : M Z :=
  tenantID <- tenantOf ctx ;;
  queryCount tenantID
    (QOther "SELECT COUNT FROM vehicles v INNER JOIN customers c WHERE v.is_active = true" [])
    "failed to count active vehicles".

Definition existsBy (ctx : Ctx.Context) (text msg : string) (excludeID : option Z) : M bool :=
  tenantID <- tenantOf ctx ;;
  let query := match excludeID with
               | Some id => QOther (text ++ " AND v.id != $2") [id]
               | None => QOther text []
               end in
  count <- queryCount tenantID query msg ;;
  ret (count >? 0).

Definition ExistsByVIN (ctx : Ctx.Context) (vin : string) (excludeID : option Z) : M bool :=
  existsBy ctx "SELECT COUNT FROM vehicles v INNER JOIN customers c WHERE v.vin = $1"
           "failed to check VIN existence" excludeID.

Definition ExistsByLicensePlate (ctx : Ctx.Context) (licensePlate : string)
  (excludeID : option Z) : M bool :=
  existsBy ctx "SELECT COUNT FROM vehicles v INNER JOIN customers c WHERE v.license_plate = $1"
           "failed to check license plate existence" excludeID.

(** The function [CreateBatch] passes to [TransactionWithTenant]: one
    insert per vehicle on the transaction, stopping at the first
    error.  The slice holds pointers; reading a field of a [nil] entry
    panics before its statement is sent.  (The columns scanned back are
    written into the vehicles; the embedding does not track them.) *)
Fixpoint createBatchFn (vehicles : list (option (Vehicle.t Z))) : TxProg :=
  match vehicles with
  | [] => TxReturn None
  | None :: _ => TxPanic
  | Some vehicle :: rest =>
      TxExec (QOther insertText [])
        (fun r =>
           match r with
           | inl err => TxReturn (Some (ErrWrap "failed to create vehicle in batch" err))
           | inr result =>
               match asReturning (rows result) with
               | Some (_ :: _) => createBatchFn rest
               | Some [] => TxReturn (Some (ErrWrap "failed to create vehicle in batch" ErrNoRows))
               | None => TxReturn (Some (ErrWrap "failed to create vehicle in batch" ErrDriver))
               end
           end)
  end.

Definition CreateBatch (ctx : Ctx.Context) (vehicles : list (option (Vehicle.t Z))) : M unit :=
  if (length vehicles =? 0)%nat then ret tt
  else
    tenantID <- tenantOf ctx ;;
    TransactionWithTenant tenantID (runTx (createBatchFn vehicles)).

End VehicleRepository.

Module CustomerNoteFilter.
Record t := mk {
  CustomerID : string;
  Type_ : string;
  DateFrom : option Time;
  DateTo : option Time;
  Page : Z;
  Limit : Z
}.
End CustomerNoteFilter.

Module CustomerNoteRepository.
Import Db Postgres Repo.
Local Open Scope db_scope.

Definition Create (ctx : Ctx.Context) (note : CustomerNote.t) : M CustomerNote.t :=
  tenantID <- tenantOf ctx ;;
  r <- wrap "failed to create customer note"
         (row <- QueryRowWithTenant tenantID
                   (QOther "INSERT INTO customer_notes RETURNING id, created_at" []) ;;
          scanRow asNoteReturning row) ;;
  ret {| CustomerNote.ID := fst r;
         CustomerNote.CustomerID := CustomerNote.CustomerID note;
         CustomerNote.StaffID := CustomerNote.StaffID note;
         CustomerNote.StaffName := CustomerNote.StaffName note;
         CustomerNote.Note := CustomerNote.Note note;
         CustomerNote.Type_ := CustomerNote.Type_ note;
         CustomerNote.CreatedAt := snd r |}.

Definition GetByID (ctx : Ctx.Context) (id : string) : M CustomerNote.t :=
  tenantID <- tenantOf ctx ;;
  notFoundOr (ErrNotFoundBy "customer note with ID" id) "failed to get customer note"
    (row <- QueryRowWithTenant tenantID
              (QOther "SELECT FROM customer_notes cn INNER JOIN customers c WHERE cn.id = $1" []) ;;
     scanRow asNotes row).

Definition Delete (ctx : Ctx.Context) (id : string) : M unit :=
  tenantID <- tenantOf ctx ;;
  result <- wrap "failed to delete customer note"
              (ExecWithTenant tenantID
                 (QOther "DELETE FROM customer_notes USING customers c WHERE customer_notes.id = $1" [])) ;;
  affectedOr (ErrNotFoundBy "customer note with ID" id) result.

Definition List_ (ctx : Ctx.Context) (filter : CustomerNoteFilter.t)
  : M (list CustomerNote.t * Z) :=
  tenantID <- tenantOf ctx ;;
  total <- queryCount tenantID
             (QOther "SELECT COUNT FROM customer_notes cn INNER JOIN customers c (where)" [])
             "failed to count customer notes" ;;
  let limit := fst (pagination (CustomerNoteFilter.Limit filter) (CustomerNoteFilter.Page filter)) in
  let offset := snd (pagination (CustomerNoteFilter.Limit filter) (CustomerNoteFilter.Page filter)) in
  rows <- wrap "failed to list customer notes"
            (QueryWithTenant tenantID
               (QOther "SELECT FROM customer_notes cn INNER JOIN customers c (where) LIMIT OFFSET"
                       [limit; offset])) ;;
  notes <- wrap "failed to scan customer note" (scanAll asNotes rows) ;;
  ret (notes, total).

Definition filterOf (customerID type_ : string) (from to : option Time) (page limit : Z)
  : CustomerNoteFilter.t :=
  {| CustomerNoteFilter.CustomerID := customerID; CustomerNoteFilter.Type_ := type_;
     CustomerNoteFilter.DateFrom := from; CustomerNoteFilter.DateTo := to;
     CustomerNoteFilter.Page := page; CustomerNoteFilter.Limit := limit |}.

Definition ListByCustomer (ctx : Ctx.Context) (customerID : string) : M (list CustomerNote.t) :=
  r <- List_ ctx (filterOf customerID "" None None 0 100) ;; ret (fst r).

Definition ListByCustomerAndType (ctx : Ctx.Context) (customerID noteType : string)
  : M (list CustomerNote.t) :=
  r <- List_ ctx (filterOf customerID noteType None None 0 100) ;; ret (fst r).

Definition ListByStaff (ctx : Ctx.Context) (staffID : string) (page limit : Z)
  : M (list CustomerNote.t * Z) :=
  tenantID <- tenantOf ctx ;;
  total <- queryCount tenantID
             (QOther "SELECT COUNT FROM customer_notes cn INNER JOIN customers c WHERE cn.staff_id = $1" [])
             "failed to count notes by staff" ;;
  let offset := if page >? 0 then wrap64 ((page - 1) * limit) else 0 in
  rows <- wrap "failed to list notes by staff"
            (QueryWithTenant tenantID
               (QOther "SELECT FROM customer_notes cn INNER JOIN customers c WHERE cn.staff_id = $1 LIMIT $2 OFFSET $3"
                       [limit; offset])) ;;
  notes <- wrap "failed to scan customer note" (scanAll asNotes rows) ;;
  ret (notes, total).

Definition ListByType (ctx : Ctx.Context) (noteType : string) (page limit : Z)
  : M (list CustomerNote.t * Z) :=
  List_ ctx (filterOf "" noteType None None page limit).

Definition ListRecent (ctx : Ctx.Context) (limit : Z) : M (list CustomerNote.t) :=
  tenantID <- tenantOf ctx ;;
  rows <- wrap "failed to list recent notes"
            (QueryWithTenant tenantID
               (QOther "SELECT FROM customer_notes cn INNER JOIN customers c LIMIT $1" [limit])) ;;
  wrap "failed to scan customer note" (scanAll asNotes rows).

Definition ListByDateRange (ctx : Ctx.Context) (customerID : string) (from to : option Time)
  : M (list CustomerNote.t) :=
  r <- List_ ctx (filterOf customerID "" from to 0 1000) ;; ret (fst r).

Definition ListRecentByCustomer (ctx : Ctx.Context) (customerID : string) (limit : Z)
  : M (list CustomerNote.t) :=
  r <- List_ ctx (filterOf customerID "" None None 0 limit) ;; ret (fst r).

Definition Count (ctx : Ctx.Context) : M Z :=
  tenantID <- tenantOf ctx ;;
  queryCount tenantID (QOther "SELECT COUNT FROM customer_notes cn INNER JOIN customers c" [])
             "failed to count customer notes".

Definition CountByCustomer (ctx : Ctx.Context) (customerID : string) : M Z :=
  tenantID <- tenantOf ctx ;;
  queryCount tenantID
    (QOther "SELECT COUNT FROM customer_notes cn INNER JOIN customers c WHERE cn.customer_id = $1" [])
    "failed to count notes by customer".

Definition CountByType (ctx : Ctx.Context) (noteType : string) : M Z :=
  tenantID <- tenantOf ctx ;;
  queryCount tenantID
    (QOther "SELECT COUNT FROM customer_notes cn INNER JOIN customers c WHERE cn.type = $1" [])
    "failed to count notes by type".

Definition CountByStaff (ctx : Ctx.Context) (staffID : string) : M Z :=
  tenantID <- tenantOf ctx ;;
  queryCount tenantID
    (QOther "SELECT COUNT FROM customer_notes cn INNER JOIN customers c WHERE cn.staff_id = $1" [])
    "failed to count notes by staff".

(** [GetNoteTypesCount]: the rows folded into a map, later rows
    overwriting earlier ones. *)
Definition GetNoteTypesCount (ctx : Ctx.Context) (customerID : string) : M (gmap string Z) :=
  tenantID <- tenantOf ctx ;;
  rows <- wrap "failed to get note types count"
            (QueryWithTenant tenantID
               (QOther "SELECT cn.type, COUNT FROM customer_notes cn INNER JOIN customers c GROUP BY cn.type" [])) ;;
  l <- wrap "failed to scan note type count" (scanAll asTypeCounts rows) ;;
  ret (foldl (fun (m : gmap string Z) kv => <[fst kv := snd kv]> m) ∅ l).

Definition GetMostActiveStaff (ctx : Ctx.Context) (limit : Z)
  : M (list (string * string * Z * Time)) :=
  tenantID <- tenantOf ctx ;;
  rows <- wrap "failed to get most active staff"
            (QueryWithTenant tenantID
               (QOther "SELECT cn.staff_id, cn.staff_name, COUNT, MAX(cn.created_at) FROM customer_notes cn INNER JOIN customers c LIMIT $1"
                       [limit])) ;;
  wrap "failed to scan staff activity" (scanAll asStaff rows).

End CustomerNoteRepository.

(** ** Domain services (package [service]) *)

Module CustomerService.
Import Db Postgres Repo.
Local Open Scope db_scope.

(** [DeleteCustomer]; [now] is the instant [Deactivate] reads. *)
Definition DeleteCustomer (now : Time) (ctx : Ctx.Context) (id : Z) : M unit :=
  customer <- wrap "failed to get customer for deletion" (CustomerRepository.GetByID ctx id) ;;
  vehicles <- wrap "failed to check customer vehicles"
                (VehicleRepository.ListActiveByCustomer ctx id) ;;
  if (0 <? length vehicles)%nat
  then wrap "failed to deactivate customer"
         (CustomerRepository.Update ctx (Customer.Deactivate now customer))
  else wrap "failed to delete customer" (CustomerRepository.Delete ctx id).

(** [GetCustomer] without the optional relations. *)
Definition GetCustomer (ctx : Ctx.Context) (id : Z) : M (Customer.t Z) :=
  wrap "failed to get customer" (CustomerRepository.GetByID ctx id).

(** [UpdateCustomer]; [now] is the instant [UpdateFromUpdate] reads. *)
Definition UpdateCustomer (now : Time) (ctx : Ctx.Context) (update : CustomerUpdate.t Z)
  : M (Customer.t Z) :=
  customer <- wrap "failed to get customer for update"
                (CustomerRepository.GetByID ctx (CustomerUpdate.ID update)) ;;
  (match CustomerUpdate.Email update with
   | Some email =>
       if negb (GoString.isEmpty email)
          && negb (bool_decide (Customer.Email customer = Some email))
       then
         exists_ <- wrap "failed to check email uniqueness"
                      (CustomerRepository.ExistsByEmail ctx email (Some (CustomerUpdate.ID update))) ;;
         if exists_ then fail (ErrExists "customer with email" email) else ret tt
       else ret tt
   | None => ret tt
   end) ;;
  (match CustomerUpdate.TaxID update with
   | Some taxID =>
       if negb (GoString.isEmpty taxID)
          && negb (bool_decide (Customer.TaxID customer = Some taxID))
       then
         exists_ <- wrap "failed to check tax ID uniqueness"
                      (CustomerRepository.ExistsByTaxID ctx taxID (Some (CustomerUpdate.ID update))) ;;
         if exists_ then fail (ErrExists "customer with tax ID" taxID) else ret tt
       else ret tt
   | None => ret tt
   end) ;;
  let customer := Customer.UpdateFromUpdate now update customer in
  match Customer.Validate customer with
  | Some err => fail (ErrWrap "validation error" err)
  | None =>
      wrap "failed to update customer" (CustomerRepository.Update ctx customer) ;;
      ret customer
  end.

(** [CreateCustomer]; [now] is the instant [NewCustomer] reads. *)
Definition CreateCustomer (now : Time) (ctx : Ctx.Context) (create : CustomerCreate.t)
  : M (Customer.t Z) :=
  let customer := Customer.NewCustomer now 0 create in
  match Customer.Validate customer with
  | Some err => fail (ErrWrap "validation error" err)
  | None =>
      (match Customer.Email customer with
       | Some email =>
           if negb (GoString.isEmpty email)
           then
             exists_ <- wrap "failed to check email uniqueness"
                          (CustomerRepository.ExistsByEmail ctx email None) ;;
             if exists_ then fail (ErrExists "customer with email" email) else ret tt
           else ret tt
       | None => ret tt
       end) ;;
      (match Customer.TaxID customer with
       | Some taxID =>
           if negb (GoString.isEmpty taxID)
           then
             exists_ <- wrap "failed to check tax ID uniqueness"
                          (CustomerRepository.ExistsByTaxID ctx taxID None) ;;
             if exists_ then fail (ErrExists "customer with tax ID" taxID) else ret tt
           else ret tt
       | None => ret tt
       end) ;;
      wrap "failed to create customer" (CustomerRepository.Create ctx customer)
  end.

(** [ListCustomers] *)
Definition ListCustomers (ctx : Ctx.Context) (filter : CustomerFilter.t)
  : M (list (Customer.t Z) * Z) :=
  wrap "failed to list customers" (CustomerRepository.List_ ctx filter).

(** [SearchCustomers]: an empty query is answered without the
    repository. *)
Definition SearchCustomers (ctx : Ctx.Context) (filter : CustomerSearchFilter.t)
  : M (list (Customer.t Z)) :=
  if GoString.isEmpty (CustomerSearchFilter.Query filter) then ret []
  else wrap "failed to search customers" (CustomerRepository.Search ctx filter).

(** [ActivateCustomer], [DeactivateCustomer]; [now] is the instant
    [Activate] and [Deactivate] read. *)
Definition ActivateCustomer (now : Time) (ctx : Ctx.Context) (id : Z) : M unit :=
  customer <- wrap "failed to get customer" (CustomerRepository.GetByID ctx id) ;;
  wrap "failed to activate customer"
    (CustomerRepository.Update ctx (Customer.Activate now customer)).

Definition DeactivateCustomer (now : Time) (ctx : Ctx.Context) (id : Z) : M unit :=
  customer <- wrap "failed to get customer" (CustomerRepository.GetByID ctx id) ;;
  wrap "failed to deactivate customer"
    (CustomerRepository.Update ctx (Customer.Deactivate now customer)).

(** [SetCustomerPreference]; [now] is the instant [SetPreference] reads. *)
Definition SetCustomerPreference (now : Time) (ctx : Ctx.Context) (customerID : Z)
  (key : string) (value : JSON) : M unit :=
  customer <- wrap "failed to get customer" (CustomerRepository.GetByID ctx customerID) ;;
  wrap "failed to update customer preference"
    (CustomerRepository.Update ctx (Customer.SetPreference now key value customer)).

(** [GetCustomerPreference] *)
Definition GetCustomerPreference (ctx : Ctx.Context) (customerID : Z) (key : string)
  : M JSON :=
  customer <- wrap "failed to get customer" (CustomerRepository.GetByID ctx customerID) ;;
  match Customer.GetPreference key customer with
  | (value, true) => ret value
  | (_, false) => fail (ErrMsg ("preference " ++ key ++ " not found for customer"))
  end.

End CustomerService.

Module VehicleService.
Import Db Postgres Repo.
Local Open Scope db_scope.

(** The two validation steps [CreateVehicle] and [UpdateVehicle] share:
    [Validate], then [ValidateVIN]. *)
Definition validate (vehicle : Vehicle.t Z) : M unit :=
  match Vehicle.Validate vehicle with
  | Some err => fail (ErrWrap "validation error" err)
  | None =>
      match Vehicle.ValidateVIN vehicle with
      | Some err => fail (ErrWrap "VIN validation error" err)
      | None => ret tt
      end
  end.

(** The uniqueness check of one optional column: skipped when the value
    is absent, empty, or (on update) the vehicle's current value. *)
Definition unique (value current : option string) (skipCurrent : bool)
  (check : string -> M bool) (msg what : string) : M unit :=
  match value with
  | Some s =>
      if negb (GoString.isEmpty s)
         && negb (skipCurrent && bool_decide (current = Some s))
      then exists_ <- wrap msg (check s) ;;
           if exists_ then fail (ErrExists what s) else ret tt
      else ret tt
  | None => ret tt
  end.

(** [CreateVehicle] *)
Definition CreateVehicle (now : Time) (ctx : Ctx.Context) (create : VehicleCreate.t Z)
  : M (Vehicle.t Z) :=
  wrap "customer not found"
    (CustomerRepository.GetByID ctx (VehicleCreate.CustomerID create)) ;;
  let vehicle := Vehicle.NewVehicle now 0 create in
  validate vehicle ;;
  unique (Vehicle.VIN vehicle) None false
    (fun vin => VehicleRepository.ExistsByVIN ctx vin None)
    "failed to check VIN uniqueness" "vehicle with VIN" ;;
  unique (Vehicle.LicensePlate vehicle) None false
    (fun plate => VehicleRepository.ExistsByLicensePlate ctx plate None)
    "failed to check license plate uniqueness" "vehicle with license plate" ;;
  wrap "failed to create vehicle" (VehicleRepository.Create ctx vehicle).

(** [UpdateVehicle] *)
Definition UpdateVehicle (now : Time) (ctx : Ctx.Context) (update : VehicleUpdate.t Z)
  : M (Vehicle.t Z) :=
  vehicle <- wrap "failed to get vehicle for update"
               (VehicleRepository.GetByID ctx (VehicleUpdate.ID update)) ;;
  unique (VehicleUpdate.VIN update) (Vehicle.VIN vehicle) true
    (fun vin => VehicleRepository.ExistsByVIN ctx vin (Some (VehicleUpdate.ID update)))
    "failed to check VIN uniqueness" "vehicle with VIN" ;;
  unique (VehicleUpdate.LicensePlate update) (Vehicle.LicensePlate vehicle) true
    (fun plate => VehicleRepository.ExistsByLicensePlate ctx plate (Some (VehicleUpdate.ID update)))
    "failed to check license plate uniqueness" "vehicle with license plate" ;;
  let vehicle := Vehicle.UpdateFromUpdate now update vehicle in
  validate vehicle ;;
  wrap "failed to update vehicle" (VehicleRepository.Update ctx vehicle) ;;
  ret vehicle.

End VehicleService.

(** ** gRPC handlers over the services (package [grpc]) *)

(** The messages of [customerpb], by the fields the handlers read and
    write.  [Page], [Limit], [Total], [TotalPages] and [Year] are
    [int32]. *)
Module PbVehicle.
Record t := mk {
  Id : Z; CustomerId : Z; Make : string; Model : string; Year : Z;
  Vin : string; LicensePlate : string; Color : string; Engine : string;
  Notes : string; IsActive : bool; CreatedAt : Time; UpdatedAt : Time
}.
End PbVehicle.

Module PbCustomerNote.
Record t := mk {
  Id : string; CustomerId : string; StaffId : string; StaffName : string;
  Note : string; Type_ : string; CreatedAt : Time
}.
End PbCustomerNote.

Module PbCustomer.
Record t := mk {
  Id : Z; TenantId : string; FirstName : string; LastName : string;
  Email : string; Phone : string; CustomerType : string; CompanyName : string;
  TaxId : string; Address : string; Birthday : option Time; Notes : string;
  IsActive : bool; CreatedAt : Time; UpdatedAt : Time;
  Vehicles : list PbVehicle.t; CustomerNotes : list PbCustomerNote.t
}.
End PbCustomer.

Module ListCustomersRequest.
Record t := mk {
  Search : string; CustomerType : string; ActiveOnly : bool;
  Page : Z; Limit : Z; SortBy : string; SortOrder : string
}.
End ListCustomersRequest.

Module ListCustomersResponse.
Record t := mk {
  Customers : list PbCustomer.t; Total : Z; Page : Z; Limit : Z; TotalPages : Z
}.
End ListCustomersResponse.

Module SearchCustomersRequest.
Record t := mk { Query : string; SearchFields : string; Limit : Z }.
End SearchCustomersRequest.

Module SearchCustomersResponse.
Record t := mk { Customers : list PbCustomer.t; Total : Z }.
End SearchCustomersResponse.

Module CreateVehicleRequest.
Record t := mk {
  CustomerId : Z; Make : string; Model : string; Year : Z;
  Vin : string; LicensePlate : string; Color : string; Engine : string;
  Notes : string; Metadata : option (gmap string JSON)
}.
End CreateVehicleRequest.

Module CustomerHandler.
Import Db Postgres Repo.
Local Open Scope db_scope.

(** [if p != nil { pb.F = *p }]: the zero value stays when [p] is [nil]. *)
Definition fromPtr (p : option string) : string :=
  match p with Some s => s | None => "" end.

(** [vehicleToProto] *)
Definition vehicleToProto (vehicle : Vehicle.t Z) : PbVehicle.t :=
  {| PbVehicle.Id := Vehicle.ID vehicle;
     PbVehicle.CustomerId := Vehicle.CustomerID vehicle;
     PbVehicle.Make := Vehicle.Make vehicle;
     PbVehicle.Model := Vehicle.Model vehicle;
     PbVehicle.Year := GoInt.wrap32 (Vehicle.Year vehicle);
     PbVehicle.Vin := fromPtr (Vehicle.VIN vehicle);
     PbVehicle.LicensePlate := fromPtr (Vehicle.LicensePlate vehicle);
     PbVehicle.Color := fromPtr (Vehicle.Color vehicle);
     PbVehicle.Engine := fromPtr (Vehicle.Engine vehicle);
     PbVehicle.Notes := fromPtr (Vehicle.Notes vehicle);
     PbVehicle.IsActive := Vehicle.IsActive vehicle;
     PbVehicle.CreatedAt := Vehicle.CreatedAt vehicle;
     PbVehicle.UpdatedAt := Vehicle.UpdatedAt vehicle |}.

(** [customerNoteToProto] *)
Definition customerNoteToProto (note : CustomerNote.t) : PbCustomerNote.t :=
  {| PbCustomerNote.Id := CustomerNote.ID note;
     PbCustomerNote.CustomerId := CustomerNote.CustomerID note;
     PbCustomerNote.StaffId := CustomerNote.StaffID note;
     PbCustomerNote.StaffName := CustomerNote.StaffName note;
     PbCustomerNote.Note := CustomerNote.Note note;
     PbCustomerNote.Type_ := CustomerNote.Type_ note;
     PbCustomerNote.CreatedAt := CustomerNote.CreatedAt note |}.

(** [customerToProto]; the preferences are not converted. *)
Definition customerToProto (customer : Customer.t Z) : PbCustomer.t :=
  {| PbCustomer.Id := Customer.ID customer;
     PbCustomer.TenantId := Customer.TenantID customer;
     PbCustomer.FirstName := Customer.FirstName customer;
     PbCustomer.LastName := Customer.LastName customer;
     PbCustomer.Email := fromPtr (Customer.Email customer);
     PbCustomer.Phone := fromPtr (Customer.Phone customer);
     PbCustomer.CustomerType := Customer.CustomerType customer;
     PbCustomer.CompanyName := fromPtr (Customer.CompanyName customer);
     PbCustomer.TaxId := fromPtr (Customer.TaxID customer);
     PbCustomer.Address := fromPtr (Customer.Address customer);
     PbCustomer.Birthday := Customer.Birthday customer;
     PbCustomer.Notes := fromPtr (Customer.Notes customer);
     PbCustomer.IsActive := Customer.IsActive customer;
     PbCustomer.CreatedAt := Customer.CreatedAt customer;
     PbCustomer.UpdatedAt := Customer.UpdatedAt customer;
     PbCustomer.Vehicles := vehicleToProto <$> Customer.Vehicles customer;
     PbCustomer.CustomerNotes := customerNoteToProto <$> Customer.CustomerNotes customer |}.

(** The limit [ListCustomers] works with: 20 when the request has none,
    at most 100. *)
Definition listLimit (reqLimit : Z) : Z :=
  let limit := if reqLimit <=? 0 then 20 else reqLimit in
  if limit >? 100 then 100 else limit.

(** [int32((total + int(req.Limit) - 1) / int(req.Limit))]: the sum in
    [int], the division of Go (towards zero), the result cut to
    [int32]. *)
Definition totalPages (total limit : Z) : Z :=
  GoInt.wrap32 (Z.quot (GoInt.wrap (total + limit - 1)) limit).

(** [ListCustomers]; [driver] is the text of a driver error, for the
    message of the status. *)
Definition ListCustomers (driver : string) (ctx : Ctx.Context) (req : ListCustomersRequest.t)
  : M (Handler.Code * string + ListCustomersResponse.t) :=
  if ListCustomersRequest.Page req <? 0
  then ret (inl (Handler.InvalidArgument, "page must be non-negative"))
  else
    let limit := listLimit (ListCustomersRequest.Limit req) in
    let filter :=
      {| CustomerFilter.Search := ListCustomersRequest.Search req;
         CustomerFilter.CustomerType := ListCustomersRequest.CustomerType req;
         CustomerFilter.ActiveOnly := ListCustomersRequest.ActiveOnly req;
         CustomerFilter.Page := ListCustomersRequest.Page req;
         CustomerFilter.Limit := limit;
         CustomerFilter.SortBy := ListCustomersRequest.SortBy req;
         CustomerFilter.SortOrder := ListCustomersRequest.SortOrder req |} in
    r <- try (CustomerService.ListCustomers ctx filter) ;;
    match r with
    | inl err => ret (inl (Handler.Internal, "failed to list customers: " ++ Error_ driver err))
    | inr (customers, total) =>
        ret (inr {| ListCustomersResponse.Customers := customerToProto <$> customers;
                    ListCustomersResponse.Total := GoInt.wrap32 total;
                    ListCustomersResponse.Page := ListCustomersRequest.Page req;
                    ListCustomersResponse.Limit := limit;
                    ListCustomersResponse.TotalPages := totalPages total limit |})
    end.

(** The limit [SearchCustomers] works with: 20 when the request has
    none, at most 50. *)
Definition searchLimit (reqLimit : Z) : Z :=
  let limit := if reqLimit <=? 0 then 20 else reqLimit in
  if limit >? 50 then 50 else limit.

(** [SearchCustomers] *)
Definition SearchCustomers (driver : string) (ctx : Ctx.Context)
  (req : SearchCustomersRequest.t)
  : M (Handler.Code * string + SearchCustomersResponse.t) :=
  if GoString.isEmpty (SearchCustomersRequest.Query req)
  then ret (inr {| SearchCustomersResponse.Customers := [];
                   SearchCustomersResponse.Total := 0 |})
  else
    let limit := searchLimit (SearchCustomersRequest.Limit req) in
    let searchFields :=
      if negb (GoString.isEmpty (SearchCustomersRequest.SearchFields req))
      then ["name"; "email"; "phone"; "tax_id"] else [] in
    let filter := {| CustomerSearchFilter.Query := SearchCustomersRequest.Query req;
                     CustomerSearchFilter.SearchFields := searchFields;
                     CustomerSearchFilter.Limit := limit |} in
    r <- try (CustomerService.SearchCustomers ctx filter) ;;
    match r with
    | inl err => ret (inl (Handler.Internal, "failed to search customers: " ++ Error_ driver err))
    | inr customers =>
        ret (inr {| SearchCustomersResponse.Customers := customerToProto <$> customers;
                    SearchCustomersResponse.Total := GoInt.wrap32 (Z.of_nat (length customers)) |})
    end.

End CustomerHandler.

Module VehicleHandler.

(** The checks of [CreateVehicle] and the [VehicleCreate] it passes to
    the service for a request that gets through. *)
Definition CreateVehicle_decode (req : CreateVehicleRequest.t)
  : Handler.Code * string + VehicleCreate.t Z :=
  if CreateVehicleRequest.CustomerId req <=? 0
  then inl (Handler.InvalidArgument, "customer ID must be positive")
  else if GoString.isEmpty (CreateVehicleRequest.Make req)
  then inl (Handler.InvalidArgument, "make is required")
  else if GoString.isEmpty (CreateVehicleRequest.Model req)
  then inl (Handler.InvalidArgument, "model is required")
  else if (CreateVehicleRequest.Year req <=? 1900) || (CreateVehicleRequest.Year req >? 2100)
  then inl (Handler.InvalidArgument, "year must be between 1900 and 2100")
  else inr {| VehicleCreate.CustomerID := CreateVehicleRequest.CustomerId req;
              VehicleCreate.Make := CreateVehicleRequest.Make req;
              VehicleCreate.Model := CreateVehicleRequest.Model req;
              VehicleCreate.Year := CreateVehicleRequest.Year req;
              VehicleCreate.VIN := Handler.stringPtrFromProto (CreateVehicleRequest.Vin req);
              VehicleCreate.LicensePlate :=
                Handler.stringPtrFromProto (CreateVehicleRequest.LicensePlate req);
              VehicleCreate.Color := Handler.stringPtrFromProto (CreateVehicleRequest.Color req);
              VehicleCreate.Engine := Handler.stringPtrFromProto (CreateVehicleRequest.Engine req);
              VehicleCreate.Notes := Handler.stringPtrFromProto (CreateVehicleRequest.Notes req);
              VehicleCreate.Metadata := match CreateVehicleRequest.Metadata req with
                                        | Some m => Some m
                                        | None => Some ∅
                                        end |}.

End VehicleHandler.

(** * Vocabulary of the specification *)

(** The character [a] occurs in [s]. *)
Definition occurs (a : ascii) (s : string) : Prop := a ∈ list_ascii_of_string s.

(** A VIN holds one of the excluded letters. *)
Definition hasIOQ (vin : string) : Prop :=
  occurs "I"%char vin \/ occurs "O"%char vin \/ occurs "Q"%char vin.

(** The VINs the specification admits: absent, empty, or 17 characters
    none of which is I, O or Q. *)
Definition vinAcceptable (vin : option string) : Prop :=
  match vin with
  | None => True
  | Some s => s = "" \/ (String.length s = 17%nat /\ ~ hasIOQ s)
  end.

(** The checks of [Vehicle.Validate] that do not concern the VIN. *)
Definition vehicleBasicsValid (v : Vehicle.t Z) : Prop :=
  0 < Vehicle.CustomerID v /\ Vehicle.Make v <> "" /\ Vehicle.Model v <> ""
  /\ 1900 <= Vehicle.Year v <= 2100.

(** "A field is overwritten exactly when its update value is present":
    [new] is the update's value when there is one and [old] otherwise. *)
Definition overwrites {A} (update : option A) (old new : A) : Prop :=
  match update with
  | Some v => new = v
  | None => new = old
  end.

(** The same for an optional field, which takes the update's pointer. *)
Definition overwritesPtr {A} (update old new : option A) : Prop :=
  match update with
  | Some v => new = Some v
  | None => new = old
  end.

(** What the specification asks of a partial update of a customer. *)
Definition customerPartialUpdate {K} (now : Time) (u : CustomerUpdate.t K)
  (c c' : Customer.t K) : Prop :=
  overwrites (CustomerUpdate.FirstName u) (Customer.FirstName c) (Customer.FirstName c')
  /\ overwrites (CustomerUpdate.LastName u) (Customer.LastName c) (Customer.LastName c')
  /\ overwritesPtr (CustomerUpdate.Email u) (Customer.Email c) (Customer.Email c')
  /\ overwritesPtr (CustomerUpdate.Phone u) (Customer.Phone c) (Customer.Phone c')
  /\ overwrites (CustomerUpdate.CustomerType u) (Customer.CustomerType c) (Customer.CustomerType c')
  /\ overwritesPtr (CustomerUpdate.CompanyName u) (Customer.CompanyName c) (Customer.CompanyName c')
  /\ overwritesPtr (CustomerUpdate.TaxID u) (Customer.TaxID c) (Customer.TaxID c')
  /\ overwritesPtr (CustomerUpdate.Address u) (Customer.Address c) (Customer.Address c')
  /\ overwritesPtr (CustomerUpdate.Birthday u) (Customer.Birthday c) (Customer.Birthday c')
  /\ overwritesPtr (CustomerUpdate.Notes u) (Customer.Notes c) (Customer.Notes c')
  /\ overwritesPtr (CustomerUpdate.Preferences u) (Customer.Preferences c) (Customer.Preferences c')
  /\ overwrites (CustomerUpdate.IsActive u) (Customer.IsActive c) (Customer.IsActive c')
  (* fields no update value exists for *)
  /\ Customer.ID c' = Customer.ID c
  /\ Customer.TenantID c' = Customer.TenantID c
  /\ Customer.CreatedAt c' = Customer.CreatedAt c
  /\ Customer.Vehicles c' = Customer.Vehicles c
  /\ Customer.CustomerNotes c' = Customer.CustomerNotes c
  /\ Customer.Stats c' = Customer.Stats c
  (* the timestamp *)
  /\ Customer.UpdatedAt c' = now.

(** What the specification asks of a partial update of a vehicle. *)
Definition vehiclePartialUpdate {K} (now : Time) (u : VehicleUpdate.t K)
  (v v' : Vehicle.t K) : Prop :=
  overwrites (VehicleUpdate.Make u) (Vehicle.Make v) (Vehicle.Make v')
  /\ overwrites (VehicleUpdate.Model u) (Vehicle.Model v) (Vehicle.Model v')
  /\ overwrites (VehicleUpdate.Year u) (Vehicle.Year v) (Vehicle.Year v')
  /\ overwritesPtr (VehicleUpdate.VIN u) (Vehicle.VIN v) (Vehicle.VIN v')
  /\ overwritesPtr (VehicleUpdate.LicensePlate u) (Vehicle.LicensePlate v) (Vehicle.LicensePlate v')
  /\ overwritesPtr (VehicleUpdate.Color u) (Vehicle.Color v) (Vehicle.Color v')
  /\ overwritesPtr (VehicleUpdate.Engine u) (Vehicle.Engine v) (Vehicle.Engine v')
  /\ overwritesPtr (VehicleUpdate.Notes u) (Vehicle.Notes v) (Vehicle.Notes v')
  /\ overwrites (VehicleUpdate.IsActive u) (Vehicle.IsActive v) (Vehicle.IsActive v')
  /\ overwritesPtr (VehicleUpdate.Metadata u) (Vehicle.Metadata v) (Vehicle.Metadata v')
  /\ Vehicle.ID v' = Vehicle.ID v
  /\ Vehicle.CustomerID v' = Vehicle.CustomerID v
  /\ Vehicle.CreatedAt v' = Vehicle.CreatedAt v
  /\ Vehicle.Customer v' = Vehicle.Customer v
  /\ Vehicle.UpdatedAt v' = now.

(** An update that carries an e-mail address and nothing else. *)
Definition emailOnly {K} (id : K) (email : string) : CustomerUpdate.t K :=
  {| CustomerUpdate.ID := id;
     CustomerUpdate.FirstName := None; CustomerUpdate.LastName := None;
     CustomerUpdate.Email := Some email; CustomerUpdate.Phone := None;
     CustomerUpdate.CustomerType := None; CustomerUpdate.CompanyName := None;
     CustomerUpdate.TaxID := None; CustomerUpdate.Address := None;
     CustomerUpdate.Birthday := None; CustomerUpdate.Notes := None;
     CustomerUpdate.Preferences := None; CustomerUpdate.IsActive := None |}.

(** The string fields of an update request and of the update built
    from it, in the same order. *)
Definition requestStrings (req : Handler.UpdateCustomerRequest) : list string :=
  [Handler.FirstName req; Handler.LastName req; Handler.Email req; Handler.Phone req;
   Handler.CustomerType req; Handler.CompanyName req; Handler.TaxId req;
   Handler.Address req; Handler.Notes req].

Definition updateStrings {K} (u : CustomerUpdate.t K) : list (option string) :=
  [CustomerUpdate.FirstName u; CustomerUpdate.LastName u; CustomerUpdate.Email u;
   CustomerUpdate.Phone u; CustomerUpdate.CustomerType u; CustomerUpdate.CompanyName u;
   CustomerUpdate.TaxID u; CustomerUpdate.Address u; CustomerUpdate.Notes u].

(** The string fields of a customer an update can overwrite, the
    required ones as present values. *)
Definition customerStrings {K} (c : Customer.t K) : list (option string) :=
  [Some (Customer.FirstName c); Some (Customer.LastName c); Customer.Email c;
   Customer.Phone c; Some (Customer.CustomerType c); Customer.CompanyName c;
   Customer.TaxID c; Customer.Address c; Customer.Notes c].

(** "An empty string is an absent field." *)
Definition absentIfEmpty (s : string) : option string :=
  match s with
  | "" => None
  | _ => Some s
  end.

(** A request that names the customer and fills no other field: what
    arrives when the caller sets nothing but the id. *)
Definition bareRequest (id : string) : Handler.UpdateCustomerRequest :=
  {| Handler.Id := id; Handler.FirstName := ""; Handler.LastName := "";
     Handler.Email := ""; Handler.Phone := ""; Handler.CustomerType := "";
     Handler.CompanyName := ""; Handler.TaxId := ""; Handler.Address := "";
     Handler.Birthday := None; Handler.Notes := ""; Handler.Preferences := None;
     Handler.IsActive := false |}.

(** An active customer, for examples. *)
Definition sampleCustomer {K} (id : K) (tenantID : string) : Customer.t K :=
  {| Customer.ID := id; Customer.TenantID := tenantID;
     Customer.FirstName := "Ana"; Customer.LastName := "Diaz";
     Customer.Email := Some "ana@example.com"; Customer.Phone := None;
     Customer.CustomerType := "individual"; Customer.CompanyName := None;
     Customer.TaxID := None; Customer.Address := None; Customer.Birthday := None;
     Customer.Notes := None; Customer.Preferences := None;
     Customer.IsActive := true; Customer.CreatedAt := 100; Customer.UpdatedAt := 100;
     Customer.Vehicles := []; Customer.CustomerNotes := []; Customer.Stats := None |}.

(** *** The store at work *)

(** The connection the pool hands to the next call, and the world once
    it has; the decision the schedule takes for that call. *)
Definition nextPick (w : Postgres.World) : Postgres.Pick :=
  Postgres.sched w (Postgres.clock w).

Definition slot (w : Postgres.World) : nat :=
  fst (match Postgres.acquire w with
       | (Postgres.Ok ip, _) => ip
       | _ => (0%nat, nextPick w)
       end).

Definition acquired (w : Postgres.World) : Postgres.World := snd (Postgres.acquire w).

(** The events a computation adds to the trace of [w]. *)
Definition emits {A} (m : Postgres.M A) (w : Postgres.World) (es : list Postgres.Event) : Prop :=
  Postgres.log (snd (m w)) = (Postgres.log w ++ es)%list.

(** Statement [q] is sent somewhere in the trace. *)
Definition sentIn (q : Db.Query) (es : list Postgres.Event) : Prop :=
  exists conn session, Postgres.EvStmt conn session (Db.Sql q) ∈ es.

(** A pool of two idle connections; the second one was last used by
    tenant B.  The schedule hands out connection 0, then connection 1,
    and lets every statement succeed. *)
Definition noEngine : Db.Engine :=
  {| Db.ilike := fun _ _ => false; Db.text_leb := fun _ _ => true;
     Db.fk_cascade := false |}.

Definition answer (conn : nat) (ok : bool) : Postgres.Pick :=
  {| Postgres.pick_conn := conn; Postgres.pick_ok := ok;
     Postgres.pick_rows := Db.RNone; Postgres.pick_affected := 0 |}.

Definition twoConnections : Postgres.World :=
  {| Postgres.engine := noEngine;
     Postgres.conns := [ {| Postgres.session := None; Postgres.held := None |};
                         {| Postgres.session := Some "tenant-b"; Postgres.held := None |} ];
     Postgres.tables := {| Db.customers := [sampleCustomer 7 "tenant-b"]; Db.vehicles := [] |};
     Postgres.log := [];
     Postgres.clock := 0;
     Postgres.sched := fun n => match n with
                                | O => answer 0 true
                                | _ => answer 1 true
                                end |}.

(** A pool of one idle connection on which the next statement fails and
    the later ones succeed. *)
Definition failingDirective : Postgres.World :=
  {| Postgres.engine := noEngine;
     Postgres.conns := [ {| Postgres.session := Some "tenant-b"; Postgres.held := None |} ];
     Postgres.tables := {| Db.customers := [sampleCustomer 7 "tenant-b"]; Db.vehicles := [] |};
     Postgres.log := [];
     Postgres.clock := 0;
     Postgres.sched := fun n => match n with
                                | O => answer 0 false
                                | _ => answer 0 true
                                end |}.

Section StoreVocabulary.
Import Db Postgres.

(** The directive of a store call: sent first, on the connection the
    pool hands to [SetTenantID]. *)
Definition directiveEvent (tenantID : string) (w : World) : Event :=
  EvStmt (slot w) (sessionOf (slot w) (acquired w)) (SetTenant tenantID).

(** The statement of a store call: sent on the connection the pool
    hands to the second call, in the world [SetTenantID] leaves. *)
Definition statementEvent (tenantID : string) (q : Query) (w : World) : Event :=
  let w1 := snd (SetTenantID tenantID w) in
  EvStmt (slot w1) (sessionOf (slot w1) (acquired w1)) (Sql q).

(** The world a successful [BeginTx] leaves: the connection [slot w]
    is held, with the tables and the session of that moment saved. *)
Definition begun (w : World) : World :=
  addLog (EvBegin (slot w))
    (setConns (alter (setHeld (Some (tables (acquired w), sessionOf (slot w) (acquired w))))
                     (slot w) (conns (acquired w)))
              (acquired w)).

(** The events of a transaction that stops at the directive. *)
Definition abortedTrace (tenantID : string) (w : World) : list Event :=
  [EvBegin (slot w);
   EvStmt (slot w) (sessionOf (slot w) (acquired w)) (SetTenant tenantID);
   EvRollback (slot w)].

(** A pool of one idle connection on which [BeginTx] succeeds and the
    statement after it fails. *)
Definition failingDirectiveInTx : World :=
  {| engine := noEngine;
     conns := [ {| session := Some "tenant-b"; held := None |} ];
     tables := {| customers := [sampleCustomer 7 "tenant-b"]; vehicles := [] |};
     log := [];
     clock := 0;
     sched := fun n => match n with
                       | 1%nat => answer 0 false
                       | _ => answer 0 true
                       end |}.

(** The world a successful [BeginTxWithTenant] leaves. *)
Definition directed (tenantID : string) (w : World) : World :=
  snd (BeginTxWithTenant tenantID w).

(** The two events every transaction of the store starts with. *)
Definition openingTrace (tenantID : string) (w : World) : list Event :=
  [EvBegin (slot w);
   EvStmt (slot w) (sessionOf (slot w) (acquired w)) (SetTenant tenantID)].

(** An event of the function's own: a statement (never a directive) on
    the connection of the transaction. *)
Definition isTxStatement (conn : nat) (e : Event) : Prop :=
  exists session q, e = EvStmt conn session (Sql q).

(** A pool of one idle connection where every statement succeeds, over
    a table with one customer of tenant A. *)
Definition oneConnection : World :=
  {| engine := noEngine;
     conns := [ {| session := None; held := None |} ];
     tables := {| customers := [sampleCustomer 7 "tenant-a"]; vehicles := [] |};
     log := [];
     clock := 0;
     sched := fun _ => answer 0 true |}.

(** A function that deletes customer 7 on the transaction and then
    returns an error, returns [nil], or panics. *)
Definition deleteThen (after : TxProg) : TxProg :=
  TxExec (QCustomerDelete 7) (fun _ => after).

(** *** Every repository operation *)

(** The operations of the three repositories, with their arguments. *)
Inductive RepoCall :=
(* customers *)
| CustomerCreate (customer : Customer.t Z)
| CustomerGetByID (id : Z)
| CustomerUpdate_ (customer : Customer.t Z)
| CustomerDelete (id : Z)
| CustomerList (filter : CustomerFilter.t)
| CustomerSearch (filter : CustomerSearchFilter.t)
| CustomerGetByEmail (email : string)
| CustomerGetByTaxID (taxID : string)
| CustomerListByType (customerType : string) (page limit : Z)
| CustomerListActive (page limit : Z)
| CustomerListInactive (page limit : Z)
| CustomerCount
| CustomerCountByType (customerType : string)
| CustomerCountActive
| CustomerExistsByEmail (email : string) (excludeID : option Z)
| CustomerExistsByTaxID (taxID : string) (excludeID : option Z)
(* vehicles *)
| VehicleCreate_ (vehicle : Vehicle.t Z)
| VehicleGetByID (id : Z)
| VehicleUpdate_ (vehicle : Vehicle.t Z)
| VehicleDelete (id : Z)
| VehicleList (filter : VehicleFilter.t)
| VehicleListByCustomer (customerID : Z)
| VehicleGetByVIN (vin : string)
| VehicleGetByLicensePlate (licensePlate : string)
| VehicleSearchByMakeModel (make model : string) (year : option Z)
| VehicleFindCompatible (make model : string) (yearFrom yearTo : Z)
| VehicleListByMakeModelYear (make model : string) (year : Z)
| VehicleCount
| VehicleCountByCustomer (customerID : Z)
| VehicleCountActive
| VehicleExistsByVIN (vin : string) (excludeID : option Z)
| VehicleExistsByLicensePlate (licensePlate : string) (excludeID : option Z)
| VehicleCreateBatch (vehicles : list (option (Vehicle.t Z)))
| VehicleListActiveByCustomer (customerID : Z)
(* notes *)
| NoteCreate (note : CustomerNote.t)
| NoteGetByID (id : string)
| NoteDelete (id : string)
| NoteList (filter : CustomerNoteFilter.t)
| NoteListByCustomer (customerID : string)
| NoteListByCustomerAndType (customerID noteType : string)
| NoteListByStaff (staffID : string) (page limit : Z)
| NoteListByType (noteType : string) (page limit : Z)
| NoteListRecent (limit : Z)
| NoteListByDateRange (customerID : string) (from to : option Time)
| NoteListRecentByCustomer (customerID : string) (limit : Z)
| NoteCount
| NoteCountByCustomer (customerID : string)
| NoteCountByType (noteType : string)
| NoteCountByStaff (staffID : string)
| NoteGetNoteTypesCount (customerID : string)
| NoteGetMostActiveStaff (limit : Z).

(** The error of a call, its values dropped. *)
Definition outcome {A} (m : M A) : M unit := bind m (fun _ => ret tt).

Definition runCall (call : RepoCall) (ctx : Ctx.Context) : M unit :=
  match call with
  | CustomerCreate c => outcome (CustomerRepository.Create ctx c)
  | CustomerGetByID id => outcome (CustomerRepository.GetByID ctx id)
  | CustomerUpdate_ c => outcome (CustomerRepository.Update ctx c)
  | CustomerDelete id => outcome (CustomerRepository.Delete ctx id)
  | CustomerList f => outcome (CustomerRepository.List_ ctx f)
  | CustomerSearch f => outcome (CustomerRepository.Search ctx f)
  | CustomerGetByEmail e => outcome (CustomerRepository.GetByEmail ctx e)
  | CustomerGetByTaxID x => outcome (CustomerRepository.GetByTaxID ctx x)
  | CustomerListByType ty p l => outcome (CustomerRepository.ListByType ctx ty p l)
  | CustomerListActive p l => outcome (CustomerRepository.ListActive ctx p l)
  | CustomerListInactive p l => outcome (CustomerRepository.ListInactive ctx p l)
  | CustomerCount => outcome (CustomerRepository.Count ctx)
  | CustomerCountByType ty => outcome (CustomerRepository.CountByType ctx ty)
  | CustomerCountActive => outcome (CustomerRepository.CountActive ctx)
  | CustomerExistsByEmail e x => outcome (CustomerRepository.ExistsByEmail ctx e x)
  | CustomerExistsByTaxID t x => outcome (CustomerRepository.ExistsByTaxID ctx t x)
  | VehicleCreate_ v => outcome (VehicleRepository.Create ctx v)
  | VehicleGetByID id => outcome (VehicleRepository.GetByID ctx id)
  | VehicleUpdate_ v => outcome (VehicleRepository.Update ctx v)
  | VehicleDelete id => outcome (VehicleRepository.Delete ctx id)
  | VehicleList f => outcome (VehicleRepository.List_ ctx f)
  | VehicleListByCustomer id => outcome (VehicleRepository.ListByCustomer ctx id)
  | VehicleGetByVIN vin => outcome (VehicleRepository.GetByVIN ctx vin)
  | VehicleGetByLicensePlate p => outcome (VehicleRepository.GetByLicensePlate ctx p)
  | VehicleSearchByMakeModel mk md y => outcome (VehicleRepository.SearchByMakeModel ctx mk md y)
  | VehicleFindCompatible mk md a b => outcome (VehicleRepository.FindCompatibleVehicles ctx mk md a b)
  | VehicleListByMakeModelYear mk md y => outcome (VehicleRepository.ListByMakeModelYear ctx mk md y)
  | VehicleCount => outcome (VehicleRepository.Count ctx)
  | VehicleCountByCustomer id => outcome (VehicleRepository.CountByCustomer ctx id)
  | VehicleCountActive => outcome (VehicleRepository.CountActive ctx)
  | VehicleExistsByVIN vin x => outcome (VehicleRepository.ExistsByVIN ctx vin x)
  | VehicleExistsByLicensePlate p x => outcome (VehicleRepository.ExistsByLicensePlate ctx p x)
  | VehicleCreateBatch vs => outcome (VehicleRepository.CreateBatch ctx vs)
  | VehicleListActiveByCustomer id => outcome (VehicleRepository.ListActiveByCustomer ctx id)
  | NoteCreate n => outcome (CustomerNoteRepository.Create ctx n)
  | NoteGetByID id => outcome (CustomerNoteRepository.GetByID ctx id)
  | NoteDelete id => outcome (CustomerNoteRepository.Delete ctx id)
  | NoteList f => outcome (CustomerNoteRepository.List_ ctx f)
  | NoteListByCustomer id => outcome (CustomerNoteRepository.ListByCustomer ctx id)
  | NoteListByCustomerAndType id ty => outcome (CustomerNoteRepository.ListByCustomerAndType ctx id ty)
  | NoteListByStaff s p l => outcome (CustomerNoteRepository.ListByStaff ctx s p l)
  | NoteListByType ty p l => outcome (CustomerNoteRepository.ListByType ctx ty p l)
  | NoteListRecent l => outcome (CustomerNoteRepository.ListRecent ctx l)
  | NoteListByDateRange id a b => outcome (CustomerNoteRepository.ListByDateRange ctx id a b)
  | NoteListRecentByCustomer id l => outcome (CustomerNoteRepository.ListRecentByCustomer ctx id l)
  | NoteCount => outcome (CustomerNoteRepository.Count ctx)
  | NoteCountByCustomer id => outcome (CustomerNoteRepository.CountByCustomer ctx id)
  | NoteCountByType ty => outcome (CustomerNoteRepository.CountByType ctx ty)
  | NoteCountByStaff s => outcome (CustomerNoteRepository.CountByStaff ctx s)
  | NoteGetNoteTypesCount id => outcome (CustomerNoteRepository.GetNoteTypesCount ctx id)
  | NoteGetMostActiveStaff l => outcome (CustomerNoteRepository.GetMostActiveStaff ctx l)
  end.

(** The one call that returns before it reads the context. *)
Definition isEmptyBatch (call : RepoCall) : bool :=
  match call with
  | VehicleCreateBatch [] => true
  | _ => false
  end.

(** No tenant was attached to the context ([found] is false). *)
Definition noTenant (ctx : Ctx.Context) : Prop := snd (Ctx.GetTenantID ctx) = false.

(** *** A pool that behaves *)

(** From now on the pool hands connection [k] to every call, no
    transaction holds it, and no statement fails: the setting in which
    a call's directive and statement meet on one connection. *)
Definition steady (k : nat) (w : World) : Prop :=
  (forall n, (clock w <= n)%nat ->
             pick_conn (sched w n) = k /\ pick_ok (sched w n) = true)
  /\ (k < length (conns w))%nat
  /\ heldOf k w = None.

(** What the statement of a store call evaluates to in [w], in the
    tenant of the call. *)
Definition evalIn (tenantID : string) (q : Query) (w : World) : (Error + Reply) * Tables :=
  eval (engine w) (Some tenantID)
       (pick_rows (sched w (S (clock w))), pick_affected (sched w (S (clock w))))
       q (tables w).

(** The world after a store call on a steady pool. *)
Definition after (k : nat) (tenantID : string) (q : Query) (w w1 : World) : Prop :=
  steady k w1
  /\ tables w1 = snd (evalIn tenantID q w)
  /\ engine w1 = engine w
  /\ clock w1 = S (S (clock w))
  /\ sched w1 = sched w
  /\ sessionOf k w1 = Some tenantID
  /\ log w1 = (log w ++ [EvStmt k (sessionOf k w) (SetTenant tenantID);
                         EvStmt k (Some tenantID) (Sql q)])%list.

Definition toRes {A} (r : Error + A) : Res A :=
  match r with inl e => Fail e | inr a => Ok a end.

Definition rowsOf (r : Error + Reply) : Error + Rows :=
  match r with inl e => inl e | inr x => inr (rows x) end.

(** The context carries tenant [tenantID]. *)
Definition hasTenant (ctx : Ctx.Context) (tenantID : string) : Prop :=
  Ctx.GetTenantID ctx = (tenantID, true).

(** The rows of [customers] with this id that the tenant sees. *)
Definition customerRows (tenantID : string) (id : Z) (tb : Tables) : list (Customer.t Z) :=
  List.filter (targets (Some tenantID) id) (customers tb).

(** Some vehicle row refers to a customer with this id that the tenant
    sees. *)
Definition referenced (tenantID : string) (id : Z) (tb : Tables) : bool :=
  existsb (references (customerRows tenantID id tb)) (vehicles tb).

(** The active vehicles of customer [id], as the tenant sees them. *)
Definition activeVehicles (eng : Engine) (tenantID : string) (id : Z) (tb : Tables)
  : list (Vehicle.t Z) :=
  vehiclesWhere eng (Some tenantID) [VCustomer id; VActive] tb.

(** The two events of a store call on connection [k], whose session
    was [before]: the directive, then the statement in the tenant. *)
Definition callEvents (k : nat) (before : option string) (tenantID : string) (q : Query)
  : list Event :=
  [EvStmt k before (SetTenant tenantID); EvStmt k (Some tenantID) (Sql q)].

(** The world after a [List] on a steady pool: the count statement went
    first, the page statement second, and the tables are as before. *)
Definition afterList (k : nat) (tenantID : string) (qcount qpage : Query) (w w2 : World)
  : Prop :=
  steady k w2
  /\ tables w2 = tables w
  /\ engine w2 = engine w
  /\ sessionOf k w2 = Some tenantID
  /\ log w2 = (log w ++ callEvents k (sessionOf k w) tenantID qcount
                     ++ callEvents k (Some tenantID) tenantID qpage)%list.

(** [LIMIT] and [OFFSET] as the "Build pagination" block computes them. *)
Definition limitOf (filterLimit filterPage : Z) : Z := fst (Repo.pagination filterLimit filterPage).
Definition offsetOf (filterLimit filterPage : Z) : Z := snd (Repo.pagination filterLimit filterPage).

(** The statements [DeleteCustomer] sends on connection [k] when it
    runs to its last call, which is [final]: the lookup, the count and
    the page of active vehicles, then the update or the delete, each
    after its directive. *)
Definition deleteTrace (k : nat) (before : option string) (tenantID : string) (id : Z)
  (final : Query) : list Event :=
  (callEvents k before tenantID (QCustomerByID id)
   ++ callEvents k (Some tenantID) tenantID (QVehicleCount [VCustomer id; VActive])
   ++ callEvents k (Some tenantID) tenantID (QVehicleSelect [VCustomer id; VActive] 100 0)
   ++ callEvents k (Some tenantID) tenantID final)%list.

(** The [UPDATE] of a soft delete of [row] at instant [now]. *)
Definition deactivation (now : Time) (row : Customer.t Z) : Query :=
  QCustomerUpdate
    (CustomerRepository.updateArgs
       (Customer.Deactivate now (CustomerRepository.scanCustomer row))).

(** A vehicle of customer [customerID], for examples. *)
Definition sampleVehicle (id customerID : Z) (active : bool) : Vehicle.t Z :=
  {| Vehicle.ID := id; Vehicle.CustomerID := customerID;
     Vehicle.Make := "Seat"; Vehicle.Model := "Ibiza"; Vehicle.Year := 2015;
     Vehicle.VIN := None; Vehicle.LicensePlate := None; Vehicle.Color := None;
     Vehicle.Engine := None; Vehicle.Notes := None; Vehicle.IsActive := active;
     Vehicle.Metadata := None; Vehicle.CreatedAt := 100; Vehicle.UpdatedAt := 100;
     Vehicle.Customer := None |}.

(** [oneConnection] when customer 7 owns the given vehicles. *)
Definition withVehicles (vs : list (Vehicle.t Z)) : World :=
  {| engine := noEngine;
     conns := conns oneConnection;
     tables := {| customers := [sampleCustomer 7 "tenant-a"]; vehicles := vs |};
     log := [];
     clock := 0;
     sched := fun _ => answer 0 true |}.

(** A request of tenant A. *)
Definition tenantA : Ctx.Context := Ctx.WithTenantID Ctx.Background "tenant-a".

(** *** Pages *)

(** The page size and the offset in the words of the documentation:
    the filter's limit if positive, else 50; [(page - 1) * limit] if
    the page is positive, else 0. *)
Definition pageLimit (filterLimit : Z) : Z :=
  if 0 <? filterLimit then filterLimit else 50.

Definition pageOffset (filterLimit filterPage : Z) : Z :=
  if 0 <? filterPage then (filterPage - 1) * pageLimit filterLimit else 0.

(** The product fits Go's [int]. *)
Definition fitsInt (filterLimit filterPage : Z) : Prop :=
  (filterPage - 1) * pageLimit filterLimit < 2^63.

(** Rows [first] to [last] of a result, counted from 1. *)
Definition rowsFromTo {A} (first last : nat) (l : list A) : list A :=
  take (S last - first) (drop (first - 1) l).

(** What [List] returns for a filter with this limit and page when
    [matching] are the rows of the count, in the order of the
    statement: the page, and the number of all matching rows. *)
Definition pageAndTotal {A B} (scan : A -> B) (filterLimit filterPage : Z) (matching : list A)
  : list B * Z :=
  (scan <$> take (Z.to_nat (pageLimit filterLimit))
              (drop (Z.to_nat (pageOffset filterLimit filterPage)) matching),
   count matching).

(** Customer [i] of tenant A, created at instant [i]. *)
Definition numbered (i : Z) : Customer.t Z :=
  CustomerRepository.created "tenant-a" (i, i, i) (sampleCustomer 0 "").

(** [oneConnection] over a table of customers 1 to [n]. *)
Definition withCustomersUpTo (n : nat) : World :=
  {| engine := noEngine;
     conns := conns oneConnection;
     tables := {| customers := numbered <$> seqZ 1 (Z.of_nat n); vehicles := [] |};
     log := [];
     clock := 0;
     sched := fun _ => answer 0 true |}.

(** The filter that only asks for a page. *)
Definition pageFilter (limit page : Z) : CustomerFilter.t :=
  {| CustomerFilter.Search := ""; CustomerFilter.CustomerType := "";
     CustomerFilter.ActiveOnly := false; CustomerFilter.Page := page;
     CustomerFilter.Limit := limit; CustomerFilter.SortBy := "";
     CustomerFilter.SortOrder := "" |}.

(** *** Pools that hand a call's statement another connection *)

(** A pool of two idle connections, the second one last used by tenant
    B, over tenant A's customer 7 and the active vehicle it owns.  The
    pool hands connection 1 to the sixth call, the statement that
    reads the page of active vehicles, and connection 0 to every other
    call; no statement fails.  [cascade] is what the foreign key of
    the vehicles does on delete. *)
Definition crossedList (cascade : bool) : World :=
  {| engine := {| ilike := fun _ _ => false; text_leb := fun _ _ => true;
                  fk_cascade := cascade |};
     conns := [ {| session := None; held := None |};
                {| session := Some "tenant-b"; held := None |} ];
     tables := {| customers := [sampleCustomer 7 "tenant-a"];
                  vehicles := [sampleVehicle 1 7 true] |};
     log := [];
     clock := 0;
     sched := fun n => match n with
                       | 5%nat => answer 1 true
                       | _ => answer 0 true
                       end |}.

(** Customer [i] of tenant B, created at instant [i]. *)
Definition numberedB (i : Z) : Customer.t Z :=
  CustomerRepository.created "tenant-b" (i, i, i) (sampleCustomer 0 "").

(** The same pool over customers 1 to 25 of tenant A and 101 to 103 of
    tenant B.  The pool hands connection 1 to the second call, the
    count statement, and connection 0 to every other call; no
    statement fails. *)
Definition crossedCount : World :=
  {| engine := noEngine;
     conns := [ {| session := None; held := None |};
                {| session := Some "tenant-b"; held := None |} ];
     tables := {| customers := (numbered <$> seqZ 1 25) ++ (numberedB <$> seqZ 101 3);
                  vehicles := [] |};
     log := [];
     clock := 0;
     sched := fun n => match n with
                       | 1%nat => answer 1 true
                       | _ => answer 0 true
                       end |}.

End StoreVocabulary.

(** *** The domain model in plain words *)

(** The addresses [isValidEmail] lets through: 4 to 255 bytes with an
    [@] and a dot somewhere. *)
Definition emailAcceptable (email : string) : Prop :=
  (3 < String.length email <= 255)%nat
  /\ occurs "@"%char email /\ occurs "."%char email.

(** A customer with both names, one of the two customer types, a
    company name when it is a business, and an acceptable address when
    it has one. *)
Definition customerValid {K} (c : Customer.t K) : Prop :=
  Customer.FirstName c <> ""
  /\ Customer.LastName c <> ""
  /\ (Customer.CustomerType c = "individual"
      \/ (Customer.CustomerType c = "business"
          /\ exists company, Customer.CompanyName c = Some company /\ company <> ""))
  /\ (forall email, Customer.Email c = Some email -> email <> "" -> emailAcceptable email).

(** The field a validation error names. *)
Definition fieldOf (e : Error) : option string :=
  match e with ErrValidation field _ => Some field | _ => None end.

(** A customer with these names and this company, for examples. *)
Definition namedCustomer (ty first last : string) (company : option string) : Customer.t Z :=
  {| Customer.ID := 1; Customer.TenantID := "tenant-a";
     Customer.FirstName := first; Customer.LastName := last;
     Customer.Email := None; Customer.Phone := None;
     Customer.CustomerType := ty; Customer.CompanyName := company;
     Customer.TaxID := None; Customer.Address := None; Customer.Birthday := None;
     Customer.Notes := None; Customer.Preferences := None;
     Customer.IsActive := true; Customer.CreatedAt := 100; Customer.UpdatedAt := 100;
     Customer.Vehicles := []; Customer.CustomerNotes := []; Customer.Stats := None |}.

(** Everything of a customer but the preferences and the instant of
    the last change. *)
Definition customerCore {K} (c : Customer.t K) :=
  (Customer.ID c, Customer.TenantID c, Customer.FirstName c, Customer.LastName c,
   Customer.Email c, Customer.Phone c, Customer.CustomerType c, Customer.CompanyName c,
   Customer.TaxID c, Customer.Address c, Customer.Birthday c, Customer.Notes c,
   Customer.IsActive c, Customer.CreatedAt c, Customer.Vehicles c,
   Customer.CustomerNotes c, Customer.Stats c).

(** Everything of a vehicle but the metadata and the instant of the
    last change. *)
Definition vehicleCore {K} (v : Vehicle.t K) :=
  (Vehicle.ID v, Vehicle.CustomerID v, Vehicle.Make v, Vehicle.Model v, Vehicle.Year v,
   Vehicle.VIN v, Vehicle.LicensePlate v, Vehicle.Color v, Vehicle.Engine v,
   Vehicle.Notes v, Vehicle.IsActive v, Vehicle.CreatedAt v, Vehicle.Customer v).

(** A model year that an [int] difference cannot overflow on. *)
Definition plainYear {K} (v : Vehicle.t K) : Prop := - 2^62 <= Vehicle.Year v < 2^62.

(** A note with this text, for examples. *)
Definition noteWith (text ty : string) : CustomerNote.t :=
  {| CustomerNote.ID := "n1"; CustomerNote.CustomerID := "c1";
     CustomerNote.StaffID := "1"; CustomerNote.StaffName := "System User";
     CustomerNote.Note := text; CustomerNote.Type_ := ty;
     CustomerNote.CreatedAt := 100 |}.

(** The note data a new note is valid for. *)
Definition noteCreateValid (create : CustomerNoteCreate.t) : Prop :=
  CustomerNoteCreate.CustomerID create <> ""
  /\ CustomerNoteCreate.StaffID create <> ""
  /\ CustomerNoteCreate.StaffName create <> ""
  /\ CustomerNoteCreate.Note create <> ""
  /\ (String.length (CustomerNoteCreate.Note create) <= 2000)%nat
  /\ (CustomerNoteCreate.Type_ create = ""
      \/ CustomerNoteCreate.Type_ create ∈ Note.GetValidNoteTypes).

(** A tenant id the database reads as it is written: it holds no
    quote.  (The comment of [SetTenantID] takes the id for a validated
    UUID.) *)
Definition plainTenant (tenantID : string) : Prop := ~ occurs "'"%char tenantID.

(** *** Traces in which every statement follows the directive *)

Section TraceVocabulary.
Import Db Postgres.

(** How a transaction ends in the trace: committed, rolled back, or
    left open by a panic or by the end of the trace. *)
Definition txEnd (conn : nat) (tail : list Event) : Prop :=
  tail = [EvCommit conn] \/ tail = [EvRollback conn] \/ tail = [].

(** [scoped t P es]: the trace [es] is a sequence of blocks, each one
    - the directive of tenant [t] alone (it failed),
    - the directive of tenant [t] and, right after it, one statement
      that satisfies [P], or
    - a transaction: [BEGIN], the directive of tenant [t] on the
      connection of the transaction, statements on that connection,
      and its end. *)
Inductive scoped (t : string) (P : Query -> Prop) : list Event -> Prop :=
| scoped_nil : scoped t P []
| scoped_directive conn session es :
    scoped t P es ->
    scoped t P (EvStmt conn session (SetTenant t) :: es)
| scoped_statement conn session conn' session' q es :
    P q -> scoped t P es ->
    scoped t P (EvStmt conn session (SetTenant t) :: EvStmt conn' session' (Sql q) :: es)
| scoped_tx conn session body tail es :
    Forall (isTxStatement conn) body -> txEnd conn tail ->
    scoped t P es ->
    scoped t P (EvBegin conn :: EvStmt conn session (SetTenant t) :: body ++ tail ++ es).

(** A computation that only adds such traces. *)
Definition scopedM {A} (t : string) (P : Query -> Prop) (m : M A) : Prop :=
  forall w, exists es, log (snd (m w)) = (log w ++ es)%list /\ scoped t P es.

(** The same for a call with a context: nothing at all without a
    tenant. *)
Definition scopedFor (ctx : Ctx.Context) (P : Query -> Prop) (es : list Event) : Prop :=
  match Ctx.GetTenantID ctx with
  | (t, true) => scoped t P es
  | (_, false) => es = []
  end.

Definition anyQuery (q : Query) : Prop := True.

(** A statement (never a directive) sent on connection [conn] while its
    session is scoped to tenant [t]. *)
Definition inSessionOf (conn : nat) (t : string) (e : Event) : Prop :=
  exists q, e = EvStmt conn (Some t) (Sql q).

End TraceVocabulary.

Section ServiceVocabulary.
Import Db Postgres.


(** The statement is the lookup of a customer by id. *)
Definition isLookup (q : Query) : Prop := exists id, q = QCustomerByID id.

(** The customer data of the examples. *)
Definition createData (first : string) (email : option string) : CustomerCreate.t :=
  {| CustomerCreate.TenantID := "1"; CustomerCreate.FirstName := first;
     CustomerCreate.LastName := "Diaz"; CustomerCreate.Email := email;
     CustomerCreate.Phone := None; CustomerCreate.CustomerType := "individual";
     CustomerCreate.CompanyName := None; CustomerCreate.TaxID := None;
     CustomerCreate.Address := None; CustomerCreate.Birthday := None;
     CustomerCreate.Notes := None; CustomerCreate.Preferences := None |}.

(** A pool of one idle connection whose database answers every
    uninterpreted statement with [rows]. *)
Definition answering (rows : Rows) : World :=
  {| engine := noEngine;
     conns := conns oneConnection;
     tables := tables oneConnection;
     log := [];
     clock := 0;
     sched := fun _ => {| pick_conn := 0; pick_ok := true;
                          pick_rows := rows; pick_affected := 1 |} |}.

End ServiceVocabulary.

Section FlagVocabulary.
Import Db Postgres.

(** The [UPDATE] that sets the active flag of [row] at instant [now]. *)
Definition flagUpdate (now : Time) (active : bool) (row : Customer.t Z) : Query :=
  QCustomerUpdate
    (CustomerRepository.updateArgs
       (Customer.setActive now active (CustomerRepository.scanCustomer row))).

(** The events of a lookup by id followed by that update. *)
Definition flagTrace (k : nat) (before : option string) (t : string) (id : Z)
  (now : Time) (active : bool) (row : Customer.t Z) : list Event :=
  (callEvents k before t (QCustomerByID id)
   ++ callEvents k (Some t) t (flagUpdate now active row))%list.

End FlagVocabulary.

(** The fields a customer search knows. *)
Definition searchable : list string := ["name"; "email"; "phone"; "tax_id"; "company_name"].

(** The search has nothing to look for: no query, or fields none of
    which is known. *)
Definition nothingToSearch (filter : CustomerSearchFilter.t) : Prop :=
  CustomerSearchFilter.Query filter = ""
  \/ (CustomerSearchFilter.SearchFields filter <> []
      /\ Forall (fun field => field ∉ searchable) (CustomerSearchFilter.SearchFields filter)).

(** The statement of a customer search with this limit. *)
Definition searchStatement (limit : Z) : Db.Query :=
  Db.QOther "SELECT FROM customers WHERE (search) AND is_active = true LIMIT" [limit].

Section HandlerVocabulary.
Import Db Postgres.





End HandlerVocabulary.

(** A request to create a vehicle of customer 7, for examples. *)
Definition vehicleRequest (year : Z) (vin : string) : CreateVehicleRequest.t :=
  {| CreateVehicleRequest.CustomerId := 7; CreateVehicleRequest.Make := "Seat";
     CreateVehicleRequest.Model := "Ibiza"; CreateVehicleRequest.Year := year;
     CreateVehicleRequest.Vin := vin; CreateVehicleRequest.LicensePlate := "";
     CreateVehicleRequest.Color := ""; CreateVehicleRequest.Engine := "";
     CreateVehicleRequest.Notes := ""; CreateVehicleRequest.Metadata := None |}.



(** The vehicle passes [Validate] and [ValidateVIN]. *)
Definition vehicleValid (v : Vehicle.t Z) : Prop :=
  Vehicle.Validate v = None /\ Vehicle.ValidateVIN v = None.

(** * Properties *)

(** ** Runes and bytes *)

Section RuneFacts.
Import GoString.

Lemma lor_ge_l a b : 0 <= b -> a <= Z.lor a b.
Proof.
  intros Hb.
  pose proof (Z.sub_lor_l_same_l b a) as H.
  assert (0 <= Z.land b (Z.lnot a)) by (apply Z.land_nonneg; lia).
  lia.
Qed.

Lemma lor_ge_r a b : 0 <= a -> b <= Z.lor a b.
Proof. intros. rewrite Z.lor_comm. by apply lor_ge_l. Qed.

Lemma land_low_nonneg b n : 0 <= n -> 0 <= Z.land b n.
Proof. intros. apply Z.land_nonneg. lia. Qed.

Lemma between_spec lo hi b : between lo hi b = true <-> lo <= b <= hi.
Proof. unfold between. rewrite andb_true_iff, !Z.leb_le. tauto. Qed.

Lemma lead_spec b0 n lo hi :
  lead b0 = Some (n, lo, hi) ->
  0xC2 <= b0 <= 0xF4 /\ 0x80 <= lo /\ hi <= 0xBF /\
  ((n = 2%nat /\ b0 <= 0xDF) \/
   (n = 3%nat /\ 0xE0 <= b0 <= 0xEF /\ (b0 = 0xE0 -> 0xA0 <= lo)) \/
   (n = 4%nat /\ 0xF0 <= b0 /\ (b0 = 0xF0 -> 0x90 <= lo))).
Proof.
  unfold lead.
  repeat (case_match; [intros [= <- <- <-]; lia |]); try discriminate.
  all: repeat match goal with
         | H : (_ <? _) = _ |- _ => first [apply Z.ltb_lt in H | apply Z.ltb_ge in H]
         | H : (_ =? _) = _ |- _ => first [apply Z.eqb_eq in H | apply Z.eqb_neq in H]
         end.
  all: try (intros [= <- <- <-]; lia).
  all: try discriminate.
Qed.

Lemma land_mask b k : 0 <= k -> Z.land b (Z.ones k) = b mod 2 ^ k.
Proof. intros. by apply Z.land_ones. Qed.

(** A rune decoded from a lead byte outside ASCII is outside ASCII, and
    the bytes it consumes after the lead byte are outside ASCII. *)
Lemma decodeRune_spec b0 rest r w :
  decodeRune b0 rest = (r, w) ->
  (b0 < 0x80 /\ r = b0 /\ w = 1%nat) \/
  (0x80 <= b0 /\ 0x80 <= r /\ Forall (fun b => 0x80 <= b) (take (Nat.pred w) rest)).
Proof.
  unfold decodeRune.
  destruct (b0 <? 0x80) eqn:Hb0.
  { apply Z.ltb_lt in Hb0. intros [= <- <-]. by left. }
  apply Z.ltb_ge in Hb0. intros Hdec. right. split; [done|].
  assert (Herr : (r, w) = (RuneError, 1%nat) ->
                 0x80 <= r /\ Forall (fun b => 0x80 <= b) (take (Nat.pred w) rest)).
  { intros [= -> ->]. split; [unfold RuneError; lia | constructor]. }
  destruct (lead b0) as [[[n lo] hi]|] eqn:Hlead; [| destruct rest; auto].
  apply lead_spec in Hlead as (Hrange & Hlo & Hhi & Hn).
  destruct n as [|[|[|[|[|n]]]]]; try (destruct rest; by auto).
  - (* two bytes *)
    destruct rest as [|b1 rest]; [by auto|].
    destruct (between lo hi b1) eqn:H1; [| by auto].
    apply between_spec in H1. injection Hdec as <- <-. split.
    + etrans; [| apply lor_ge_l, land_low_nonneg; lia].
      rewrite Z.shiftl_mul_pow2 by lia.
      change 0x1F with (Z.ones 5). rewrite land_mask by lia.
      destruct Hn as [[_ ?]|[[? _]|[? _]]]; try discriminate.
      change (2 ^ 5) with 32. change (2 ^ 6) with 64.
      Z.div_mod_to_equations. lia.
    + cbn. repeat constructor. lia.
  - (* three bytes *)
    destruct rest as [|b1 [|b2 rest]]; try by auto.
    destruct (between lo hi b1 && between 0x80 0xBF b2) eqn:H12; [| by auto].
    apply andb_true_iff in H12 as [H1 H2].
    apply between_spec in H1. apply between_spec in H2.
    injection Hdec as <- <-. split.
    + etrans; [| apply lor_ge_l, land_low_nonneg; lia].
      destruct Hn as [[? _]|[[_ [? HE0]]|[? _]]]; try discriminate.
      rewrite !Z.shiftl_mul_pow2 by lia.
      change 0x0F with (Z.ones 4). change 0x3F with (Z.ones 6).
      rewrite !land_mask by lia.
      change (2 ^ 4) with 16. change (2 ^ 6) with 64. change (2 ^ 12) with 4096.
      destruct (decide (b0 = 0xE0)) as [->|Hne].
      * etrans; [| apply lor_ge_r; Z.div_mod_to_equations; lia].
        specialize (HE0 eq_refl). Z.div_mod_to_equations. lia.
      * etrans; [| apply lor_ge_l; Z.div_mod_to_equations; lia].
        Z.div_mod_to_equations. lia.
    + cbn. repeat constructor; lia.
  - (* four bytes *)
    destruct rest as [|b1 [|b2 [|b3 rest]]]; try by auto.
    destruct (between lo hi b1 && between 0x80 0xBF b2 && between 0x80 0xBF b3) eqn:H123;
      [| by auto].
    apply andb_true_iff in H123 as [H12 H3]. apply andb_true_iff in H12 as [H1 H2].
    apply between_spec in H1. apply between_spec in H2. apply between_spec in H3.
    injection Hdec as <- <-. split.
    + etrans; [| apply lor_ge_l, land_low_nonneg; lia].
      etrans; [| apply lor_ge_l; rewrite Z.shiftl_mul_pow2 by lia;
                 pose proof (land_low_nonneg b2 0x3F); lia].
      destruct Hn as [[? _]|[[? _]|[_ [? HF0]]]]; try discriminate.
      rewrite !Z.shiftl_mul_pow2 by lia.
      change 0x07 with (Z.ones 3). change 0x3F with (Z.ones 6).
      rewrite !land_mask by lia.
      change (2 ^ 3) with 8. change (2 ^ 6) with 64.
      change (2 ^ 12) with 4096. change (2 ^ 18) with 262144.
      destruct (decide (b0 = 0xF0)) as [->|Hne].
      * etrans; [| apply lor_ge_r; Z.div_mod_to_equations; lia].
        specialize (HF0 eq_refl). Z.div_mod_to_equations. lia.
      * etrans; [| apply lor_ge_l; Z.div_mod_to_equations; lia].
        Z.div_mod_to_equations. lia.
    + cbn. repeat constructor; lia.
Qed.

(** An ASCII value occurs among the runes of a byte sequence exactly
    when it occurs among its bytes. *)
Lemma runesFrom_ascii c :
  c < 0x80 ->
  forall l skip,
    Forall (fun b => 0x80 <= b) (take skip l) ->
    c ∈ runesFrom skip l <-> c ∈ drop skip l.
Proof.
  intros Hc. induction l as [|b0 rest IH]; intros skip Hskip.
  - by destruct skip.
  - destruct skip as [|k]; cbn [runesFrom drop].
    + destruct (decodeRune b0 rest) as [r w] eqn:Hdec.
      apply decodeRune_spec in Hdec as [(Hb & -> & ->)|(Hb & Hr & Hcont)].
      * cbn. rewrite !elem_of_cons, (IH 0%nat) by constructor. done.
      * rewrite !elem_of_cons, (IH (Nat.pred w)) by done.
        rewrite Forall_forall in Hcont.
        assert (c ∈ rest <-> c ∈ drop (Nat.pred w) rest) as ->.
        { rewrite <- (take_drop (Nat.pred w) rest) at 1.
          rewrite elem_of_app. split; [|tauto].
          intros [Hin|?]; [|done]. apply Hcont in Hin. lia. }
        split; (intros [->|?]; [lia|by right]).
    + cbn in Hskip. apply Forall_cons in Hskip as [_ Hskip]. by apply IH.
Qed.

Lemma runes_ascii c s : c < 0x80 -> c ∈ runes s <-> c ∈ bytes s.
Proof.
  intros Hc. unfold runes.
  by rewrite (runesFrom_ascii c Hc (bytes s) 0%nat) by constructor.
Qed.

Lemma byte_of_inj : Inj (=) (=) byte_of.
Proof.
  intros a b H. unfold byte_of in H.
  apply N2Z.inj in H.
  rewrite <- (ascii_N_embedding a), <- (ascii_N_embedding b). by rewrite H.
Qed.

Lemma byte_occurs a s : byte_of a ∈ bytes s <-> occurs a s.
Proof.
  unfold bytes, occurs.
  apply (list_elem_of_fmap_inj byte_of (Inj0 := byte_of_inj)).
Qed.

Lemma existsb_elem (f : Z -> bool) l :
  existsb f l = true <-> exists x, x ∈ l /\ f x = true.
Proof.
  rewrite existsb_exists. setoid_rewrite list_elem_of_In. done.
Qed.

Lemma isEmpty_spec s : isEmpty s = true <-> s = "".
Proof. by destruct s. Qed.

Lemma len_spec s n : (len s =? Z.of_nat n) = true <-> String.length s = n.
Proof. unfold len. rewrite Z.eqb_eq. lia. Qed.

End RuneFacts.

(** ** Vehicle identification numbers *)

Lemma hasProhibited_spec vin : Vehicle.hasProhibited vin = true <-> hasIOQ vin.
Proof.
  unfold Vehicle.hasProhibited, hasIOQ.
  change (GoString.runes Vehicle.prohibitedChars) with [73; 79; 81].
  rewrite existsb_elem. split.
  - intros (c & Hin & Hex). apply existsb_elem in Hex as (p & Hp & Heq).
    apply Z.eqb_eq in Heq. subst p.
    rewrite !elem_of_cons in Hp. destruct Hp as [->|[->|[->|Hp]]].
    + left. apply byte_occurs, runes_ascii; [reflexivity | done].
    + right; left. apply byte_occurs, runes_ascii; [reflexivity | done].
    + right; right. apply byte_occurs, runes_ascii; [reflexivity | done].
    + by apply elem_of_nil in Hp.
  - intros H.
    assert (exists a, (a = "I" \/ a = "O" \/ a = "Q")%char /\ occurs a vin) as (a & Ha & Hocc)
      by (destruct H as [?|[?|?]]; eauto 6).
    exists (GoString.byte_of a). split.
    + apply runes_ascii; [| by apply byte_occurs].
      destruct Ha as [-> | [-> | ->]]; reflexivity.
    + destruct Ha as [-> | [-> | ->]]; reflexivity.
Qed.

Lemma ValidateVIN_None_iff {K} (v : Vehicle.t K) :
  Vehicle.ValidateVIN v = None <-> vinAcceptable (Vehicle.VIN v).
Proof.
  unfold Vehicle.ValidateVIN, vinAcceptable.
  destruct (Vehicle.VIN v) as [vin|]; [|done].
  destruct (GoString.isEmpty vin) eqn:He.
  { apply isEmpty_spec in He. tauto. }
  assert (vin <> "") by (intros ->; discriminate).
  destruct (GoString.len vin =? 17) eqn:Hl; cbn [negb].
  - apply (len_spec vin 17) in Hl.
    destruct (Vehicle.hasProhibited vin) eqn:Hp.
    + apply hasProhibited_spec in Hp. split; [discriminate | tauto].
    + split; [|done]. intros _. right. split; [done|].
      intros Hq. apply hasProhibited_spec in Hq. congruence.
  - split; [discriminate|]. intros [?|[Hlen _]]; [done|].
    apply (len_spec vin 17) in Hlen. change (Z.of_nat 17) with 17 in Hlen. congruence.
Qed.

Lemma Validate_None_iff (v : Vehicle.t Z) :
  Vehicle.Validate v = None <->
  vehicleBasicsValid v /\
  match Vehicle.VIN v with
  | Some vin => vin = "" \/ String.length vin = 17%nat
  | None => True
  end.
Proof.
  unfold Vehicle.Validate, vehicleBasicsValid.
  destruct (Vehicle.CustomerID v <=? 0) eqn:H1;
    [apply Z.leb_le in H1; split; [discriminate | lia] | apply Z.leb_gt in H1].
  destruct (GoString.isEmpty (Vehicle.Make v)) eqn:H2;
    [apply isEmpty_spec in H2; split; [discriminate | tauto] |].
  destruct (GoString.isEmpty (Vehicle.Model v)) eqn:H3;
    [apply isEmpty_spec in H3; split; [discriminate | tauto] |].
  assert (Vehicle.Make v <> "") by (intros E; rewrite E in H2; discriminate).
  assert (Vehicle.Model v <> "") by (intros E; rewrite E in H3; discriminate).
  destruct ((Vehicle.Year v <? 1900) || (Vehicle.Year v >? 2100)) eqn:H4.
  { apply orb_true_iff in H4. split; [discriminate|]. lia. }
  apply orb_false_iff in H4.
  destruct (Vehicle.VIN v) as [vin|]; [| intuition lia].
  unfold GoString.len.
  destruct (String.length vin) as [|n] eqn:Hlen.
  { destruct vin; [| discriminate]. cbn. intuition lia. }
  assert (vin <> "") by (intros ->; discriminate).
  destruct (Z.of_nat (S n) =? 17) eqn:H17.
  - apply Z.eqb_eq in H17. assert ((Z.of_nat (S n) >? 0) = true) as -> by (apply Z.gtb_lt; lia).
    cbn. intuition lia.
  - apply Z.eqb_neq in H17. assert ((Z.of_nat (S n) >? 0) = true) as -> by (apply Z.gtb_lt; lia).
    cbn. split; [discriminate|]. intros (_ & [?|?]); [done | lia].
Qed.

(** C7.  VIN validation: an absent or empty VIN is accepted; a VIN
    whose length is not 17 is rejected; a VIN of length 17 that holds
    I, O or Q is rejected; every other VIN of length 17 is accepted.
    On the create/update path of the service ([Validate], then
    [ValidateVIN]) a vehicle passes exactly when its other fields are
    valid and its VIN is one of the accepted ones. *)
Theorem VIN_validation :
  (forall K (v : Vehicle.t K),
      Vehicle.VIN v = None \/ Vehicle.VIN v = Some "" -> Vehicle.ValidateVIN v = None) /\
  (forall K (v : Vehicle.t K) vin,
      Vehicle.VIN v = Some vin -> vin <> "" -> String.length vin <> 17%nat ->
      Vehicle.ValidateVIN v
      = Some (ErrValidation "vin" "VIN debe tener exactamente 17 caracteres")) /\
  (forall K (v : Vehicle.t K) vin,
      Vehicle.VIN v = Some vin -> String.length vin = 17%nat -> hasIOQ vin ->
      Vehicle.ValidateVIN v
      = Some (ErrValidation "vin" "VIN no puede contener las letras I, O o Q")) /\
  (forall K (v : Vehicle.t K) vin,
      Vehicle.VIN v = Some vin -> String.length vin = 17%nat -> ~ hasIOQ vin ->
      Vehicle.ValidateVIN v = None) /\
  (forall (v : Vehicle.t Z) w,
      VehicleService.validate v w = (Postgres.Ok tt, w)
      <-> vehicleBasicsValid v /\ vinAcceptable (Vehicle.VIN v)).
Proof.
  split; [| split; [| split; [| split]]].
  - intros K v H. apply ValidateVIN_None_iff. by destruct H as [-> | ->]; [| left].
  - intros K v vin Hv Hne Hlen. unfold Vehicle.ValidateVIN. rewrite Hv.
    destruct (GoString.isEmpty vin) eqn:He; [by apply isEmpty_spec in He|].
    destruct (GoString.len vin =? 17) eqn:Hl; [|done].
    by apply (len_spec vin 17) in Hl.
  - intros K v vin Hv Hlen Hq. unfold Vehicle.ValidateVIN. rewrite Hv.
    destruct (GoString.isEmpty vin) eqn:He.
    { apply isEmpty_spec in He. by subst. }
    apply (len_spec vin 17) in Hlen. change (Z.of_nat 17) with 17 in Hlen.
    rewrite Hlen. cbn [negb].
    apply hasProhibited_spec in Hq. by rewrite Hq.
  - intros K v vin Hv Hlen Hq. apply ValidateVIN_None_iff. rewrite Hv. by right.
  - intros v w. unfold VehicleService.validate.
    pose proof (Validate_None_iff v) as HV. pose proof (ValidateVIN_None_iff v) as HN.
    destruct (Vehicle.Validate v) as [e|].
    { split; [discriminate|]. intros [Hb Hacc].
      assert (Some e = None) as [=]. apply HV. split; [done|].
      unfold vinAcceptable in Hacc. destruct (Vehicle.VIN v); [|done]. tauto. }
    destruct (Vehicle.ValidateVIN v) as [e|].
    { split; [discriminate|]. intros [_ Hacc]. by apply HN in Hacc. }
    split; [|done]. intros _. split; [by apply HV | by apply HN].
Qed.

(** ** Nullable round trip *)

(** C9.  The optional-field conversions are an exact round trip:
    wrapping an absent value and unwrapping it gives the absent value,
    wrapping a present value and unwrapping it gives the same present
    value; for the string, time and int64 helper pairs.  The same holds
    through a nullable column, as the repositories write and read it. *)
Theorem nullable_round_trip :
  (forall s : option string, Nullable.StringFromNull (Nullable.NullString s) = s) /\
  (forall t : option Time, Nullable.TimeFromNull (Nullable.NullTime t) = t) /\
  (forall i : option Z, Nullable.Int64FromNull (Nullable.NullInt64 i) = i) /\
  (forall s : option string,
      Nullable.StringFromNull (sql.scanString (sql.valueString (Nullable.NullString s))) = s) /\
  (forall t : option Time,
      Nullable.TimeFromNull (sql.scanTime (sql.valueTime (Nullable.NullTime t))) = t).
Proof.
  repeat split; intros [x|]; reflexivity.
Qed.

Example absent_string_is_not_empty :
  Nullable.StringFromNull (Nullable.NullString None) = None
  /\ Nullable.StringFromNull (Nullable.NullString None) <> Some ""
  /\ Nullable.Int64FromNull (Nullable.NullInt64 None) <> Some 0.
Proof. repeat split; discriminate. Qed.

(** ** Partial update *)

Lemma overwrites_assign {A} (u : option A) (old : A) : overwrites u old (assign u old).
Proof. by destruct u. Qed.

Lemma overwritesPtr_assignPtr {A} (u old : option A) :
  overwritesPtr u old (assignPtr u old).
Proof. by destruct u. Qed.

#[local] Hint Resolve overwrites_assign overwritesPtr_assignPtr : core.

(** C6.  Applying a partial update to a customer or to a vehicle
    overwrites exactly the fields whose update value is present, leaves
    every other field as it was, and sets [updated_at] to the current
    time. *)
Theorem UpdateFromUpdate_partial :
  (forall K now (u : CustomerUpdate.t K) (c : Customer.t K),
      customerPartialUpdate now u c (Customer.UpdateFromUpdate now u c)) /\
  (forall K now (u : VehicleUpdate.t K) (v : Vehicle.t K),
      vehiclePartialUpdate now u v (Vehicle.UpdateFromUpdate now u v)).
Proof.
  split; intros K now u x.
  - unfold customerPartialUpdate, Customer.UpdateFromUpdate; cbn. repeat split; auto.
  - unfold vehiclePartialUpdate, Vehicle.UpdateFromUpdate; cbn. repeat split; auto.
Qed.

(** The example of the specification: updating only the e-mail address
    changes the e-mail address and the timestamp, nothing else. *)
Lemma update_email_only {K} now (email : string) (c : Customer.t K) :
  Customer.UpdateFromUpdate now (emailOnly (Customer.ID c) email) c
  = {| Customer.ID := Customer.ID c;
       Customer.TenantID := Customer.TenantID c;
       Customer.FirstName := Customer.FirstName c;
       Customer.LastName := Customer.LastName c;
       Customer.Email := Some email;
       Customer.Phone := Customer.Phone c;
       Customer.CustomerType := Customer.CustomerType c;
       Customer.CompanyName := Customer.CompanyName c;
       Customer.TaxID := Customer.TaxID c;
       Customer.Address := Customer.Address c;
       Customer.Birthday := Customer.Birthday c;
       Customer.Notes := Customer.Notes c;
       Customer.Preferences := Customer.Preferences c;
       Customer.IsActive := Customer.IsActive c;
       Customer.CreatedAt := Customer.CreatedAt c;
       Customer.UpdatedAt := now;
       Customer.Vehicles := Customer.Vehicles c;
       Customer.CustomerNotes := Customer.CustomerNotes c;
       Customer.Stats := Customer.Stats c |}.
Proof. reflexivity. Qed.

(** ** Decoding of update requests *)

Lemma ptrIfNonEmpty_spec s : Handler.ptrIfNonEmpty s = absentIfEmpty s.
Proof. by destruct s. Qed.

Lemma absentIfEmpty_cases s :
  (s = "" /\ absentIfEmpty s = None) \/ (s <> "" /\ absentIfEmpty s = Some s).
Proof. destruct s; [by left | by right]. Qed.

(** C10.  The decoder of [UpdateCustomer] turns every empty string
    field of the request into an absent update field, so that no string
    field of the update is ever the empty string and applying the
    update leaves those fields of the customer as they were; it copies
    the request's [is_active] into the update unconditionally, so that
    the customer's [is_active] becomes the request's, and a request
    that leaves [is_active] at its default [false] deactivates the
    customer it is applied to. *)
Theorem UpdateCustomer_decode_is_active
  (req : Handler.UpdateCustomerRequest) (u : CustomerUpdate.t string) :
  Handler.UpdateCustomer_decode req = inr u ->
  updateStrings u = absentIfEmpty <$> requestStrings req
  /\ (Some "" ∉ updateStrings u)
  /\ CustomerUpdate.IsActive u = Some (Handler.IsActive req)
  /\ (forall now c,
        Customer.IsActive (Customer.UpdateFromUpdate now u c) = Handler.IsActive req)
  /\ (Handler.IsActive req = false ->
      forall now c, Customer.IsActive (Customer.UpdateFromUpdate now u c) = false)
  /\ (forall now c i,
        requestStrings req !! i = Some "" ->
        customerStrings (Customer.UpdateFromUpdate now u c) !! i = customerStrings c !! i).
Proof.
  unfold Handler.UpdateCustomer_decode.
  destruct (GoString.isEmpty (Handler.Id req)); [discriminate|].
  intros [= <-].
  assert (Hstr : updateStrings
                   {| CustomerUpdate.ID := Handler.Id req;
                      CustomerUpdate.FirstName := Handler.ptrIfNonEmpty (Handler.FirstName req);
                      CustomerUpdate.LastName := Handler.ptrIfNonEmpty (Handler.LastName req);
                      CustomerUpdate.Email := Handler.ptrIfNonEmpty (Handler.Email req);
                      CustomerUpdate.Phone := Handler.ptrIfNonEmpty (Handler.Phone req);
                      CustomerUpdate.CustomerType := Handler.ptrIfNonEmpty (Handler.CustomerType req);
                      CustomerUpdate.CompanyName := Handler.ptrIfNonEmpty (Handler.CompanyName req);
                      CustomerUpdate.TaxID := Handler.ptrIfNonEmpty (Handler.TaxId req);
                      CustomerUpdate.Address := Handler.ptrIfNonEmpty (Handler.Address req);
                      CustomerUpdate.Birthday := Handler.Birthday req;
                      CustomerUpdate.Notes := Handler.ptrIfNonEmpty (Handler.Notes req);
                      CustomerUpdate.Preferences := Handler.Preferences req;
                      CustomerUpdate.IsActive := Some (Handler.IsActive req) |}
                 = absentIfEmpty <$> requestStrings req).
  { unfold updateStrings, requestStrings. cbn. by rewrite !ptrIfNonEmpty_spec. }
  split; [exact Hstr|]. split; [| split; [done | split; [done | split]]].
  - rewrite Hstr. intros (s & Hs & _)%list_elem_of_fmap.
    destruct (absentIfEmpty_cases s) as [[_ E]|[Hne E]]; rewrite E in Hs; congruence.
  - intros ->. done.
  - intros now c i Hi.
    unfold requestStrings in Hi.
    do 9 (destruct i as [|i]; [cbn in Hi |- *; injection Hi as Hi; by rewrite Hi |]).
    done.
Qed.

Lemma UpdateCustomer_decode_is_active_witness :
  Handler.UpdateCustomer_decode (bareRequest "42") = inr (
    {| CustomerUpdate.ID := "42";
       CustomerUpdate.FirstName := None; CustomerUpdate.LastName := None;
       CustomerUpdate.Email := None; CustomerUpdate.Phone := None;
       CustomerUpdate.CustomerType := None; CustomerUpdate.CompanyName := None;
       CustomerUpdate.TaxID := None; CustomerUpdate.Address := None;
       CustomerUpdate.Birthday := None; CustomerUpdate.Notes := None;
       CustomerUpdate.Preferences := None; CustomerUpdate.IsActive := Some false |})
  /\ Customer.IsActive (sampleCustomer "42" "tenant-a") = true
  /\ forall now,
      Customer.IsActive
        (Customer.UpdateFromUpdate now
           {| CustomerUpdate.ID := "42";
              CustomerUpdate.FirstName := None; CustomerUpdate.LastName := None;
              CustomerUpdate.Email := None; CustomerUpdate.Phone := None;
              CustomerUpdate.CustomerType := None; CustomerUpdate.CompanyName := None;
              CustomerUpdate.TaxID := None; CustomerUpdate.Address := None;
              CustomerUpdate.Birthday := None; CustomerUpdate.Notes := None;
              CustomerUpdate.Preferences := None; CustomerUpdate.IsActive := Some false |}
           (sampleCustomer "42" "tenant-a")) = false.
Proof.
  split; [reflexivity | split; [reflexivity |]].
  intros now.
  exact (proj1 (proj2 (proj2 (proj2 (proj2
           (UpdateCustomer_decode_is_active (bareRequest "42") _ eq_refl)))))
           eq_refl now (sampleCustomer "42" "tenant-a")).
Defined.

(** ** The session-scoped store *)

Section StoreFacts.
Import Db Postgres.
Local Open Scope db_scope.

Lemma acquire_eq w : acquire w = (Ok (slot w, nextPick w), acquired w).
Proof.
  unfold slot, acquired, acquire, nextPick.
  destruct (conns (tick w) !! _) as [[s [h|]]|]; reflexivity.
Qed.

Lemma acquired_log w : log (acquired w) = log w.
Proof.
  unfold acquired, acquire. destruct (conns (tick w) !! _) as [[s [h|]]|]; reflexivity.
Qed.

Lemma acquired_tables w : tables (acquired w) = tables w.
Proof.
  unfold acquired, acquire. destruct (conns (tick w) !! _) as [[s [h|]]|]; reflexivity.
Qed.

Lemma acquired_clock w : clock (acquired w) = S (clock w).
Proof.
  unfold acquired, acquire. destruct (conns (tick w) !! _) as [[s [h|]]|]; reflexivity.
Qed.

Lemma acquired_sched w : sched (acquired w) = sched w.
Proof.
  unfold acquired, acquire. destruct (conns (tick w) !! _) as [[s [h|]]|]; reflexivity.
Qed.

Lemma acquired_engine w : engine (acquired w) = engine w.
Proof.
  unfold acquired, acquire. destruct (conns (tick w) !! _) as [[s [h|]]|]; reflexivity.
Qed.

Lemma ExecContext_eq s w :
  ExecContext s w = send (slot w) (nextPick w) s (acquired w).
Proof. unfold ExecContext, bind. by rewrite acquire_eq. Qed.

(** A statement that fails leaves the tables and the sessions alone;
    it is in the trace all the same. *)
Lemma send_failed i p s w :
  pick_ok p = false ->
  send i p s w = (Fail ErrDriver, addLog (EvStmt i (sessionOf i w) s) w).
Proof. intros H. unfold send. by rewrite H. Qed.

Lemma send_log i p s w :
  log (snd (send i p s w)) = (log w ++ [EvStmt i (sessionOf i w) s])%list.
Proof.
  unfold send. destruct (pick_ok p); cbn; [|done].
  destruct s as [t|q]; cbn; [done|].
  by destruct (eval _ _ _ _ _) as [[e|r] tb].
Qed.

Lemma send_directive i p t w :
  pick_ok p = true ->
  send i p (SetTenant t) w
  = (Ok (reply RNone 0),
     setConns (alter (setSession (Some t)) i (conns w))
              (addLog (EvStmt i (sessionOf i w) (SetTenant t)) w)).
Proof. intros H. unfold send. by rewrite H. Qed.

Lemma SetTenantID_failed t w :
  pick_ok (nextPick w) = false ->
  SetTenantID t w = (Fail ErrDriver, addLog (directiveEvent t w) (acquired w)).
Proof.
  intros H. unfold SetTenantID, bind. rewrite ExecContext_eq.
  by rewrite send_failed.
Qed.

Lemma SetTenantID_ok t w :
  pick_ok (nextPick w) = true ->
  SetTenantID t w
  = (Ok tt, setConns (alter (setSession (Some t)) (slot w) (conns (acquired w)))
                     (addLog (directiveEvent t w) (acquired w))).
Proof.
  intros H. unfold SetTenantID, bind. rewrite ExecContext_eq.
  by rewrite send_directive.
Qed.

Lemma SetTenantID_log t w :
  log (snd (SetTenantID t w)) = (log w ++ [directiveEvent t w])%list.
Proof.
  destruct (pick_ok (nextPick w)) eqn:H.
  - rewrite SetTenantID_ok by done. cbn. by rewrite acquired_log.
  - rewrite SetTenantID_failed by done. cbn. by rewrite acquired_log.
Qed.

Lemma SetTenantID_tables t w : tables (snd (SetTenantID t w)) = tables w.
Proof.
  destruct (pick_ok (nextPick w)) eqn:H.
  - rewrite SetTenantID_ok by done. cbn. by rewrite acquired_tables.
  - rewrite SetTenantID_failed by done. cbn. by rewrite acquired_tables.
Qed.

Lemma ExecContext_log s w :
  log (snd (ExecContext s w))
  = (log w ++ [EvStmt (slot w) (sessionOf (slot w) (acquired w)) s])%list.
Proof. rewrite ExecContext_eq, send_log. by rewrite acquired_log. Qed.

Lemma QueryContext_log s w : log (snd (QueryContext s w)) = log (snd (ExecContext s w)).
Proof. unfold QueryContext, bind. by destruct (ExecContext s w) as [[r|e|] w']. Qed.

Lemma QueryRowContext_log s w :
  log (snd (QueryRowContext s w)) = log (snd (ExecContext s w)).
Proof.
  unfold QueryRowContext, bind, try. rewrite <- QueryContext_log.
  by destruct (QueryContext s w) as [[r|e|] w'].
Qed.

(** The traces of the three store calls. *)
Lemma ExecWithTenant_trace t q w :
  emits (ExecWithTenant t q) w
    (directiveEvent t w ::
     if pick_ok (nextPick w) then [statementEvent t q w] else []).
Proof.
  unfold emits, ExecWithTenant, bind, statementEvent.
  destruct (pick_ok (nextPick w)) eqn:H.
  - rewrite SetTenantID_ok by done. rewrite ExecContext_log. cbn.
    by rewrite acquired_log, <- app_assoc.
  - rewrite SetTenantID_failed by done. cbn. by rewrite acquired_log.
Qed.

Lemma QueryWithTenant_trace t q w :
  emits (QueryWithTenant t q) w
    (directiveEvent t w ::
     if pick_ok (nextPick w) then [statementEvent t q w] else []).
Proof.
  unfold emits, QueryWithTenant, bind, statementEvent.
  destruct (pick_ok (nextPick w)) eqn:H.
  - rewrite SetTenantID_ok by done. rewrite QueryContext_log, ExecContext_log. cbn.
    by rewrite acquired_log, <- app_assoc.
  - rewrite SetTenantID_failed by done. cbn. by rewrite acquired_log.
Qed.

Lemma QueryRowWithTenant_trace t q w :
  emits (QueryRowWithTenant t q) w [directiveEvent t w; statementEvent t q w].
Proof.
  unfold emits, QueryRowWithTenant, bind, try, statementEvent.
  destruct (SetTenantID t w) as [[[]|e|] w1] eqn:E.
  - rewrite QueryRowContext_log, ExecContext_log.
    change w1 with (snd (Ok tt, w1)). rewrite <- E, SetTenantID_log.
    by rewrite <- app_assoc.
  - rewrite QueryRowContext_log, ExecContext_log.
    change w1 with (snd (@Fail unit e, w1)). rewrite <- E, SetTenantID_log.
    by rewrite <- app_assoc.
  - exfalso. destruct (pick_ok (nextPick w)) eqn:H.
    + by rewrite SetTenantID_ok in E.
    + by rewrite SetTenantID_failed in E.
Qed.

Lemma slot_valid w : (slot w < length (conns (acquired w)))%nat.
Proof.
  unfold slot, acquired, acquire.
  destruct (conns (tick w) !! pick_conn (sched w (clock w))) as [[s [h|]]|] eqn:E; cbn.
  - rewrite length_app. cbn. lia.
  - by apply lookup_lt_Some in E.
  - rewrite length_app. cbn. lia.
Qed.

Lemma slot_cases w :
  (slot w = length (conns w) /\ acquired w = setConns (conns w ++ [fresh]) (tick w))
  \/ ((slot w < length (conns w))%nat /\ acquired w = tick w).
Proof.
  unfold slot, acquired, acquire.
  destruct (conns (tick w) !! pick_conn (sched w (clock w))) as [[s [h|]]|] eqn:E; cbn;
    [by left | right | by left].
  split; [|done]. by apply lookup_lt_Some in E.
Qed.

(** When the pool hands the statement the connection the directive ran
    on, the statement runs in the caller's tenant. *)
Lemma statement_scoped_on_same_connection t w :
  pick_ok (nextPick w) = true ->
  let w1 := snd (SetTenantID t w) in
  slot w1 = slot w ->
  sessionOf (slot w1) (acquired w1) = Some t.
Proof.
  intros Hok w1 Hsame. subst w1. rewrite SetTenantID_ok in * by done. cbn [snd] in *.
  set (w1 := setConns _ _) in *.
  pose proof (slot_valid w) as Hv.
  assert (Hlen : length (conns w1) = length (conns (acquired w))).
  { subst w1. cbn. by rewrite length_alter. }
  assert (Hat : sessionOf (slot w) w1 = Some t).
  { subst w1. unfold sessionOf. cbn.
    destruct (lookup_lt_is_Some_2 (conns (acquired w)) (slot w) Hv) as [c Hc].
    rewrite list_lookup_alter_eq, Hc. done. }
  clearbody w1.
  destruct (slot_cases w1) as [[Hs Ha]|[Hs Ha]]; [lia|].
  rewrite Ha, Hsame. exact Hat.
Qed.

(** The directive is sent on every call: the first event of each store
    call is the caller's directive. *)
Lemma directive_sent_on_every_call t q w :
  (exists rest, emits (ExecWithTenant t q) w (directiveEvent t w :: rest))
  /\ (exists rest, emits (QueryWithTenant t q) w (directiveEvent t w :: rest))
  /\ (exists rest, emits (QueryRowWithTenant t q) w (directiveEvent t w :: rest)).
Proof.
  repeat split; eexists.
  - apply ExecWithTenant_trace.
  - apply QueryWithTenant_trace.
  - apply QueryRowWithTenant_trace.
Qed.

(** C1, at a pool of two connections.  The directive of tenant A is
    sent on connection 0; the statement runs on connection 1, whose
    session is still scoped to tenant B, and returns tenant B's row to
    the call of tenant A.  The same happens through [QueryWithTenant]
    and through [QueryRowWithTenant] (here under
    [CustomerRepository.GetByID]). *)
Theorem directive_and_statement_on_different_connections :
  let q := QCustomerByID 7 in
  let ctx := Ctx.WithTenantID Ctx.Background "tenant-a" in
  let trace := [EvStmt 0 None (SetTenant "tenant-a");
                EvStmt 1 (Some "tenant-b") (Sql q)] in
  (fst (ExecWithTenant "tenant-a" q twoConnections)
     = Ok (reply (RCustomers [sampleCustomer 7 "tenant-b"]) 1)
   /\ log (snd (ExecWithTenant "tenant-a" q twoConnections)) = trace)
  /\ (fst (QueryWithTenant "tenant-a" q twoConnections)
        = Ok (RCustomers [sampleCustomer 7 "tenant-b"])
      /\ log (snd (QueryWithTenant "tenant-a" q twoConnections)) = trace)
  /\ (exists c, fst (CustomerRepository.GetByID ctx 7 twoConnections) = Ok c
                /\ Customer.TenantID c = "tenant-b"
                /\ log (snd (CustomerRepository.GetByID ctx 7 twoConnections)) = trace).
Proof.
  cbv zeta. split; [| split].
  - split; reflexivity.
  - split; reflexivity.
  - eexists. split; [reflexivity | split; reflexivity].
Qed.

(** *** Transactions *)

Lemma BeginTx_ok w :
  pick_ok (nextPick w) = true ->
  BeginTx w = (Ok {| tx_conn := slot w |}, begun w).
Proof.
  intros H. unfold BeginTx, bind. rewrite acquire_eq. cbn. by rewrite H.
Qed.

Lemma BeginTx_failed w :
  pick_ok (nextPick w) = false ->
  BeginTx w = (Fail ErrDriver, acquired w).
Proof.
  intros H. unfold BeginTx, bind. rewrite acquire_eq. cbn. by rewrite H.
Qed.

Lemma begun_held w :
  heldOf (slot w) (begun w) = Some (tables w, sessionOf (slot w) (acquired w)).
Proof.
  unfold heldOf, begun. cbn.
  destruct (lookup_lt_is_Some_2 _ _ (slot_valid w)) as [c Hc].
  rewrite list_lookup_alter_eq, Hc. cbn. by rewrite acquired_tables.
Qed.

Lemma begun_session w :
  sessionOf (slot w) (begun w) = sessionOf (slot w) (acquired w).
Proof.
  unfold sessionOf, begun. cbn.
  rewrite list_lookup_alter_eq. by destruct (conns (acquired w) !! slot w).
Qed.

Lemma begun_log w : log (begun w) = (log w ++ [EvBegin (slot w)])%list.
Proof. unfold begun. cbn. by rewrite acquired_log. Qed.

Lemma begun_tables w : tables (begun w) = tables w.
Proof. unfold begun. cbn. by rewrite acquired_tables. Qed.

(** Releasing a held connection with the saved state. *)
Lemma release_restore i saved w :
  is_Some (conns w !! i) ->
  tables (release true i saved w) = fst saved
  /\ heldOf i (release true i saved w) = None
  /\ sessionOf i (release true i saved w) = snd saved
  /\ log (release true i saved w) = log w.
Proof.
  intros [c Hc]. unfold release, heldOf, sessionOf. cbn.
  rewrite list_lookup_alter_eq, Hc. done.
Qed.

Lemma held_is_Some i w h : heldOf i w = Some h -> is_Some (conns w !! i).
Proof. unfold heldOf. destruct (conns w !! i); [eauto | discriminate]. Qed.

(** A transaction whose directive fails: rolled back at once; the
    function is not called. *)
Lemma BeginTxWithTenant_directive_failed t w :
  pick_ok (nextPick w) = true ->
  pick_ok (nextPick (begun w)) = false ->
  exists w',
    BeginTxWithTenant t w = (Fail (ErrWrap "failed to set tenant ID" ErrDriver), w')
    /\ log w' = (log w ++ abortedTrace t w)%list
    /\ tables w' = tables w
    /\ heldOf (slot w) w' = None
    /\ sessionOf (slot w) w' = sessionOf (slot w) (acquired w).
Proof.
  intros Hok Hbad. unfold BeginTxWithTenant, bind.
  rewrite BeginTx_ok by done.
  unfold try at 1, Tx_ExecContext. cbn [tx_conn]. rewrite begun_held.
  rewrite send_failed by exact Hbad.
  set (w2 := addLog _ (tick (begun w))).
  assert (Hheld : heldOf (slot w) w2 = Some (tables w, sessionOf (slot w) (acquired w)))
    by apply begun_held.
  unfold try, Tx_Rollback. cbn [tx_conn]. rewrite Hheld.
  set (w3 := addLog (EvRollback (slot w)) w2).
  assert (Hsome : is_Some (conns w3 !! slot w)) by exact (held_is_Some _ w2 _ Hheld).
  destruct (release_restore (slot w) (tables w, sessionOf (slot w) (acquired w)) w3 Hsome)
    as (Ht & Hh & Hs & Hl).
  eexists. split; [reflexivity|]. cbn [fail snd].
  split; [| by repeat split].
  rewrite Hl. subst w3 w2. cbn. rewrite acquired_log. unfold abortedTrace.
  rewrite <- !app_assoc. cbn.
  change (sessionOf (slot w) (tick (begun w))) with (sessionOf (slot w) (begun w)).
  by rewrite begun_session.
Qed.

(** C3, as the code has it.  When the directive fails, [ExecWithTenant]
    and [QueryWithTenant] return its error with nothing but the
    directive sent, and a transaction is rolled back at once, its
    function never called; [QueryRowWithTenant] drops the error of the
    directive and sends its statement all the same. *)
Theorem directive_failure (t : string) (q : Query) (w : World) :
  (pick_ok (nextPick w) = false ->
   ExecWithTenant t q w = (Fail ErrDriver, addLog (directiveEvent t w) (acquired w))
   /\ QueryWithTenant t q w = (Fail ErrDriver, addLog (directiveEvent t w) (acquired w))
   /\ emits (ExecWithTenant t q) w [directiveEvent t w]
   /\ emits (QueryWithTenant t q) w [directiveEvent t w]
   /\ tables (snd (ExecWithTenant t q w)) = tables w
   /\ tables (snd (QueryWithTenant t q w)) = tables w
   /\ emits (QueryRowWithTenant t q) w [directiveEvent t w; statementEvent t q w])
  /\
  (pick_ok (nextPick w) = true -> pick_ok (nextPick (begun w)) = false ->
   exists w',
     (forall fn, TransactionWithTenant t fn w
                 = (Fail (ErrWrap "failed to set tenant ID" ErrDriver), w'))
     /\ BeginTxWithTenant t w = (Fail (ErrWrap "failed to set tenant ID" ErrDriver), w')
     /\ log w' = (log w ++ abortedTrace t w)%list
     /\ tables w' = tables w
     /\ heldOf (slot w) w' = None).
Proof.
  split.
  - intros Hbad.
    assert (HE : ExecWithTenant t q w
                 = (Fail ErrDriver, addLog (directiveEvent t w) (acquired w))).
    { unfold ExecWithTenant, bind. by rewrite SetTenantID_failed. }
    assert (HQ : QueryWithTenant t q w
                 = (Fail ErrDriver, addLog (directiveEvent t w) (acquired w))).
    { unfold QueryWithTenant, bind. by rewrite SetTenantID_failed. }
    split; [done|]. split; [done|].
    pose proof (ExecWithTenant_trace t q w) as H1.
    pose proof (QueryWithTenant_trace t q w) as H2.
    rewrite Hbad in H1, H2.
    split; [done|]. split; [done|].
    rewrite HE, HQ. cbn. rewrite acquired_tables.
    split; [done|]. split; [done|].
    apply QueryRowWithTenant_trace.
  - intros Hok Hbad.
    destruct (BeginTxWithTenant_directive_failed t w Hok Hbad) as (w' & HB & Hl & Ht & Hh & _).
    exists w'. split; [| by repeat split].
    intros fn. unfold TransactionWithTenant, bind. by rewrite HB.
Qed.

Lemma directive_failure_witness :
  (ExecWithTenant "tenant-a" (QCustomerDelete 7) failingDirective
   = (Fail ErrDriver,
      addLog (directiveEvent "tenant-a" failingDirective) (acquired failingDirective)))
  /\ exists w',
      TransactionWithTenant "tenant-a" (runTx (TxExec (QCustomerDelete 7) (fun _ => TxReturn None)))
        failingDirectiveInTx
      = (Fail (ErrWrap "failed to set tenant ID" ErrDriver), w')
      /\ tables w' = tables failingDirectiveInTx.
Proof.
  split.
  - exact (proj1 (proj1 (directive_failure "tenant-a" (QCustomerDelete 7) failingDirective)
                    eq_refl)).
  - destruct (proj2 (directive_failure "tenant-a" (QCustomerDelete 7) failingDirectiveInTx)
                eq_refl eq_refl) as (w' & Hfn & _ & _ & Ht & _).
    exists w'. split; [apply Hfn | exact Ht].
Defined.

(** C3 as stated fails for the single-row query: on a connection still
    scoped to tenant B, the directive of tenant A fails and the
    statement of tenant A is sent nevertheless, and answered with
    tenant B's row. *)
Lemma QueryRowWithTenant_runs_after_failed_directive :
  pick_ok (nextPick failingDirective) = false
  /\ fst (QueryRowWithTenant "tenant-a" (QCustomerByID 7) failingDirective)
     = Ok (inr (RCustomers [sampleCustomer 7 "tenant-b"]))
  /\ log (snd (QueryRowWithTenant "tenant-a" (QCustomerByID 7) failingDirective))
     = [EvStmt 0 (Some "tenant-b") (SetTenant "tenant-a");
        EvStmt 0 (Some "tenant-b") (Sql (QCustomerByID 7))]
  /\ sentIn (QCustomerByID 7)
       (log (snd (QueryRowWithTenant "tenant-a" (QCustomerByID 7) failingDirective))).
Proof.
  split; [reflexivity|]. split; [reflexivity|]. split; [reflexivity|].
  exists 0%nat, (Some "tenant-b"). cbn. apply list_elem_of_In. right. by left.
Qed.

Lemma BeginTxWithTenant_ok t w :
  pick_ok (nextPick w) = true ->
  pick_ok (nextPick (begun w)) = true ->
  BeginTxWithTenant t w = (Ok {| tx_conn := slot w |}, directed t w)
  /\ log (directed t w) = (log w ++ openingTrace t w)%list
  /\ tables (directed t w) = tables w
  /\ heldOf (slot w) (directed t w) = Some (tables w, sessionOf (slot w) (acquired w))
  /\ sessionOf (slot w) (directed t w) = Some t.
Proof.
  intros Hok Hok2. unfold directed, BeginTxWithTenant, bind.
  rewrite BeginTx_ok by done.
  unfold try, Tx_ExecContext. cbn [tx_conn]. rewrite begun_held.
  rewrite send_directive by exact Hok2. cbn [snd].
  split; [done|]. cbn.
  destruct (lookup_lt_is_Some_2 _ _ (slot_valid w)) as [c Hc].
  split; [| split; [| split]].
  - rewrite acquired_log. unfold openingTrace. rewrite <- app_assoc. cbn.
    do 3 f_equal.
    change (sessionOf (slot w) (tick (begun w))) with (sessionOf (slot w) (begun w)).
    by rewrite begun_session.
  - by rewrite acquired_tables.
  - unfold heldOf. cbn. rewrite !list_lookup_alter_eq, Hc. cbn. by rewrite acquired_tables.
  - unfold sessionOf. cbn. rewrite !list_lookup_alter_eq, Hc. done.
Qed.

Lemma send_sql_held i j p q w : heldOf j (snd (send i p (Sql q) w)) = heldOf j w.
Proof.
  unfold send. destruct (pick_ok p); cbn; [|done].
  by destruct (eval _ _ _ _ _) as [[e|r] tb].
Qed.

(** What a function that works through the handle alone leaves: the
    connection still held with the same saved state, and only
    statements of its own in the trace. *)
Lemma runTx_invariant p tx w saved :
  heldOf (tx_conn tx) w = Some saved ->
  heldOf (tx_conn tx) (snd (runTx p tx w)) = Some saved
  /\ exists es, log (snd (runTx p tx w)) = (log w ++ es)%list
                /\ Forall (isTxStatement (tx_conn tx)) es.
Proof.
  revert w. induction p as [[e|]| |q k IH]; intros w Hheld; cbn [runTx].
  - split; [done|]. exists []. by rewrite app_nil_r.
  - split; [done|]. exists []. by rewrite app_nil_r.
  - split; [done|]. exists []. by rewrite app_nil_r.
  - unfold bind, try, Tx_ExecContext. rewrite Hheld.
    pose proof (send_sql_held (tx_conn tx) (tx_conn tx) (sched w (clock w)) q (tick w)) as Hh.
    pose proof (send_log (tx_conn tx) (sched w (clock w)) (Sql q) (tick w)) as Hl.
    destruct (send (tx_conn tx) (sched w (clock w)) (Sql q) (tick w)) as [[r|e|] w1];
      cbn [snd] in Hh, Hl.
    + destruct (IH (inr r) w1) as (H1 & es & H2 & H3); [by rewrite Hh|].
      split; [done|]. eexists (_ :: es). rewrite H2, Hl, <- app_assoc. split; [done|].
      constructor; [by eexists _, _ | done].
    + destruct (IH (inl e) w1) as (H1 & es & H2 & H3); [by rewrite Hh|].
      split; [done|]. eexists (_ :: es). rewrite H2, Hl, <- app_assoc. split; [done|].
      constructor; [by eexists _, _ | done].
    + cbn. rewrite Hh. split; [done|]. eexists [_]. split; [exact Hl|].
      constructor; [by eexists _, _ | done].
Qed.

Lemma Tx_Rollback_held tx w saved :
  heldOf (tx_conn tx) w = Some saved ->
  exists w', Tx_Rollback tx w = (Ok tt, w')
             /\ log w' = (log w ++ [EvRollback (tx_conn tx)])%list
             /\ tables w' = fst saved
             /\ heldOf (tx_conn tx) w' = None
             /\ sessionOf (tx_conn tx) w' = snd saved.
Proof.
  intros Hheld. unfold Tx_Rollback. rewrite Hheld.
  set (w1 := addLog _ w).
  assert (Hsome : is_Some (conns w1 !! tx_conn tx)) by exact (held_is_Some _ w _ Hheld).
  destruct (release_restore (tx_conn tx) saved w1 Hsome) as (Ht & Hh & Hs & Hl).
  eexists. split; [reflexivity|]. by rewrite Hl.
Qed.

Lemma Tx_Commit_held tx w saved :
  heldOf (tx_conn tx) w = Some saved ->
  exists w', log w' = (log w ++ [EvCommit (tx_conn tx)])%list
             /\ heldOf (tx_conn tx) w' = None
             /\ ((pick_ok (nextPick w) = true
                  /\ Tx_Commit tx w = (Ok tt, w') /\ tables w' = tables w)
                 \/ (pick_ok (nextPick w) = false
                     /\ Tx_Commit tx w = (Fail ErrDriver, w') /\ tables w' = fst saved)).
Proof.
  intros Hheld. unfold Tx_Commit. rewrite Hheld. fold (nextPick w).
  destruct (held_is_Some _ w _ Hheld) as [c Hc].
  destruct (pick_ok (nextPick w)) eqn:Hok.
  - eexists. split; [| split; [| left; split; [done | split; [reflexivity|]]]].
    + reflexivity.
    + unfold release, heldOf. cbn. by rewrite list_lookup_alter_eq, Hc.
    + reflexivity.
  - set (w1 := addLog _ (tick w)).
    assert (Hsome : is_Some (conns w1 !! tx_conn tx)) by eauto.
    destruct (release_restore (tx_conn tx) saved w1 Hsome) as (Ht & Hh & Hs & Hl).
    eexists. split; [| split; [| right; split; [done | split; [reflexivity|]]]].
    + by rewrite Hl.
    + done.
    + done.
Qed.

Lemma TransactionWithTenant_unfold t fn w tx w1 :
  BeginTxWithTenant t w = (Ok tx, w1) ->
  TransactionWithTenant t fn w
  = match fn tx w1 with
    | (Ok _, w2) => Tx_Commit tx w2
    | (Fail err, w2) =>
        match Tx_Rollback tx w2 with
        | (Panic, w3) => (Panic, w3)
        | (_, w3) => (Fail err, w3)
        end
    | (Panic, w2) => (Panic, w2)
    end.
Proof.
  intros HB. unfold TransactionWithTenant, bind at 1. rewrite HB.
  unfold bind, try.
  destruct (fn tx w1) as [[[]|err|] w2]; [done| |done].
  by destruct (Tx_Rollback tx w2) as [[[]|e|] w3].
Qed.

(** C4, as the code has it.  Once the transaction is open and the
    directive has succeeded, the trace holds the [BEGIN], the directive
    once, and then only statements of the function.  When the function
    returns [nil] the transaction is committed (and a commit the
    database refuses leaves the tables as they were); when it returns
    an error the transaction is rolled back, the error is returned and
    the tables are those of before the call; when it panics the panic
    passes through with neither rollback nor commit, the connection
    still held by the open transaction. *)
Theorem TransactionWithTenant_outcomes (t : string) (p : TxProg) (w : World) :
  pick_ok (nextPick w) = true ->
  pick_ok (nextPick (begun w)) = true ->
  let tx := {| tx_conn := slot w |} in
  let body := runTx p tx (directed t w) in
  let final := TransactionWithTenant t (runTx p) w in
  exists es,
    Forall (isTxStatement (slot w)) es
    /\ log (snd body) = (log w ++ openingTrace t w ++ es)%list
    /\ match fst body with
       | Ok _ =>
           log (snd final) = (log w ++ openingTrace t w ++ es ++ [EvCommit (slot w)])%list
           /\ heldOf (slot w) (snd final) = None
           /\ ((pick_ok (nextPick (snd body)) = true
                /\ fst final = Ok tt /\ tables (snd final) = tables (snd body))
               \/ (pick_ok (nextPick (snd body)) = false
                   /\ fst final = Fail ErrDriver /\ tables (snd final) = tables w))
       | Fail err =>
           fst final = Fail err
           /\ log (snd final) = (log w ++ openingTrace t w ++ es ++ [EvRollback (slot w)])%list
           /\ tables (snd final) = tables w
           /\ heldOf (slot w) (snd final) = None
       | Panic =>
           final = (Panic, snd body)
           /\ is_Some (heldOf (slot w) (snd final))
       end.
Proof.
  intros Hok Hok2. cbv zeta.
  destruct (BeginTxWithTenant_ok t w Hok Hok2) as (HB & Hl & Ht & Hh & Hs).
  destruct (runTx_invariant p {| tx_conn := slot w |} (directed t w) _ Hh)
    as (Hheld & es & Hlog & Hes).
  exists es. split; [exact Hes|]. split; [by rewrite Hlog, Hl, <- app_assoc|].
  rewrite (TransactionWithTenant_unfold t (runTx p) w _ _ HB).
  destruct (runTx p {| tx_conn := slot w |} (directed t w)) as [[[]|err|] w2];
    cbn [fst snd tx_conn] in *.
  - destruct (Tx_Commit_held {| tx_conn := slot w |} w2 _ Hheld) as (w' & Hl' & Hh' & Hc).
    destruct Hc as [(Hp & -> & Ht')|(Hp & -> & Ht')]; cbn [fst snd].
    + split; [by rewrite Hl', Hlog, Hl, <- !app_assoc|]. split; [done|]. left. done.
    + split; [by rewrite Hl', Hlog, Hl, <- !app_assoc|]. split; [done|]. right. done.
  - destruct (Tx_Rollback_held {| tx_conn := slot w |} w2 _ Hheld)
      as (w' & HR & Hl' & Ht' & Hh' & _).
    rewrite HR. cbn [fst snd fail].
    split; [done|]. split; [by rewrite Hl', Hlog, Hl, <- !app_assoc|]. done.
  - split; [done|]. rewrite Hheld. eauto.
Qed.

Lemma TransactionWithTenant_outcomes_witness :
  fst (TransactionWithTenant "tenant-a" (runTx (deleteThen (TxReturn (Some (ErrMsg "stop")))))
         oneConnection) = Fail (ErrMsg "stop")
  /\ tables (snd (TransactionWithTenant "tenant-a"
                    (runTx (deleteThen (TxReturn (Some (ErrMsg "stop"))))) oneConnection))
     = tables oneConnection.
Proof.
  destruct (TransactionWithTenant_outcomes "tenant-a"
              (deleteThen (TxReturn (Some (ErrMsg "stop")))) oneConnection eq_refl eq_refl)
    as (es & _ & _ & H).
  cbn in H. destruct H as (H1 & _ & H3 & _). split; [exact H1 | exact H3].
Defined.

(** C4 as stated fails when the function panics: the deletion it made
    is neither rolled back nor committed, no [ROLLBACK] is in the
    trace, and the connection stays held.  [CreateBatch] with a [nil]
    entry in its slice panics this way. *)
Lemma panic_leaves_transaction_open :
  let run := TransactionWithTenant "tenant-a" (runTx (deleteThen TxPanic)) oneConnection in
  let ctx := Ctx.WithTenantID Ctx.Background "tenant-a" in
  let batch := VehicleRepository.CreateBatch ctx [None] oneConnection in
  fst run = Panic
  /\ log (snd run) = [EvBegin 0; EvStmt 0 None (SetTenant "tenant-a");
                      EvStmt 0 (Some "tenant-a") (Sql (QCustomerDelete 7))]
  /\ (EvRollback 0 ∉ log (snd run))
  /\ customers (tables (snd run)) = []
  /\ is_Some (heldOf 0 (snd run))
  /\ fst batch = Panic
  /\ log (snd batch) = [EvBegin 0; EvStmt 0 None (SetTenant "tenant-a")]
  /\ is_Some (heldOf 0 (snd batch)).
Proof.
  cbv zeta. repeat split; try reflexivity; try (by eexists).
  intros H. apply list_elem_of_In in H. cbn in H. intuition discriminate.
Qed.

End StoreFacts.

(** ** Repositories and the missing tenant *)

Section MissingTenant.
Import Db Postgres Repo.
Local Open Scope db_scope.

Lemma tenantOf_missing ctx w :
  noTenant ctx -> tenantOf ctx w = (Fail ErrTenantMissing, w).
Proof.
  unfold noTenant, tenantOf, Ctx.GetTenantIDFromContext.
  destruct (Ctx.GetTenantID ctx) as [t ok]. cbn. by intros ->.
Qed.

Lemma tenantOf_present ctx w t :
  Ctx.GetTenantID ctx = (t, true) -> tenantOf ctx w = (Ok t, w).
Proof.
  unfold tenantOf, Ctx.GetTenantIDFromContext. by intros ->.
Qed.

Create HintDb repo discriminated.

#[local] Hint Unfold
  CustomerRepository.Create CustomerRepository.GetByID CustomerRepository.Update
  CustomerRepository.Delete CustomerRepository.List_ CustomerRepository.Search
  CustomerRepository.getBy CustomerRepository.GetByEmail CustomerRepository.GetByTaxID
  CustomerRepository.ListByType CustomerRepository.ListActive
  CustomerRepository.ListInactive CustomerRepository.Count
  CustomerRepository.CountByType CustomerRepository.CountActive
  CustomerRepository.existsBy CustomerRepository.ExistsByEmail
  CustomerRepository.ExistsByTaxID
  VehicleRepository.Create VehicleRepository.getBy VehicleRepository.GetByID
  VehicleRepository.Update VehicleRepository.Delete VehicleRepository.List_
  VehicleRepository.ListByCustomer VehicleRepository.ListActiveByCustomer
  VehicleRepository.GetByVIN VehicleRepository.GetByLicensePlate
  VehicleRepository.listBy VehicleRepository.SearchByMakeModel
  VehicleRepository.FindCompatibleVehicles VehicleRepository.ListByMakeModelYear
  VehicleRepository.Count VehicleRepository.CountByCustomer
  VehicleRepository.CountActive VehicleRepository.existsBy
  VehicleRepository.ExistsByVIN VehicleRepository.ExistsByLicensePlate
  VehicleRepository.CreateBatch
  CustomerNoteRepository.Create CustomerNoteRepository.GetByID
  CustomerNoteRepository.Delete CustomerNoteRepository.List_
  CustomerNoteRepository.ListByCustomer CustomerNoteRepository.ListByCustomerAndType
  CustomerNoteRepository.ListByStaff CustomerNoteRepository.ListByType
  CustomerNoteRepository.ListRecent CustomerNoteRepository.ListByDateRange
  CustomerNoteRepository.ListRecentByCustomer CustomerNoteRepository.Count
  CustomerNoteRepository.CountByCustomer CustomerNoteRepository.CountByType
  CustomerNoteRepository.CountByStaff CustomerNoteRepository.GetNoteTypesCount
  CustomerNoteRepository.GetMostActiveStaff : repo.

(** Every repository function begins with the tenant check, directly or
    through the function it delegates to. *)
Ltac stops_at_tenant_check H :=
  unfold outcome; autounfold with repo; unfold bind;
  rewrite ?(tenantOf_missing _ _ H); reflexivity.

(** C2, as the code has it.  Without a tenant in the context every
    repository operation returns the missing-tenant error and leaves
    the world as it was: nothing is sent to the database.  The one
    exception is [CreateBatch] on an empty slice, which returns [nil]
    before it reads the context; it sends nothing either. *)
Theorem no_tenant_no_statement (call : RepoCall) (ctx : Ctx.Context) (w : World) :
  noTenant ctx ->
  runCall call ctx w
  = (if isEmptyBatch call then Ok tt else Fail ErrTenantMissing, w).
Proof.
  intros H.
  destruct call; cbn [runCall isEmptyBatch]; try stops_at_tenant_check H.
  match goal with
  | |- context [VehicleRepository.CreateBatch _ ?vs] => destruct vs as [|v vs']
  end; [reflexivity|].
  unfold outcome, VehicleRepository.CreateBatch. cbn [length Nat.eqb].
  unfold bind. by rewrite (tenantOf_missing _ _ H).
Qed.

Lemma no_tenant_no_statement_witness :
  noTenant Ctx.Background
  /\ runCall (CustomerGetByID 7) Ctx.Background oneConnection
     = (Fail ErrTenantMissing, oneConnection).
Proof.
  split; [reflexivity|].
  apply (no_tenant_no_statement (CustomerGetByID 7) Ctx.Background oneConnection).
  reflexivity.
Defined.

(** C2, the exception: [CreateBatch] returns [nil] for an empty slice
    before it reads the tenant from the context, so a context without
    tenant gets no error there (and no statement is sent). *)
Lemma CreateBatch_empty_without_tenant :
  noTenant Ctx.Background
  /\ VehicleRepository.CreateBatch Ctx.Background [] oneConnection = (Ok tt, oneConnection).
Proof. split; reflexivity. Qed.

End MissingTenant.

(** ** Calls on a steady pool *)

Section Steady.
Import Db Postgres Repo.
Local Open Scope db_scope.

Lemma steady_acquire k w :
  steady k w -> slot w = k /\ acquired w = tick w /\ pick_ok (nextPick w) = true.
Proof.
  intros (Hs & Hk & Hh).
  destruct (Hs (clock w)) as [Hc Hok]; [done|].
  unfold slot, acquired, acquire, nextPick. rewrite Hc.
  change (conns (tick w)) with (conns w).
  unfold heldOf in Hh. destruct (lookup_lt_is_Some_2 _ _ Hk) as [c Hcn].
  rewrite Hcn in Hh |- *. cbn in Hh. destruct c as [s h]. cbn in Hh. subst h.
  cbn. by rewrite <- Hc.
Qed.

Lemma steady_SetTenantID k t w :
  steady k w ->
  exists w1, SetTenantID t w = (Ok tt, w1)
             /\ steady k w1 /\ sessionOf k w1 = Some t
             /\ tables w1 = tables w /\ engine w1 = engine w
             /\ clock w1 = S (clock w) /\ sched w1 = sched w
             /\ log w1 = (log w ++ [EvStmt k (sessionOf k w) (SetTenant t)])%list.
Proof.
  intros Hst. destruct (steady_acquire k w Hst) as (Hslot & Hacq & Hok).
  destruct Hst as (Hs & Hk & Hh).
  rewrite SetTenantID_ok by done. unfold directiveEvent. rewrite Hslot, Hacq.
  eexists. split; [reflexivity|].
  destruct (lookup_lt_is_Some_2 _ _ Hk) as [c Hc].
  split; [| split; [| by repeat split]].
  - split; [| split]; cbn.
    + intros n Hn. apply Hs. lia.
    + by rewrite length_alter.
    + unfold heldOf in *. cbn. rewrite list_lookup_alter_eq.
      rewrite Hc in Hh |- *. exact Hh.
  - unfold sessionOf. cbn. by rewrite list_lookup_alter_eq, Hc.
Qed.

Lemma steady_ExecContext k q w s :
  steady k w -> sessionOf k w = s ->
  let r := eval (engine w) s (pick_rows (nextPick w), pick_affected (nextPick w))
                q (tables w) in
  exists w1, ExecContext (Sql q) w = (toRes (fst r), w1)
             /\ steady k w1 /\ sessionOf k w1 = s
             /\ tables w1 = snd r /\ engine w1 = engine w
             /\ clock w1 = S (clock w) /\ sched w1 = sched w
             /\ log w1 = (log w ++ [EvStmt k s (Sql q)])%list.
Proof.
  intros Hst Hsess. destruct (steady_acquire k w Hst) as (Hslot & Hacq & Hok).
  destruct Hst as (Hs & Hk & Hh). cbv zeta.
  rewrite ExecContext_eq, Hslot, Hacq. unfold send. rewrite Hok. cbn [negb].
  change (sessionOf k (tick w)) with (sessionOf k w). rewrite Hsess.
  cbn [engine tables addLog tick].
  destruct (eval _ _ _ _ _) as [r tb]. cbn [fst snd].
  eexists. split; [by destruct r|].
  split; [| by repeat split].
  split; [| split]; cbn; [| done | done].
  intros n Hn. apply Hs. lia.
Qed.

Lemma steady_directive_then_statement k t q w :
  steady k w ->
  exists w1 w2, SetTenantID t w = (Ok tt, w1)
                /\ ExecContext (Sql q) w1 = (toRes (fst (evalIn t q w)), w2)
                /\ after k t q w w2.
Proof.
  intros Hst.
  destruct (steady_SetTenantID k t w Hst)
    as (w1 & H1 & Hst1 & Hs1 & Ht1 & He1 & Hc1 & Hd1 & Hl1).
  destruct (steady_ExecContext k q w1 _ Hst1 Hs1)
    as (w2 & H2 & Hst2 & Hs2 & Ht2 & He2 & Hc2 & Hd2 & Hl2).
  unfold nextPick in *. rewrite He1, Ht1, Hc1, Hd1 in *.
  exists w1, w2. split; [done|]. split; [done|].
  unfold after, evalIn. split; [exact Hst2|]. split; [done|].
  split; [congruence|]. split; [congruence|]. split; [congruence|].
  split; [done|]. by rewrite Hl2, Hl1, <- app_assoc.
Qed.

(** The three store calls on a steady pool: the statement is evaluated
    in the tenant of the call. *)
Lemma steady_ExecWithTenant k t q w :
  steady k w ->
  exists w1, ExecWithTenant t q w = (toRes (fst (evalIn t q w)), w1) /\ after k t q w w1.
Proof.
  intros Hst.
  destruct (steady_directive_then_statement k t q w Hst) as (w1 & w2 & H1 & H2 & Ha).
  exists w2. split; [|done].
  unfold ExecWithTenant, bind. by rewrite H1, H2.
Qed.

Lemma steady_QueryWithTenant k t q w :
  steady k w ->
  exists w1, QueryWithTenant t q w = (toRes (rowsOf (fst (evalIn t q w))), w1)
             /\ after k t q w w1.
Proof.
  intros Hst.
  destruct (steady_directive_then_statement k t q w Hst) as (w1 & w2 & H1 & H2 & Ha).
  exists w2. split; [|done].
  unfold QueryWithTenant, QueryContext, bind. rewrite H1, H2.
  by destruct (fst (evalIn t q w)).
Qed.

Lemma steady_QueryRowWithTenant k t q w :
  steady k w ->
  exists w1, QueryRowWithTenant t q w = (Ok (rowsOf (fst (evalIn t q w))), w1)
             /\ after k t q w w1.
Proof.
  intros Hst.
  destruct (steady_directive_then_statement k t q w Hst) as (w1 & w2 & H1 & H2 & Ha).
  exists w2. split; [|done].
  unfold QueryRowWithTenant, QueryRowContext, QueryContext, bind, try.
  rewrite H1, H2. by destruct (fst (evalIn t q w)).
Qed.

(** *** Repository operations on a steady pool *)

Lemma steady_GetByID k ctx t id w :
  steady k w -> hasTenant ctx t ->
  exists w1,
    CustomerRepository.GetByID ctx id w
    = (match customerRows t id (tables w) with
       | [] => Fail (ErrNotFound "customer" id)
       | row :: _ => Ok (CustomerRepository.scanCustomer row)
       end, w1)
    /\ after k t (QCustomerByID id) w w1.
Proof.
  intros Hst Ht.
  destruct (steady_QueryRowWithTenant k t (QCustomerByID id) w Hst) as (w1 & H1 & Ha).
  exists w1. split; [|done].
  unfold CustomerRepository.GetByID, bind, notFoundOr.
  rewrite (tenantOf_present _ _ _ Ht). unfold bind. rewrite H1.
  unfold evalIn, customerRows. cbn.
  by destruct (List.filter _ _).
Qed.

Lemma steady_Update k ctx t customer w :
  steady k w -> hasTenant ctx t ->
  exists w1,
    CustomerRepository.Update ctx customer w
    = (match customerRows t (Customer.ID customer) (tables w) with
       | [] => Fail (ErrNotFound "customer" (Customer.ID customer))
       | _ :: _ => Ok tt
       end, w1)
    /\ after k t (QCustomerUpdate (CustomerRepository.updateArgs customer)) w w1.
Proof.
  intros Hst Ht.
  destruct (steady_ExecWithTenant k t
              (QCustomerUpdate (CustomerRepository.updateArgs customer)) w Hst)
    as (w1 & H1 & Ha).
  exists w1. split; [|done].
  unfold CustomerRepository.Update, bind, wrap.
  rewrite (tenantOf_present _ _ _ Ht), H1.
  unfold evalIn, customerRows. cbn.
  by destruct (List.filter _ _).
Qed.

Lemma steady_Delete k ctx t id w :
  steady k w -> hasTenant ctx t ->
  exists w1,
    CustomerRepository.Delete ctx id w
    = (if referenced t id (tables w) && negb (fk_cascade (engine w))
       then Fail (ErrWrap "failed to delete customer" ErrDriver)
       else match customerRows t id (tables w) with
            | [] => Fail (ErrNotFound "customer" id)
            | _ :: _ => Ok tt
            end, w1)
    /\ after k t (QCustomerDelete id) w w1.
Proof.
  intros Hst Ht.
  destruct (steady_ExecWithTenant k t (QCustomerDelete id) w Hst) as (w1 & H1 & Ha).
  exists w1. split; [|done].
  unfold CustomerRepository.Delete, bind, wrap.
  rewrite (tenantOf_present _ _ _ Ht), H1.
  unfold evalIn, referenced, customerRows. cbn [eval fst].
  destruct (existsb _ _); [destruct (fk_cascade (engine w))|]; cbn;
    try done; by destruct (List.filter _ _).
Qed.

Lemma limitOf_pos l p : 0 < limitOf l p.
Proof. unfold limitOf, pagination. cbn. destruct (Z.leb_spec l 0); lia. Qed.

Lemma after_after_list k t q1 q2 w w1 w2 :
  snd (evalIn t q1 w) = tables w ->
  snd (evalIn t q2 w1) = tables w1 ->
  after k t q1 w w1 -> after k t q2 w1 w2 -> afterList k t q1 q2 w w2.
Proof.
  intros E1 E2 (Hst1 & Ht1 & He1 & Hc1 & Hd1 & Hs1 & Hl1)
               (Hst2 & Ht2 & He2 & Hc2 & Hd2 & Hs2 & Hl2).
  split; [done|]. split; [congruence|]. split; [congruence|]. split; [done|].
  rewrite Hl2, Hl1, Hs1, <- app_assoc. reflexivity.
Qed.

Lemma steady_customer_List k ctx t filter w :
  steady k w -> hasTenant ctx t ->
  let conds := CustomerRepository.whereConditions filter in
  let order := CustomerRepository.orderByClause filter in
  let limit := limitOf (CustomerFilter.Limit filter) (CustomerFilter.Page filter) in
  let offset := offsetOf (CustomerFilter.Limit filter) (CustomerFilter.Page filter) in
  exists w2,
    CustomerRepository.List_ ctx filter w
    = (if offset <? 0 then Fail (ErrWrap "failed to list customers" ErrDriver)
       else Ok (CustomerRepository.scanCustomer
                  <$> limitOffset limit offset
                        (customersOrdered (engine w) (Some t) conds order (tables w)),
                count (customersWhere (engine w) (Some t) conds (tables w))), w2)
    /\ afterList k t (QCustomerCount conds) (QCustomerSelect conds order limit offset) w w2.
Proof.
  intros Hst Ht conds order limit offset.
  destruct (steady_QueryRowWithTenant k t (QCustomerCount conds) w Hst)
    as (w1 & H1 & Ha1).
  assert (steady k w1) as Hst1 by apply Ha1.
  destruct (steady_QueryWithTenant k t (QCustomerSelect conds order limit offset) w1 Hst1)
    as (w2 & H2 & Ha2).
  exists w2. split.
  - pose proof (limitOf_pos (CustomerFilter.Limit filter) (CustomerFilter.Page filter)) as Hl.
    fold limit in Hl.
    unfold CustomerRepository.List_, bind, queryCount, wrap.
    rewrite (tenantOf_present _ _ _ Ht). unfold bind.
    change (CustomerRepository.whereConditions filter) with conds.
    change (CustomerRepository.orderByClause filter) with order.
    change (fst (pagination (CustomerFilter.Limit filter) (CustomerFilter.Page filter)))
      with limit.
    change (snd (pagination (CustomerFilter.Limit filter) (CustomerFilter.Page filter)))
      with offset.
    rewrite H1. cbn [evalIn eval fst rowsOf rows reply scanRow asCount ret].
    rewrite H2.
    destruct Ha1 as (_ & Ht1 & He1 & _).
    unfold evalIn. cbn [eval]. rewrite Ht1, He1. cbn [evalIn eval snd].
    destruct (Z.ltb_spec limit 0); [lia|]. cbn [orb].
    by destruct (offset <? 0).
  - eapply after_after_list; [| | exact Ha1 | exact Ha2]; [done|].
    unfold evalIn. cbn [eval]. by destruct (_ || _).
Qed.

Lemma steady_vehicle_List k ctx t filter w :
  steady k w -> hasTenant ctx t ->
  let conds := VehicleRepository.whereConditions filter in
  let limit := limitOf (VehicleFilter.Limit filter) (VehicleFilter.Page filter) in
  let offset := offsetOf (VehicleFilter.Limit filter) (VehicleFilter.Page filter) in
  exists w2,
    VehicleRepository.List_ ctx filter w
    = (if offset <? 0 then Fail (ErrWrap "failed to list vehicles" ErrDriver)
       else Ok (VehicleRepository.scanVehicle
                  <$> limitOffset limit offset
                        (vehiclesOrdered (engine w) (Some t) conds (tables w)),
                count (vehiclesWhere (engine w) (Some t) conds (tables w))), w2)
    /\ afterList k t (QVehicleCount conds) (QVehicleSelect conds limit offset) w w2.
Proof.
  intros Hst Ht conds limit offset.
  destruct (steady_QueryRowWithTenant k t (QVehicleCount conds) w Hst)
    as (w1 & H1 & Ha1).
  assert (steady k w1) as Hst1 by apply Ha1.
  destruct (steady_QueryWithTenant k t (QVehicleSelect conds limit offset) w1 Hst1)
    as (w2 & H2 & Ha2).
  exists w2. split.
  - pose proof (limitOf_pos (VehicleFilter.Limit filter) (VehicleFilter.Page filter)) as Hl.
    fold limit in Hl.
    unfold VehicleRepository.List_, bind, queryCount, wrap.
    rewrite (tenantOf_present _ _ _ Ht). unfold bind.
    change (VehicleRepository.whereConditions filter) with conds.
    change (fst (pagination (VehicleFilter.Limit filter) (VehicleFilter.Page filter)))
      with limit.
    change (snd (pagination (VehicleFilter.Limit filter) (VehicleFilter.Page filter)))
      with offset.
    rewrite H1. cbn [evalIn eval fst rowsOf rows reply scanRow asCount ret].
    rewrite H2.
    destruct Ha1 as (_ & Ht1 & He1 & _).
    unfold evalIn. cbn [eval]. rewrite Ht1, He1. cbn [evalIn eval snd].
    destruct (Z.ltb_spec limit 0); [lia|]. cbn [orb].
    by destruct (offset <? 0).
  - eapply after_after_list; [| | exact Ha1 | exact Ha2]; [done|].
    unfold evalIn. cbn [eval]. by destruct (_ || _).
Qed.

(** Sorting and paging keep a list empty or not. *)
Lemma orderBy_length {A} (leb : A -> A -> bool) (l : list A) :
  length (orderBy leb l) = length l.
Proof. unfold orderBy. by rewrite merge_sort_Permutation. Qed.

Lemma limitOffset_all {A} (limit : Z) (l : list A) :
  0 < limit -> (0 <? length (limitOffset limit 0 l))%nat = (0 <? length l)%nat.
Proof.
  intros H. unfold limitOffset. change (Z.to_nat 0) with 0%nat.
  rewrite drop_0, length_take.
  destruct (Nat.ltb_spec 0 (Z.to_nat limit `min` length l));
    destruct (Nat.ltb_spec 0 (length l)); (done || lia).
Qed.

Lemma steady_ListActiveByCustomer k ctx t id w :
  steady k w -> hasTenant ctx t -> 0 < id ->
  exists vehicles w2,
    VehicleRepository.ListActiveByCustomer ctx id w = (Ok vehicles, w2)
    /\ (0 <? length vehicles)%nat
       = (0 <? length (activeVehicles (engine w) t id (tables w)))%nat
    /\ afterList k t (QVehicleCount [VCustomer id; VActive])
                 (QVehicleSelect [VCustomer id; VActive] 100 0) w w2.
Proof.
  intros Hst Ht Hid.
  destruct (steady_vehicle_List k ctx t
              {| VehicleFilter.CustomerID := id; VehicleFilter.Search := "";
                 VehicleFilter.ActiveOnly := true; VehicleFilter.Page := 0;
                 VehicleFilter.Limit := 100 |} w Hst Ht) as (w2 & H & Ha).
  unfold VehicleRepository.whereConditions, limitOf, offsetOf, pagination in H, Ha.
  cbn in H, Ha.
  assert ((id >? 0) = true) as E by (apply Z.gtb_lt; lia). rewrite E in H, Ha.
  cbn in H, Ha.
  eexists _, w2. split; [| split; [| exact Ha]].
  - unfold VehicleRepository.ListActiveByCustomer, bind. rewrite H. reflexivity.
  - cbn [fst]. rewrite length_fmap, limitOffset_all by lia.
    unfold vehiclesOrdered, activeVehicles. by rewrite orderBy_length.
Qed.

(** *** What an update and a delete leave behind *)

Lemma filter_update {A} (p : A -> bool) (g : A -> A) (l : list A) :
  (forall x, p x = true -> p (g x) = true) ->
  List.filter p ((fun x => if p x then g x else x) <$> l) = g <$> List.filter p l.
Proof.
  intros Hg. induction l as [|x l IH]; [done|].
  cbn [fmap list_fmap List.filter]. destruct (p x) eqn:E.
  - rewrite (Hg x E). cbn. f_equal. exact IH.
  - rewrite E. exact IH.
Qed.

Lemma filter_removed {A} (p : A -> bool) (l : list A) :
  List.filter p (List.filter (fun x => negb (p x)) l) = [].
Proof.
  induction l as [|x l IH]; [done|].
  cbn [List.filter]. destruct (p x) eqn:E; cbn [negb List.filter]; [done|].
  by rewrite E.
Qed.

Lemma targets_applyArgs s id a c :
  targets s id c = true -> targets s id (applyArgs a c) = true.
Proof. by destruct s. Qed.

Lemma customerRows_head t id tb row rest :
  customerRows t id tb = row :: rest ->
  Customer.ID row = id /\ literalValue t = Some (Customer.TenantID row).
Proof.
  intros H. assert (In row (customerRows t id tb)) as Hin by (rewrite H; by left).
  apply filter_In in Hin as [_ Hin]. unfold targets, visible in Hin.
  apply andb_prop in Hin as [H1 H2].
  split; [by apply Z.eqb_eq|].
  destruct (literalValue t) as [current|]; [|done].
  by apply String.eqb_eq in H1 as ->.
Qed.

Lemma customerRows_updated eng other t a tb row rest :
  customerRows t (a_id a) tb = row :: rest ->
  customerRows t (a_id a) (snd (eval eng (Some t) other (QCustomerUpdate a) tb))
  = applyArgs a row :: (applyArgs a <$> rest).
Proof.
  intros H. unfold customerRows in *. cbn [eval snd withCustomers customers].
  rewrite filter_update by apply targets_applyArgs. by rewrite H.
Qed.

Lemma customerRows_deleted eng other t id tb :
  referenced t id tb = false ->
  customerRows t id (snd (eval eng (Some t) other (QCustomerDelete id) tb)) = [].
Proof.
  unfold referenced, customerRows. intros H. cbn [eval]. rewrite H.
  cbn [snd withCustomers customers]. apply filter_removed.
Qed.

Lemma vehicles_after_delete eng other t id tb :
  referenced t id tb = false ->
  vehicles (snd (eval eng (Some t) other (QCustomerDelete id) tb)) = vehicles tb.
Proof. unfold referenced, customerRows. intros H. cbn [eval]. by rewrite H. Qed.

Lemma delete_refused eng other t id tb :
  referenced t id tb = true -> fk_cascade eng = false ->
  eval eng (Some t) other (QCustomerDelete id) tb = (inl ErrDriver, tb).
Proof. unfold referenced, customerRows. intros H Hc. cbn [eval]. by rewrite H, Hc. Qed.

(** What [DeleteCustomer] has done when it reaches its last call on a
    steady pool: the lookup found the customer and the list of active
    vehicles was read in the tenant of the call. *)
Lemma steady_DeleteCustomer_prefix k ctx t id row rest w :
  steady k w -> hasTenant ctx t -> 0 < id ->
  customerRows t id (tables w) = row :: rest ->
  exists vs w2,
    wrap "failed to get customer for deletion" (CustomerRepository.GetByID ctx id) w
    = (Ok (CustomerRepository.scanCustomer row), snd (CustomerRepository.GetByID ctx id w))
    /\ wrap "failed to check customer vehicles" (VehicleRepository.ListActiveByCustomer ctx id)
         (snd (CustomerRepository.GetByID ctx id w)) = (Ok vs, w2)
    /\ (0 <? length vs)%nat = (0 <? length (activeVehicles (engine w) t id (tables w)))%nat
    /\ steady k w2 /\ tables w2 = tables w /\ engine w2 = engine w
    /\ log w2 = (log w
                 ++ callEvents k (sessionOf k w) t (QCustomerByID id)
                 ++ callEvents k (Some t) t (QVehicleCount [VCustomer id; VActive])
                 ++ callEvents k (Some t) t (QVehicleSelect [VCustomer id; VActive] 100 0))%list
    /\ sessionOf k w2 = Some t.
Proof.
  intros Hst Ht Hid Hrow.
  destruct (steady_GetByID k ctx t id w Hst Ht)
    as (w1 & G1 & Hst1 & Ht1 & He1 & _ & _ & Hs1 & Hl1).
  rewrite Hrow in G1. cbn [evalIn eval snd] in Ht1.
  destruct (steady_ListActiveByCustomer k ctx t id w1 Hst1 Ht Hid)
    as (vs & w2 & G2 & Hvs & Hst2 & Ht2 & He2 & Hs2 & Hl2).
  rewrite He1, Ht1 in Hvs. rewrite Hs1, Hl1 in Hl2.
  exists vs, w2. unfold wrap. rewrite G1. cbn [snd]. rewrite G2.
  split; [done|]. split; [done|]. split; [exact Hvs|]. split; [exact Hst2|].
  split; [by rewrite Ht2, Ht1|]. split; [by rewrite He2, He1|].
  split; [by rewrite Hl2, <- !app_assoc | exact Hs2].
Qed.

(** X30.  [DeleteCustomer] on a customer the tenant can see, on a
    steady pool.  With at least one active vehicle it sends an [UPDATE]
    and no [DELETE]: a later [GetByID] still returns the customer, now
    with [IsActive = false] and [UpdatedAt] the instant of the call, and
    no row is added or removed.  With no active vehicle it sends the
    [DELETE]: when no vehicle refers to the customer, a later [GetByID]
    is the not-found error and the vehicles are as before; when a
    vehicle that is not active still refers to it and the foreign key
    does not cascade, the database refuses, the call returns the error
    and nothing has changed.  ([id] is positive, as every id the
    database assigns: for other values the vehicle list is not
    restricted to the customer.) *)
Theorem DeleteCustomer_on_a_steady_pool (k : nat) (now : Time) (ctx : Ctx.Context)
  (t : string) (id : Z) (row : Customer.t Z) (rest : list (Customer.t Z)) (w : World) :
  steady k w -> hasTenant ctx t -> 0 < id ->
  customerRows t id (tables w) = row :: rest ->
  (activeVehicles (engine w) t id (tables w) <> [] ->
   exists w1,
     CustomerService.DeleteCustomer now ctx id w = (Ok tt, w1)
     /\ log w1 = (log w ++ deleteTrace k (sessionOf k w) t id (deactivation now row))%list
     /\ vehicles (tables w1) = vehicles (tables w)
     /\ length (customers (tables w1)) = length (customers (tables w))
     /\ exists c, fst (CustomerRepository.GetByID ctx id w1) = Ok c
                  /\ Customer.ID c = id
                  /\ Customer.IsActive c = false
                  /\ Customer.UpdatedAt c = now)
  /\ (activeVehicles (engine w) t id (tables w) = [] ->
      referenced t id (tables w) = false ->
      exists w1,
        CustomerService.DeleteCustomer now ctx id w = (Ok tt, w1)
        /\ log w1 = (log w ++ deleteTrace k (sessionOf k w) t id (QCustomerDelete id))%list
        /\ vehicles (tables w1) = vehicles (tables w)
        /\ fst (CustomerRepository.GetByID ctx id w1) = Fail (ErrNotFound "customer" id))
  /\ (activeVehicles (engine w) t id (tables w) = [] ->
      referenced t id (tables w) = true -> fk_cascade (engine w) = false ->
      exists w1,
        CustomerService.DeleteCustomer now ctx id w
        = (Fail (ErrWrap "failed to delete customer"
                   (ErrWrap "failed to delete customer" ErrDriver)), w1)
        /\ log w1 = (log w ++ deleteTrace k (sessionOf k w) t id (QCustomerDelete id))%list
        /\ tables w1 = tables w).
Proof.
  intros Hst Ht Hid Hrow.
  destruct (customerRows_head _ _ _ _ _ Hrow) as [Hrid _].
  destruct (steady_DeleteCustomer_prefix k ctx t id row rest w Hst Ht Hid Hrow)
    as (vs & w2 & G1 & G2 & Hvs & Hst2 & Ht2 & He2 & Hl2 & Hs2).
  assert (CustomerService.DeleteCustomer now ctx id w
          = (if (0 <? length (activeVehicles (engine w) t id (tables w)))%nat
             then wrap "failed to deactivate customer"
                    (CustomerRepository.Update ctx
                       (Customer.Deactivate now (CustomerRepository.scanCustomer row)))
             else wrap "failed to delete customer" (CustomerRepository.Delete ctx id)) w2)
    as ->.
  { unfold CustomerService.DeleteCustomer.
    unfold bind at 1. rewrite G1. unfold bind at 1. by rewrite G2, Hvs. }
  split; [| split].
  - (* an active vehicle: the row is updated *)
    intros Hact.
    destruct (activeVehicles (engine w) t id (tables w)) as [|v vs'] eqn:Ea; [done|].
    cbn [length Nat.ltb Nat.leb].
    set (c := Customer.Deactivate now (CustomerRepository.scanCustomer row)).
    destruct (steady_Update k ctx t c w2 Hst2 Ht)
      as (w3 & G3 & Hst3 & Ht3 & He3 & _ & _ & Hs3 & Hl3).
    change (Customer.ID c) with (Customer.ID row) in G3.
    rewrite Hrid, Ht2, Hrow in G3. unfold wrap. rewrite G3.
    exists w3. split; [done|]. split; [| split; [| split]].
    + rewrite Hl3, Hl2, Hs2. unfold deleteTrace, deactivation. by rewrite <- !app_assoc.
    + rewrite Ht3. unfold evalIn. cbn [eval snd withCustomers vehicles]. by rewrite Ht2.
    + rewrite Ht3. unfold evalIn. cbn [eval snd withCustomers customers].
      by rewrite length_fmap, Ht2.
    + destruct (steady_GetByID k ctx t id w3 Hst3 Ht) as (w4 & G4 & _).
      rewrite G4. cbn [fst]. rewrite Ht3. unfold evalIn.
      pose proof (customerRows_updated (engine w2)
                    (pick_rows (sched w2 (S (clock w2))), pick_affected (sched w2 (S (clock w2))))
                    t (CustomerRepository.updateArgs c) (tables w2) row rest) as Hu.
      change (a_id (CustomerRepository.updateArgs c)) with (Customer.ID row) in Hu.
      rewrite Hrid, Ht2 in Hu. rewrite Ht2 in *. rewrite (Hu Hrow).
      eexists. split; [reflexivity|]. by cbn.
  - (* no active vehicle, and no vehicle at all: the row is deleted *)
    intros Hact Href. rewrite Hact. cbn [length Nat.ltb Nat.leb].
    destruct (steady_Delete k ctx t id w2 Hst2 Ht)
      as (w3 & G3 & Hst3 & Ht3 & He3 & _ & _ & Hs3 & Hl3).
    rewrite Ht2, Href, Hrow in G3. cbn [andb] in G3. unfold wrap. rewrite G3.
    exists w3. split; [done|]. split; [| split].
    + rewrite Hl3, Hl2, Hs2. unfold deleteTrace. by rewrite <- !app_assoc.
    + rewrite Ht3. unfold evalIn. rewrite vehicles_after_delete by (by rewrite Ht2).
      by rewrite Ht2.
    + destruct (steady_GetByID k ctx t id w3 Hst3 Ht) as (w4 & G4 & _).
      rewrite G4. cbn [fst]. rewrite Ht3. unfold evalIn.
      by rewrite customerRows_deleted by (by rewrite Ht2).
  - (* no active vehicle, but a vehicle: the delete is refused *)
    intros Hact Href Hfk. rewrite Hact. cbn [length Nat.ltb Nat.leb].
    destruct (steady_Delete k ctx t id w2 Hst2 Ht)
      as (w3 & G3 & Hst3 & Ht3 & He3 & _ & _ & Hs3 & Hl3).
    rewrite Ht2, He2, Href, Hfk in G3. cbn [andb negb] in G3. unfold wrap. rewrite G3.
    exists w3. split; [done|]. split.
    + rewrite Hl3, Hl2, Hs2. unfold deleteTrace. by rewrite <- !app_assoc.
    + rewrite Ht3. unfold evalIn.
      rewrite delete_refused; [by rewrite Ht2 | by rewrite Ht2 | by rewrite He2].
Qed.

Lemma steady_withVehicles vs : steady 0 (withVehicles vs).
Proof. split; [done|]. split; [cbn; lia | done]. Qed.

Lemma DeleteCustomer_on_a_steady_pool_witness :
  (exists w1,
     CustomerService.DeleteCustomer 200 tenantA 7 (withVehicles [sampleVehicle 1 7 true])
     = (Ok tt, w1)
     /\ exists c, fst (CustomerRepository.GetByID tenantA 7 w1) = Ok c
                  /\ Customer.IsActive c = false)
  /\ (exists w1,
        CustomerService.DeleteCustomer 200 tenantA 7 (withVehicles []) = (Ok tt, w1)
        /\ fst (CustomerRepository.GetByID tenantA 7 w1) = Fail (ErrNotFound "customer" 7)).
Proof.
  split.
  - destruct (DeleteCustomer_on_a_steady_pool 0 200 tenantA "tenant-a" 7
                (sampleCustomer 7 "tenant-a") [] (withVehicles [sampleVehicle 1 7 true]))
      as (Hsoft & _).
    + apply steady_withVehicles.
    + reflexivity.
    + lia.
    + reflexivity.
    + destruct Hsoft as (w1 & H & _ & _ & _ & c & Hc & _ & Hi & _); [by vm_compute|].
      exists w1. split; [exact H|]. exists c. by split.
  - destruct (DeleteCustomer_on_a_steady_pool 0 200 tenantA "tenant-a" 7
                (sampleCustomer 7 "tenant-a") [] (withVehicles []))
      as (_ & Hhard & _).
    + apply steady_withVehicles.
    + reflexivity.
    + lia.
    + reflexivity.
    + destruct Hhard as (w1 & H & _ & _ & Hg); [reflexivity | reflexivity |].
      exists w1. by split.
Defined.

(** *** Pagination *)

Lemma pagination_spec l p :
  fitsInt l p -> pagination l p = (pageLimit l, pageOffset l p) /\ 0 <= pageOffset l p.
Proof.
  unfold fitsInt, pagination, pageOffset, pageLimit, wrap64.
  destruct (Z.leb_spec l 0), (Z.ltb_spec 0 l); try lia;
    destruct (Z.gtb_spec p 0), (Z.ltb_spec 0 p); try lia; intros Hfit;
    (split; [f_equal | nia]);
    rewrite ?Z.mod_small by nia; lia.
Qed.

Lemma page_11_to_20 {A B} (scan : A -> B) (matching : list A) :
  length matching = 25%nat ->
  pageAndTotal scan 10 2 matching = (scan <$> rowsFromTo 11 20 matching, 25)
  /\ length (rowsFromTo 11 20 matching) = 10%nat.
Proof.
  intros H. unfold pageAndTotal, rowsFromTo, count. rewrite H. split; [reflexivity|].
  rewrite length_take, length_drop, H. reflexivity.
Qed.

(** [List] of the customer and of the vehicle repository, for
    every filter, on a steady pool: the count statement is sent first,
    then the page statement with [LIMIT] the filter's limit if positive,
    else 50, and [OFFSET] [(page - 1) * limit] if the page is positive,
    else 0; the call returns that page of the matching rows, in the
    order of the statement, and the number of all matching rows.  With
    limit 10 and page 2 over 25 matching rows these are rows 11 to 20
    and 25.  (The product is taken in Go's [int]; it is the number
    above whenever that fits 64 bits.) *)
Theorem List_counts_then_pages (k : nat) (ctx : Ctx.Context) (t : string) (w : World)
  (cf : CustomerFilter.t) (vf : VehicleFilter.t) :
  steady k w -> hasTenant ctx t ->
  fitsInt (CustomerFilter.Limit cf) (CustomerFilter.Page cf) ->
  fitsInt (VehicleFilter.Limit vf) (VehicleFilter.Page vf) ->
  (let conds := CustomerRepository.whereConditions cf in
   let order := CustomerRepository.orderByClause cf in
   let limit := CustomerFilter.Limit cf in
   let page := CustomerFilter.Page cf in
   let matching := customersOrdered (engine w) (Some t) conds order (tables w) in
   exists w2,
     CustomerRepository.List_ ctx cf w
     = (Ok (pageAndTotal CustomerRepository.scanCustomer limit page matching), w2)
     /\ count matching = count (customersWhere (engine w) (Some t) conds (tables w))
     /\ log w2 = (log w
                  ++ callEvents k (sessionOf k w) t (QCustomerCount conds)
                  ++ callEvents k (Some t) t
                       (QCustomerSelect conds order (pageLimit limit) (pageOffset limit page)))%list
     /\ (limit = 10 -> page = 2 -> length matching = 25%nat ->
         pageAndTotal CustomerRepository.scanCustomer limit page matching
         = (CustomerRepository.scanCustomer <$> rowsFromTo 11 20 matching, 25)
         /\ length (rowsFromTo 11 20 matching) = 10%nat))
  /\ (let conds := VehicleRepository.whereConditions vf in
      let limit := VehicleFilter.Limit vf in
      let page := VehicleFilter.Page vf in
      let matching := vehiclesOrdered (engine w) (Some t) conds (tables w) in
      exists w2,
        VehicleRepository.List_ ctx vf w
        = (Ok (pageAndTotal VehicleRepository.scanVehicle limit page matching), w2)
        /\ count matching = count (vehiclesWhere (engine w) (Some t) conds (tables w))
        /\ log w2 = (log w
                     ++ callEvents k (sessionOf k w) t (QVehicleCount conds)
                     ++ callEvents k (Some t) t
                          (QVehicleSelect conds (pageLimit limit) (pageOffset limit page)))%list
        /\ (limit = 10 -> page = 2 -> length matching = 25%nat ->
            pageAndTotal VehicleRepository.scanVehicle limit page matching
            = (VehicleRepository.scanVehicle <$> rowsFromTo 11 20 matching, 25)
            /\ length (rowsFromTo 11 20 matching) = 10%nat)).
Proof.
  intros Hst Ht Hcf Hvf. split; cbv zeta.
  - destruct (steady_customer_List k ctx t cf w Hst Ht) as (w2 & H & _ & _ & _ & _ & Hl).
    destruct (pagination_spec _ _ Hcf) as [Hp Ho].
    unfold limitOf, offsetOf in H, Hl. rewrite Hp in H, Hl. cbn [fst snd] in H, Hl.
    destruct (Z.ltb_spec (pageOffset (CustomerFilter.Limit cf) (CustomerFilter.Page cf)) 0);
      [lia|].
    exists w2. split; [| split; [| split; [exact Hl|]]].
    + rewrite H. unfold pageAndTotal, limitOffset, customersOrdered, count.
      by rewrite orderBy_length.
    + unfold customersOrdered, count. by rewrite orderBy_length.
    + intros -> -> Hlen. by apply page_11_to_20.
  - destruct (steady_vehicle_List k ctx t vf w Hst Ht) as (w2 & H & _ & _ & _ & _ & Hl).
    destruct (pagination_spec _ _ Hvf) as [Hp Ho].
    unfold limitOf, offsetOf in H, Hl. rewrite Hp in H, Hl. cbn [fst snd] in H, Hl.
    destruct (Z.ltb_spec (pageOffset (VehicleFilter.Limit vf) (VehicleFilter.Page vf)) 0);
      [lia|].
    exists w2. split; [| split; [| split; [exact Hl|]]].
    + rewrite H. unfold pageAndTotal, limitOffset, vehiclesOrdered, count.
      by rewrite orderBy_length.
    + unfold vehiclesOrdered, count. by rewrite orderBy_length.
    + intros -> -> Hlen. by apply page_11_to_20.
Qed.

Lemma steady_withCustomersUpTo n : steady 0 (withCustomersUpTo n).
Proof. split; [done|]. split; [cbn; lia | done]. Qed.

Lemma List_counts_then_pages_witness :
  exists w2 page,
    CustomerRepository.List_ tenantA (pageFilter 10 2) (withCustomersUpTo 25)
    = (Ok (page, 25), w2)
    /\ Customer.ID <$> page = [15; 14; 13; 12; 11; 10; 9; 8; 7; 6].
Proof.
  destruct (List_counts_then_pages 0 tenantA "tenant-a" (withCustomersUpTo 25)
              (pageFilter 10 2)
              {| VehicleFilter.CustomerID := 0; VehicleFilter.Search := "";
                 VehicleFilter.ActiveOnly := false; VehicleFilter.Page := 2;
                 VehicleFilter.Limit := 10 |})
    as [(w2 & H & _) _].
  - apply steady_withCustomersUpTo.
  - reflexivity.
  - by vm_compute.
  - by vm_compute.
  - exists w2. eexists. split; [exact H|]. by vm_compute.
Defined.

End Steady.

(** ** The service calls at a pool of two connections *)

Section CrossedPools.
Import Db Postgres Repo.
Local Open Scope db_scope.

(** C5, at a pool of two connections.  Customer 7 of tenant A owns an
    active vehicle.  [DeleteCustomer] finds the customer, but the
    statement that lists its active vehicles runs on connection 1,
    whose session is still scoped to tenant B, and returns no row; so
    the call sends the [DELETE] and never the [UPDATE] of a soft
    delete.  Where the foreign key cascades, the customer and the
    vehicle are gone; where it does not, the database refuses, the call
    returns that error and the customer is still active.  Either way
    the customer is not deactivated. *)
Theorem DeleteCustomer_deletes_the_owner_of_an_active_vehicle (cascade : bool) :
  let w := crossedList cascade in
  let r := CustomerService.DeleteCustomer 200 tenantA 7 w in
  customerRows "tenant-a" 7 (tables w) = [sampleCustomer 7 "tenant-a"]
  /\ activeVehicles (engine w) "tenant-a" 7 (tables w) = [sampleVehicle 1 7 true]
  /\ log (snd r)
     = [EvStmt 0 None (SetTenant "tenant-a");
        EvStmt 0 (Some "tenant-a") (Sql (QCustomerByID 7));
        EvStmt 0 (Some "tenant-a") (SetTenant "tenant-a");
        EvStmt 0 (Some "tenant-a") (Sql (QVehicleCount [VCustomer 7; VActive]));
        EvStmt 0 (Some "tenant-a") (SetTenant "tenant-a");
        EvStmt 1 (Some "tenant-b") (Sql (QVehicleSelect [VCustomer 7; VActive] 100 0));
        EvStmt 0 (Some "tenant-a") (SetTenant "tenant-a");
        EvStmt 0 (Some "tenant-a") (Sql (QCustomerDelete 7))]
  /\ fst r = (if cascade then Ok tt
              else Fail (ErrWrap "failed to delete customer"
                           (ErrWrap "failed to delete customer" ErrDriver)))
  /\ tables (snd r) = (if cascade then {| customers := []; vehicles := [] |}
                       else tables w)
  /\ Forall (fun c => Customer.IsActive c = true) (customers (tables (snd r))).
Proof.
  destruct cascade; cbv zeta.
  - split; [reflexivity|]. split; [reflexivity|]. split; [by vm_compute|].
    split; [by vm_compute|]. split; [by vm_compute|].
    assert (customers (tables (snd (CustomerService.DeleteCustomer 200 tenantA 7
                                      (crossedList true)))) = []) as -> by (by vm_compute).
    constructor.
  - split; [reflexivity|]. split; [reflexivity|]. split; [by vm_compute|].
    split; [by vm_compute|]. split; [by vm_compute|].
    assert (customers (tables (snd (CustomerService.DeleteCustomer 200 tenantA 7
                                      (crossedList false))))
            = [sampleCustomer 7 "tenant-a"]) as -> by (by vm_compute).
    by repeat constructor.
Qed.

(** C8, at a pool of two connections.  Tenant A has 25 customers and
    tenant B has 3.  [List] with limit 10 and page 2 sends the count
    statement on connection 1, whose session is still scoped to tenant
    B, and the page statement on connection 0: it returns rows 11 to
    20 of tenant A together with a total of 3, the count of tenant B's
    customers. *)
Theorem List_returns_the_total_of_another_tenant :
  let w := crossedCount in
  let matching :=
    customersOrdered (engine w) (Some "tenant-a") [] (OrderCreatedAt true) (tables w) in
  let r := CustomerRepository.List_ tenantA (pageFilter 10 2) w in
  length matching = 25%nat
  /\ count (customersWhere (engine w) (Some "tenant-b") [] (tables w)) = 3
  /\ fst r = Ok (CustomerRepository.scanCustomer <$> rowsFromTo 11 20 matching, 3)
  /\ log (snd r)
     = [EvStmt 0 None (SetTenant "tenant-a");
        EvStmt 1 (Some "tenant-b") (Sql (QCustomerCount []));
        EvStmt 0 (Some "tenant-a") (SetTenant "tenant-a");
        EvStmt 0 (Some "tenant-a") (Sql (QCustomerSelect [] (OrderCreatedAt true) 10 10))].
Proof.
  cbv zeta. split; [by vm_compute|]. split; [by vm_compute|].
  split; by vm_compute.
Qed.

End CrossedPools.

(** * More of the code *)

(** ** Customers *)

Section CustomerFacts.
Context {K : Type}.
Implicit Types c : Customer.t K.

Lemma containsChar_ascii (a : ascii) (s : string) :
  GoString.byte_of a < 0x80 ->
  Customer.containsChar s (GoString.byte_of a) = true <-> occurs a s.
Proof.
  intros Hlt. unfold Customer.containsChar. rewrite existsb_elem. split.
  - intros (x & Hx & Heq). apply Z.eqb_eq in Heq. subst x.
    by apply byte_occurs, runes_ascii.
  - intros H. exists (GoString.byte_of a). split; [|by apply Z.eqb_eq].
    by apply runes_ascii, byte_occurs.
Qed.

Lemma isValidEmail_iff (email : string) :
  Customer.isValidEmail email = true <-> emailAcceptable email.
Proof.
  unfold Customer.isValidEmail, emailAcceptable, GoString.len.
  rewrite !andb_true_iff, Z.gtb_lt, Z.leb_le.
  change 64 with (GoString.byte_of "@"%char).
  change 46 with (GoString.byte_of "."%char).
  rewrite !containsChar_ascii by done. intuition lia.
Qed.

(** X1.  [isValidEmail] accepts exactly the strings of 4 to 255 bytes
    that hold an [@] and a dot, wherever they stand: it is no more than
    that, so [@.@.] and [....@] pass, and a well-formed address of 256
    bytes or of 3 bytes does not. *)
Theorem isValidEmail_accepts (email : string) :
  (Customer.isValidEmail email = true <-> emailAcceptable email)
  /\ Customer.isValidEmail "....@" = true
  /\ Customer.isValidEmail "a@b" = false.
Proof. split; [apply isValidEmail_iff | split; reflexivity]. Qed.

Lemma nonEmpty_spec (p : option string) :
  Customer.nonEmpty p = true <-> exists s, p = Some s /\ s <> "".
Proof.
  destruct p as [[|a s]|]; cbn; split; try done.
  - intros (s & [= <-] & H). done.
  - intros _. eexists. split; [reflexivity | done].
  - intros (s & [=] & _).
Qed.

(** X2.  [Customer.Validate] returns [nil] exactly for a customer with
    both names, a customer type that is [individual] or [business], a
    non-empty company name when it is a business, and, when it has a
    non-empty email, one that [isValidEmail] accepts.  Every error is a
    validation error that names the first field failing in that order;
    phone, tax id and address are never looked at. *)
Theorem Customer_Validate_spec c :
  (Customer.Validate c = None <-> customerValid c)
  /\ (forall e, Customer.Validate c = Some e ->
       exists msg,
         e = ErrValidation
               (if GoString.isEmpty (Customer.FirstName c) then "first_name"
                else if GoString.isEmpty (Customer.LastName c) then "last_name"
                else if negb (Customer.IsIndividual c) && negb (Customer.IsBusiness c)
                then "customer_type"
                else if Customer.IsBusiness c && negb (Customer.nonEmpty (Customer.CompanyName c))
                then "company_name"
                else "email") msg).
Proof.
  unfold Customer.Validate, customerValid, Customer.IsIndividual, Customer.IsBusiness,
    Customer.CustomerTypeIndividual, Customer.CustomerTypeBusiness.
  destruct (GoString.isEmpty (Customer.FirstName c)) eqn:E1.
  { apply isEmpty_spec in E1. split; [| by intros e [= <-]; eexists].
    split; [done | by intros (H & _)]. }
  destruct (GoString.isEmpty (Customer.LastName c)) eqn:E2.
  { apply isEmpty_spec in E2. split; [| by intros e [= <-]; eexists].
    split; [done | by intros (_ & H & _)]. }
  assert (Customer.FirstName c <> "") as N1.
  { intros H. apply isEmpty_spec in H. congruence. }
  assert (Customer.LastName c <> "") as N2.
  { intros H. apply isEmpty_spec in H. congruence. }
  destruct (String.eqb_spec (Customer.CustomerType c) "individual") as [Ei|Ei];
    destruct (String.eqb_spec (Customer.CustomerType c) "business") as [Eb|Eb];
    cbn [negb andb]; try congruence.
  - (* individual *)
    destruct (Customer.Email c) as [email|] eqn:Em.
    + destruct (GoString.isEmpty email) eqn:E3; cbn [negb andb].
      * apply isEmpty_spec in E3. split; [| done].
        split; [| done]. intros _. split; [done|]. split; [done|]. split; [by left|].
        intros ? [= <-]. done.
      * destruct (Customer.isValidEmail email) eqn:E4; cbn [negb].
        -- split; [| done]. split; [| done]. intros _.
           split; [done|]. split; [done|]. split; [by left|].
           intros ? [= <-] _. by apply isValidEmail_iff.
        -- split; [| by intros e [= <-]; eexists].
           split; [done|]. intros (_ & _ & _ & H).
           assert (email <> "") as N3.
           { intros H3. apply isEmpty_spec in H3. congruence. }
           apply (H email eq_refl), isValidEmail_iff in N3. congruence.
    + split; [| done]. split; [| done]. intros _.
      split; [done|]. split; [done|]. split; [by left|done].
  - (* business *)
    destruct (Customer.nonEmpty (Customer.CompanyName c)) eqn:Ec; cbn [negb].
    + apply nonEmpty_spec in Ec.
      destruct (Customer.Email c) as [email|] eqn:Em.
      * destruct (GoString.isEmpty email) eqn:E3; cbn [negb andb].
        -- apply isEmpty_spec in E3. split; [| done].
           split; [| done]. intros _. split; [done|]. split; [done|]. split; [by right|].
           intros ? [= <-]. done.
        -- destruct (Customer.isValidEmail email) eqn:E4; cbn [negb].
           ++ split; [| done]. split; [| done]. intros _.
              split; [done|]. split; [done|]. split; [by right|].
              intros ? [= <-] _. by apply isValidEmail_iff.
           ++ split; [| by intros e [= <-]; eexists].
              split; [done|]. intros (_ & _ & _ & H).
              assert (email <> "") as N3.
              { intros H3. apply isEmpty_spec in H3. congruence. }
              apply (H email eq_refl), isValidEmail_iff in N3. congruence.
      * split; [| done]. split; [| done]. intros _.
        split; [done|]. split; [done|]. split; [by right|done].
    + split; [| by intros e [= <-]; eexists].
      split; [done|]. intros (_ & _ & [H|(_ & H)] & _); [congruence|].
      apply nonEmpty_spec in H. congruence.
  - (* neither *)
    split; [| by intros e [= <-]; eexists].
    split; [done|]. intros (_ & _ & [H|(H & _)] & _); congruence.
Qed.

End CustomerFacts.

Section CustomerNames.
Context {K : Type}.
Implicit Types c : Customer.t K.

Lemma append_nonempty_r (s1 s2 : string) : s2 <> "" -> (s1 ++ s2)%string <> "".
Proof. destruct s1; [done|]. by intros _. Qed.

(** X3.  [DisplayName] is never empty.  It is the company name exactly
    for a business customer with a non-empty company name; in every
    other case, an individual with a company name included, it is
    [FullName], the two names with one space between them. *)
Theorem DisplayName_spec c :
  Customer.DisplayName c <> ""
  /\ (Customer.IsBusiness c = true ->
      forall company, Customer.CompanyName c = Some company -> company <> "" ->
      Customer.DisplayName c = company)
  /\ (Customer.IsBusiness c = false \/ Customer.nonEmpty (Customer.CompanyName c) = false ->
      Customer.DisplayName c
      = (Customer.FirstName c ++ " " ++ Customer.LastName c)%string).
Proof.
  unfold Customer.DisplayName, Customer.IsBusiness, Customer.FullName.
  assert ((Customer.FirstName c ++ " " ++ Customer.LastName c)%string <> "") as Hfull.
  { by apply append_nonempty_r. }
  split; [| split].
  - destruct (Customer.CompanyName c) as [company|]; [|done].
    destruct (_ =? _)%string; cbn [andb]; [|done].
    destruct company; cbn; done.
  - intros Hb company -> Hne. rewrite Hb. by destruct company.
  - intros [Hb|Hc].
    + rewrite Hb. by destruct (Customer.CompanyName c).
    + destruct (Customer.CompanyName c) as [company|]; [|done].
      cbn in Hc. apply negb_false_iff in Hc. rewrite Hc.
      by rewrite andb_false_r.
Qed.

(** X4.  Preferences: what [SetPreference] stores under a key is what
    [GetPreference] finds there, also on a customer whose map was
    [nil]; the other keys and every other field but [UpdatedAt] stay
    as they were; a key that was never set is reported absent.  The
    typed getters fall back to the zero value when the value has
    another type. *)
Theorem preference_set_then_get (now : Time) (key : string) (value : JSON) c :
  Customer.GetPreference key (Customer.SetPreference now key value c) = (value, true)
  /\ (forall other, other <> key ->
      Customer.GetPreference other (Customer.SetPreference now key value c)
      = Customer.GetPreference other c)
  /\ customerCore (Customer.SetPreference now key value c) = customerCore c
  /\ Customer.UpdatedAt (Customer.SetPreference now key value c) = now
  /\ (Customer.Preferences c = None -> Customer.GetPreference key c = (JNull, false))
  /\ Customer.GetPreferenceString key (Customer.SetPreference now key value c)
     = match value with JString s => s | _ => "" end
  /\ Customer.GetPreferenceBool key (Customer.SetPreference now key value c)
     = match value with JBool b => b | _ => false end.
Proof.
  assert (Customer.GetPreference key (Customer.SetPreference now key value c) = (value, true))
    as Hget.
  { unfold Customer.GetPreference, Customer.SetPreference. cbn.
    by rewrite lookup_insert_eq. }
  split; [exact Hget|]. split; [| split; [done | split; [done | split]]].
  - intros other Hne. unfold Customer.GetPreference, Customer.SetPreference. cbn.
    rewrite lookup_insert_ne by done.
    destruct (Customer.Preferences c); [done|]. by rewrite lookup_empty.
  - unfold Customer.GetPreference. by intros ->.
  - unfold Customer.GetPreferenceString, Customer.GetPreferenceBool. rewrite Hget.
    by destruct value.
Qed.

End CustomerNames.

(** ** Vehicles *)

Section VehicleFacts.
Context {K : Type}.
Implicit Types v o : Vehicle.t K.

(** X5.  Metadata: what [SetMetadata] stores under a key is what
    [GetMetadata] finds there, also on a vehicle whose map was [nil];
    the other keys and every other field but [UpdatedAt] stay as they
    were; [GetMetadataString] is the empty string for a value that is
    not a string and for a key that is absent. *)
Theorem metadata_set_then_get (now : Time) (key : string) (value : JSON) v :
  Vehicle.GetMetadata key (Vehicle.SetMetadata now key value v) = (value, true)
  /\ (forall other, other <> key ->
      Vehicle.GetMetadata other (Vehicle.SetMetadata now key value v)
      = Vehicle.GetMetadata other v)
  /\ vehicleCore (Vehicle.SetMetadata now key value v) = vehicleCore v
  /\ Vehicle.UpdatedAt (Vehicle.SetMetadata now key value v) = now
  /\ Vehicle.GetMetadataString key (Vehicle.SetMetadata now key value v)
     = match value with JString s => s | _ => "" end
  /\ (snd (Vehicle.GetMetadata key v) = false -> Vehicle.GetMetadataString key v = "").
Proof.
  assert (Vehicle.GetMetadata key (Vehicle.SetMetadata now key value v) = (value, true))
    as Hget.
  { unfold Vehicle.GetMetadata, Vehicle.SetMetadata. cbn. by rewrite lookup_insert_eq. }
  split; [exact Hget|]. split; [| split; [done | split; [done | split]]].
  - intros other Hne. unfold Vehicle.GetMetadata, Vehicle.SetMetadata. cbn.
    rewrite lookup_insert_ne by done.
    destruct (Vehicle.Metadata v); [done|]. by rewrite lookup_empty.
  - unfold Vehicle.GetMetadataString. rewrite Hget. by destruct value.
  - unfold Vehicle.GetMetadataString.
    destruct (Vehicle.GetMetadata key v) as [x []]; [done|]. by destruct x.
Qed.

Lemma wrap_small z : - 2^63 <= z < 2^63 -> GoInt.wrap z = z.
Proof. intros H. unfold GoInt.wrap. rewrite Z.mod_small; lia. Qed.

Lemma IsCompatibleWith_iff v o :
  plainYear v -> plainYear o ->
  Vehicle.IsCompatibleWith v (Some o) = true
  <-> Vehicle.Make v = Vehicle.Make o /\ Vehicle.Model v = Vehicle.Model o
      /\ Z.abs (Vehicle.Year v - Vehicle.Year o) <= 3.
Proof.
  unfold plainYear, Vehicle.IsCompatibleWith. intros Hv Ho.
  rewrite (wrap_small (Vehicle.Year v - Vehicle.Year o)) by lia.
  destruct (String.eqb_spec (Vehicle.Make v) (Vehicle.Make o)) as [Em|Em]; cbn [negb orb];
    [| by intuition].
  destruct (String.eqb_spec (Vehicle.Model v) (Vehicle.Model o)) as [Eo|Eo]; cbn [negb];
    [| by intuition].
  destruct (Z.ltb_spec (Vehicle.Year v - Vehicle.Year o) 0).
  - rewrite wrap_small by lia. rewrite Z.leb_le. intuition lia.
  - rewrite Z.leb_le. intuition lia.
Qed.

(** X6.  [IsCompatibleWith] is false for [nil]; otherwise it holds
    exactly when make and model are equal and the years are at most 3
    apart.  It is reflexive and symmetric. *)
Theorem IsCompatibleWith_spec v o :
  plainYear v -> plainYear o ->
  Vehicle.IsCompatibleWith v None = false
  /\ (Vehicle.IsCompatibleWith v (Some o) = true
      <-> Vehicle.Make v = Vehicle.Make o /\ Vehicle.Model v = Vehicle.Model o
          /\ Z.abs (Vehicle.Year v - Vehicle.Year o) <= 3)
  /\ Vehicle.IsCompatibleWith v (Some v) = true
  /\ Vehicle.IsCompatibleWith v (Some o) = Vehicle.IsCompatibleWith o (Some v).
Proof.
  intros Hv Ho. split; [done|]. split; [by apply IsCompatibleWith_iff|]. split.
  - apply IsCompatibleWith_iff; [done|done|]. split; [done|]. split; [done|].
    rewrite Z.sub_diag. change (Z.abs 0) with 0. lia.
  - apply eq_true_iff_eq. rewrite !IsCompatibleWith_iff by done.
    replace (Vehicle.Year o - Vehicle.Year v) with (- (Vehicle.Year v - Vehicle.Year o)) by lia.
    rewrite Z.abs_opp. intuition congruence.
Qed.

End VehicleFacts.

Lemma IsCompatibleWith_spec_witness :
  let a := sampleVehicle 1 7 true in
  let b := Vehicle.UpdateFromUpdate 0
             {| VehicleUpdate.ID := 1; VehicleUpdate.Make := None; VehicleUpdate.Model := None;
                VehicleUpdate.Year := Some 2018; VehicleUpdate.VIN := None;
                VehicleUpdate.LicensePlate := None; VehicleUpdate.Color := None;
                VehicleUpdate.Engine := None; VehicleUpdate.Notes := None;
                VehicleUpdate.IsActive := None; VehicleUpdate.Metadata := None |} a in
  let c := Vehicle.UpdateFromUpdate 0
             {| VehicleUpdate.ID := 1; VehicleUpdate.Make := None; VehicleUpdate.Model := None;
                VehicleUpdate.Year := Some 2021; VehicleUpdate.VIN := None;
                VehicleUpdate.LicensePlate := None; VehicleUpdate.Color := None;
                VehicleUpdate.Engine := None; VehicleUpdate.Notes := None;
                VehicleUpdate.IsActive := None; VehicleUpdate.Metadata := None |} a in
  Vehicle.IsCompatibleWith a (Some b) = Vehicle.IsCompatibleWith b (Some a)
  /\ Vehicle.IsCompatibleWith a (Some b) = true
  /\ Vehicle.IsCompatibleWith b (Some c) = true
  /\ Vehicle.IsCompatibleWith a (Some c) = false.
Proof.
  cbv zeta. split; [| by vm_compute].
  refine (proj2 (proj2 (proj2 (IsCompatibleWith_spec _ _ _ _)))); by vm_compute.
Defined.

(** ** Strings *)

Section StringFacts.

Lemma length_append (s1 s2 : string) :
  String.length (s1 ++ s2) = (String.length s1 + String.length s2)%nat.
Proof.
  induction s1 as [|a s1 IH]; [done|].
  change (S (String.length (s1 ++ s2)) = S (String.length s1 + String.length s2))%nat.
  by rewrite IH.
Qed.

Lemma app_cons (a : ascii) (s1 s2 : string) : (String a s1 ++ s2) = String a (s1 ++ s2).
Proof. reflexivity. Qed.
Lemma app_nil (s : string) : ("" ++ s) = s.
Proof. reflexivity. Qed.

Lemma substring_S (a : ascii) (n m : nat) (s : string) :
  substring (S n) m (String a s) = substring n m s.
Proof. reflexivity. Qed.
Lemma substring_0_S (a : ascii) (m : nat) (s : string) :
  substring 0 (S m) (String a s) = String a (substring 0 m s).
Proof. reflexivity. Qed.
Lemma substring_0_0 (s : string) : substring 0 0 s = "".
Proof. by destruct s. Qed.

Lemma substring_split (n m : nat) (s : string) :
  (n + m <= String.length s)%nat ->
  exists pre post,
    s = (pre ++ substring n m s ++ post)%string
    /\ String.length pre = n /\ String.length (substring n m s) = m.
Proof.
  revert n m. induction s as [|a s IH]; intros n m H.
  - change (String.length "") with 0%nat in H.
    assert (n = 0 /\ m = 0)%nat as [-> ->] by lia. by exists "", "".
  - change (String.length (String a s)) with (S (String.length s)) in H.
    destruct n as [|n].
    + destruct m as [|m].
      * exists "", (String a s). rewrite substring_0_0. done.
      * destruct (IH 0%nat m) as (pre & post & Hs & Hpre & Hlen); [lia|].
        destruct pre; [|done]. rewrite app_nil in Hs.
        exists "", post. rewrite substring_0_S, app_nil, app_cons.
        split; [by rewrite <- Hs|]. split; [done|].
        change (S (String.length (substring 0 m s)) = S m). by rewrite Hlen.
    + destruct (IH n m) as (pre & post & Hs & Hpre & Hlen); [lia|].
      exists (String a pre), post. rewrite substring_S, app_cons.
      split; [by rewrite <- Hs|]. split; [|done].
      change (S (String.length pre) = S n). by rewrite Hpre.
Qed.

Lemma substring_middle (pre sub post : string) :
  substring (String.length pre) (String.length sub) (pre ++ sub ++ post) = sub.
Proof.
  induction pre as [|a pre IH]; [|exact IH].
  rewrite app_nil. change (String.length "") with 0%nat.
  induction sub as [|b sub IHs]; [apply substring_0_0|].
  rewrite app_cons.
  change (String.length (String b sub)) with (S (String.length sub)).
  rewrite substring_0_S. by rewrite IHs.
Qed.

End StringFacts.

(** ** Customer notes *)

Section NoteFacts.

Lemma isValidNoteType_iff ty :
  Note.isValidNoteType ty = true <-> ty ∈ Note.GetValidNoteTypes.
Proof.
  unfold Note.isValidNoteType, Note.GetValidNoteTypes.
  rewrite existsb_exists. setoid_rewrite list_elem_of_In. split.
  - intros (x & Hx & Heq). by apply String.eqb_eq in Heq as ->.
  - intros H. exists ty. split; [done | apply String.eqb_refl].
Qed.

(** X7.  The three tables of note types agree: [isValidNoteType]
    accepts exactly the six types [GetValidNoteTypes] lists; these are
    exactly the keys of [GetNoteTypeDisplayNames], whose names are the
    ones [GetTypeDisplayName] gives; and [GetTypeDisplayName] answers
    [Desconocido] exactly for a type that is not valid.  The comparison
    is exact: [General] with a capital is not a type. *)
Theorem note_type_tables_agree (cn : CustomerNote.t) :
  let ty := CustomerNote.Type_ cn in
  (Note.isValidNoteType ty = true <-> ty ∈ Note.GetValidNoteTypes)
  /\ (forall name, Note.GetNoteTypeDisplayNames !! ty = Some name
                   <-> Note.isValidNoteType ty = true /\ Note.GetTypeDisplayName cn = name)
  /\ (Note.GetTypeDisplayName cn = "Desconocido" <-> Note.isValidNoteType ty = false)
  /\ Note.isValidNoteType "General" = false.
Proof.
  cbv zeta. split; [apply isValidNoteType_iff|]. split; [| split; [|done]].
  - intros name. destruct (Note.isValidNoteType (CustomerNote.Type_ cn)) eqn:Hv.
    + apply isValidNoteType_iff in Hv. unfold Note.GetTypeDisplayName.
      unfold Note.GetValidNoteTypes in Hv. rewrite !elem_of_cons, elem_of_nil in Hv.
      destruct Hv as [->|[->|[->|[->|[->|[->|[]]]]]]];
        vm_compute; split; [intros [= <-]|intros [_ <-]| intros [= <-]|intros [_ <-]
                            | intros [= <-]|intros [_ <-]| intros [= <-]|intros [_ <-]
                            | intros [= <-]|intros [_ <-]| intros [= <-]|intros [_ <-]];
        done.
    + assert (Note.GetNoteTypeDisplayNames !! CustomerNote.Type_ cn = None) as ->.
      { apply not_elem_of_list_to_map_1. intros Hin.
        assert (Note.isValidNoteType (CustomerNote.Type_ cn) = true); [|congruence].
        by apply isValidNoteType_iff. }
      split; [done | by intros [? _]].
  - unfold Note.GetTypeDisplayName, Note.isValidNoteType. cbn [existsb].
    repeat (destruct (String.eqb _ _); [cbn; split; discriminate |]). done.
Qed.

Lemma slice_prefix (s : string) (hi : Z) :
  0 <= hi <= GoString.len s ->
  exists head rest,
    GoString.slice s 0 hi = Some head
    /\ s = (head ++ rest)%string /\ GoString.len head = hi.
Proof.
  intros H. unfold GoString.slice, GoString.len in *.
  destruct (Z.leb_spec 0 0); [|lia].
  destruct (Z.leb_spec 0 hi); [|lia].
  destruct (Z.leb_spec hi (Z.of_nat (String.length s))); [|lia]. cbn [andb].
  change (Z.to_nat 0) with 0%nat. rewrite Z.sub_0_r.
  destruct (substring_split 0 (Z.to_nat hi) s) as (pre & post & Hs & Hpre & Hlen); [lia|].
  destruct pre; [|done]. rewrite app_nil in Hs.
  exists (substring 0 (Z.to_nat hi) s), post. split; [done|]. split; [done|]. lia.
Qed.

(** X8.  [ShortNote]: a note of at most [maxLength] bytes is returned
    as it is; a longer one is cut to its first [maxLength - 3] bytes
    followed by three dots, [maxLength] bytes in all; and when
    [maxLength] is below 3 and the note is longer than [maxLength], the
    slice bound is negative and the call panics. *)
Theorem ShortNote_spec (maxLength : Z) (cn : CustomerNote.t) :
  let note := CustomerNote.Note cn in
  (GoString.len note <= maxLength -> Note.ShortNote maxLength cn = Some note)
  /\ (3 <= maxLength < GoString.len note -> maxLength < 2^63 ->
      exists head rest,
        note = (head ++ rest)%string
        /\ Note.ShortNote maxLength cn = Some (head ++ "...")%string
        /\ GoString.len (head ++ "...") = maxLength)
  /\ (- 2^63 + 3 <= maxLength < 3 -> maxLength < GoString.len note ->
      Note.ShortNote maxLength cn = None)
  /\ Note.ShortNote 2 (noteWith "abc" "general") = None.
Proof.
  cbv zeta. unfold Note.ShortNote. split; [| split; [| split; [|done]]].
  - intros H. by destruct (Z.leb_spec (GoString.len (CustomerNote.Note cn)) maxLength); [|lia].
  - intros H Hmax.
    destruct (Z.leb_spec (GoString.len (CustomerNote.Note cn)) maxLength); [lia|].
    rewrite wrap_small by lia.
    destruct (slice_prefix (CustomerNote.Note cn) (maxLength - 3)) as (head & rest & -> & Hs & Hl);
      [lia|].
    exists head, rest. split; [done|]. split; [done|].
    unfold GoString.len in *. rewrite length_append. cbn. lia.
  - intros H Hlen.
    destruct (Z.leb_spec (GoString.len (CustomerNote.Note cn)) maxLength); [lia|].
    rewrite wrap_small by lia. unfold GoString.slice.
    destruct (Z.leb_spec 0 (maxLength - 3)); [lia|]. by rewrite andb_false_r.
Qed.

(** X9.  A note made by [NewCustomerNote] passes [Validate] exactly
    when customer id, staff id, staff name and text are non-empty, the
    text has at most 2000 bytes, and the type is empty or one of the six
    note types: an empty type becomes [general] and is never the reason
    of a failure. *)
Theorem new_note_validates (now : Time) (create : CustomerNoteCreate.t) :
  Note.Validate (Note.NewCustomerNote now create) = None <-> noteCreateValid create.
Proof.
  unfold Note.Validate, Note.NewCustomerNote, noteCreateValid. cbn [CustomerNote.CustomerID
    CustomerNote.StaffID CustomerNote.StaffName CustomerNote.Note CustomerNote.Type_].
  destruct (GoString.isEmpty (CustomerNoteCreate.CustomerID create)) eqn:E1.
  { apply isEmpty_spec in E1. split; [done | by intros (H & _)]. }
  destruct (GoString.isEmpty (CustomerNoteCreate.StaffID create)) eqn:E2.
  { apply isEmpty_spec in E2. split; [done | by intros (_ & H & _)]. }
  destruct (GoString.isEmpty (CustomerNoteCreate.StaffName create)) eqn:E3.
  { apply isEmpty_spec in E3. split; [done | by intros (_ & _ & H & _)]. }
  destruct (GoString.isEmpty (CustomerNoteCreate.Note create)) eqn:E4.
  { apply isEmpty_spec in E4. split; [done | by intros (_ & _ & _ & H & _)]. }
  assert (forall s, GoString.isEmpty s = false -> s <> "") as Hne.
  { intros s H Hs. apply isEmpty_spec in Hs. congruence. }
  unfold GoString.len.
  destruct (Z.gtb_spec (Z.of_nat (String.length (CustomerNoteCreate.Note create))) 2000)
    as [Hgt|Hle].
  { split; [done|]. intros (_ & _ & _ & _ & H & _). lia. }
  destruct (GoString.isEmpty (CustomerNoteCreate.Type_ create)) eqn:E5.
  - apply isEmpty_spec in E5. change (Note.isValidNoteType Note.NoteTypeGeneral) with true.
    cbn [negb]. split; [|done]. intros _.
    repeat (split; [by auto|]). split; [lia | by left].
  - destruct (Note.isValidNoteType (CustomerNoteCreate.Type_ create)) eqn:E6; cbn [negb].
    + split; [|done]. intros _. repeat (split; [by auto|]). split; [lia|].
      right. by apply isValidNoteType_iff.
    + split; [done|]. intros (_ & _ & _ & _ & _ & [H|H]).
      * by apply Hne in E5.
      * apply isValidNoteType_iff in H. congruence.
Qed.

End NoteFacts.

(** ** The handler's reading of errors *)

Section ErrorClasses.
Import Handler.

Lemma append_assoc (s1 s2 s3 : string) : ((s1 ++ s2) ++ s3 = s1 ++ (s2 ++ s3))%string.
Proof.
  induction s1 as [|a s1 IH]; [done|]. rewrite !app_cons. by rewrite IH.
Qed.

Lemma append_nil_r (s : string) : (s ++ "")%string = s.
Proof. induction s as [|a s IH]; [done|]. rewrite app_cons. by rewrite IH. Qed.

Lemma findFrom_true (fuel i0 : nat) (s substr : string) :
  findFrom fuel i0 s substr = true
  <-> exists i, (i0 <= i < i0 + fuel)%nat
                /\ String.substring i (String.length substr) s = substr.
Proof.
  revert i0. induction fuel as [|fuel IH]; intros i0; cbn [findFrom].
  - split; [done|]. intros (i & H & _). lia.
  - destruct (String.eqb_spec (substring i0 (String.length substr) s) substr) as [E|E].
    + split; [|done]. intros _. exists i0. split; [lia|done].
    + rewrite IH. split; intros (i & H & Hs).
      * exists i. split; [lia|done].
      * exists i. split; [|done]. destruct (decide (i = i0)) as [->|]; [done|lia].
Qed.

(** The text [substr] stands somewhere in [s]. *)
Lemma containsString_iff (s substr : string) :
  containsString s substr = true
  <-> exists pre post, s = (pre ++ substr ++ post)%string.
Proof.
  unfold containsString, findSubstring, GoString.len. split.
  - rewrite andb_true_iff. intros [Hlen H]. apply Z.geb_le in Hlen.
    apply orb_true_iff in H as [H|H].
    { apply String.eqb_eq in H as ->. exists "", "". by rewrite app_nil, append_nil_r. }
    apply andb_true_iff in H as [Hgt H]. apply Z.gtb_lt in Hgt.
    assert (exists i, (i + String.length substr <= String.length s)%nat
                      /\ substring i (String.length substr) s = substr) as (i & Hi & Hs).
    { rewrite !orb_true_iff in H. destruct H as [[H|H]|H].
      - apply String.eqb_eq in H. exists 0%nat. split; [lia|done].
      - apply String.eqb_eq in H. eexists. split; [|exact H]. lia.
      - apply findFrom_true in H as (i & Hi & H). exists i. split; [lia|done]. }
    destruct (substring_split i (String.length substr) s Hi) as (pre & post & E & _ & _).
    rewrite Hs in E. by exists pre, post.
  - intros (pre & post & ->). rewrite !length_append.
    rewrite andb_true_iff. split; [apply Z.geb_le; lia|].
    destruct (String.eqb_spec (pre ++ substr ++ post) substr) as [E|E]; [done|].
    cbn [orb]. rewrite andb_true_iff. split.
    + apply Z.gtb_lt. destruct pre as [|a pre]; [|cbn [String.length]; lia].
      destruct post as [|b post]; [|cbn [String.length]; lia].
      exfalso. apply E. by rewrite app_nil, append_nil_r.
    + rewrite !orb_true_iff. right. apply findFrom_true.
      exists (String.length pre). split; [lia|]. apply substring_middle.
Qed.

Lemma containsString_prefixed (p s substr : string) :
  containsString s substr = true -> containsString (p ++ s) substr = true.
Proof.
  rewrite !containsString_iff. intros (pre & post & ->).
  exists (p ++ pre)%string, post. by rewrite append_assoc.
Qed.

Lemma containsString_suffix (s substr : string) :
  containsString (s ++ substr) substr = true.
Proof. apply containsString_iff. exists s, "". by rewrite append_nil_r. Qed.

(** X10.  [containsString] is true exactly when [substr] stands
    somewhere in [s], byte for byte; the empty string is contained in
    every string. *)
Theorem containsString_spec (s substr : string) :
  (containsString s substr = true
   <-> exists pre post, s = (pre ++ substr ++ post)%string)
  /\ containsString s "" = true.
Proof.
  split; [apply containsString_iff|].
  apply containsString_iff. by exists "", s.
Qed.

Lemma notFound_text (driver : string) (e : Error) :
  containsString (Error_ driver e) "not found" = true ->
  isNotFoundError driver (Some e) = true.
Proof. intros H. unfold isNotFoundError. rewrite H. by destruct e. Qed.

Lemma isNotFoundError_wrapped (driver msg : string) (e : Error) :
  e <> ErrNoRows ->
  isNotFoundError driver (Some e) = true ->
  isNotFoundError driver (Some (ErrWrap msg e)) = true.
Proof.
  intros Hne H. unfold isNotFoundError in *. cbn [Error_].
  assert (containsString (Error_ driver e) "not found"
          || containsString (Error_ driver e) "does not exist" = true) as H'.
  { by destruct e. }
  apply orb_true_iff in H' as [H'|H']; apply orb_true_iff; [left|right];
    by do 2 apply containsString_prefixed.
Qed.

Lemma isValidationError_wrapped (driver msg : string) (e : Error) :
  isValidationError driver (Some e) = true ->
  isValidationError driver (Some (ErrWrap msg e)) = true.
Proof.
  intros H. unfold isValidationError in *. cbn [Error_].
  do 2 apply containsString_prefixed.
  destruct e; try done. cbn [Error_].
  apply containsString_iff. eexists "", _. by rewrite app_nil.
Qed.

Lemma isDuplicateError_wrapped (driver msg : string) (e : Error) :
  isDuplicateError driver (Some e) = true ->
  isDuplicateError driver (Some (ErrWrap msg e)) = true.
Proof.
  unfold isDuplicateError. cbn [Error_]. rewrite !orb_true_iff.
  intros [[H|H]|H]; [left; left | left; right | right];
    by do 2 apply containsString_prefixed.
Qed.

(** X11.  How the handlers read an error.  The not-found errors of the
    repositories, a validation error of the model and the
    already-exists errors of the services are recognised as such, and
    they stay recognised under any number of [fmt.Errorf("...: %w")]
    wrappings, because the test is on the text.  [sql.ErrNoRows] is
    recognised only bare: once wrapped its text has no [not found] in
    it.  The missing-tenant error reads [tenant ID not found in
    context] and so counts as not found. *)
Theorem error_classes (driver msg what key field text : string) (id : Z) (e : Error) :
  isNotFoundError driver (Some (ErrNotFound what id)) = true
  /\ isNotFoundError driver (Some (ErrNotFoundBy what key)) = true
  /\ isNotFoundError driver (Some ErrTenantMissing) = true
  /\ isValidationError driver (Some (ErrValidation field text)) = true
  /\ isDuplicateError driver (Some (ErrExists what key)) = true
  /\ (e <> ErrNoRows -> isNotFoundError driver (Some e) = true ->
      isNotFoundError driver (Some (ErrWrap msg e)) = true)
  /\ (isValidationError driver (Some e) = true ->
      isValidationError driver (Some (ErrWrap msg e)) = true)
  /\ (isDuplicateError driver (Some e) = true ->
      isDuplicateError driver (Some (ErrWrap msg e)) = true)
  /\ isNotFoundError driver (Some ErrNoRows) = true
  /\ isNotFoundError driver (Some (ErrWrap "failed to get customer" ErrNoRows)) = false
  /\ isNotFoundError driver None = false.
Proof.
  split; [| split; [| split; [done | split; [done | split]]]].
  - apply notFound_text. cbn [Error_]. do 3 apply containsString_prefixed. reflexivity.
  - apply notFound_text. cbn [Error_]. do 3 apply containsString_prefixed. reflexivity.
  - unfold isDuplicateError. cbn [Error_]. rewrite !orb_true_iff. left. left.
    do 3 apply containsString_prefixed. reflexivity.
  - split; [apply isNotFoundError_wrapped|]. split; [apply isValidationError_wrapped|].
    split; [apply isDuplicateError_wrapped|]. split; [done|]. split; [|done].
    by vm_compute.
Qed.

End ErrorClasses.

(** ** Every statement follows the directive *)

Section TraceFacts.
Import Db Postgres Repo.
Local Open Scope db_scope.

Variable t : string.
Variable P : Query -> Prop.

Lemma scoped_app es1 es2 :
  scoped t P es1 -> scoped t P es2 -> scoped t P (es1 ++ es2)%list.
Proof.
  intros H1 H2. induction H1 as [|c s es _ IH|c s c' s' q es Hq _ IH|c s body tail es Hb Ht _ IH].
  - done.
  - cbn. by constructor.
  - cbn. by constructor.
  - cbn. rewrite <- !app_assoc. by constructor.
Qed.

Lemma scopedM_pure {A} (m : M A) : (forall w, snd (m w) = w) -> scopedM t P m.
Proof. intros H w. exists []. rewrite H, app_nil_r. split; [done | constructor]. Qed.

Lemma scopedM_ret {A} (a : A) : scopedM t P (ret a).
Proof. by apply scopedM_pure. Qed.

Lemma scopedM_fail {A} e : scopedM t P (@fail A e).
Proof. by apply scopedM_pure. Qed.

Lemma scopedM_lift {A} (r : Error + A) : scopedM t P (lift r).
Proof. apply scopedM_pure. by destruct r. Qed.

Lemma scopedM_bind {A B} (m : M A) (k : A -> M B) :
  scopedM t P m -> (forall a, scopedM t P (k a)) -> scopedM t P (bind m k).
Proof.
  intros Hm Hk w. unfold bind. destruct (Hm w) as (es1 & Hl1 & Hs1).
  destruct (m w) as [[a|e|] w1]; cbn [snd] in *.
  - destruct (Hk a w1) as (es2 & Hl2 & Hs2). exists (es1 ++ es2)%list.
    split; [by rewrite Hl2, Hl1, <- app_assoc | by apply scoped_app].
  - by exists es1.
  - by exists es1.
Qed.

Lemma scopedM_wrap {A} msg (m : M A) : scopedM t P m -> scopedM t P (wrap msg m).
Proof.
  intros Hm w. unfold wrap. destruct (Hm w) as (es & Hl & Hs).
  exists es. by destruct (m w) as [[a|e|] w1].
Qed.

Lemma scopedM_try {A} (m : M A) : scopedM t P m -> scopedM t P (try m).
Proof.
  intros Hm w. unfold try. destruct (Hm w) as (es & Hl & Hs).
  exists es. by destruct (m w) as [[a|e|] w1].
Qed.

Lemma scopedM_notFoundOr {A} notFound msg (m : M A) :
  scopedM t P m -> scopedM t P (notFoundOr notFound msg m).
Proof.
  intros Hm w. unfold notFoundOr. destruct (Hm w) as (es & Hl & Hs).
  exists es. by destruct (m w) as [[a|[]|] w1].
Qed.

Lemma scopedM_scanRow {A} (shape : Rows -> option (list A)) row :
  scopedM t P (scanRow shape row).
Proof.
  apply scopedM_pure. intros w. unfold scanRow.
  destruct row as [e|r]; [done|]. by destruct (shape r) as [[|a l]|].
Qed.

Lemma scopedM_scanAll {A} (shape : Rows -> option (list A)) r :
  scopedM t P (scanAll shape r).
Proof. apply scopedM_pure. intros w. unfold scanAll. by destruct (shape r). Qed.

Lemma scopedM_affectedOr notFound result : scopedM t P (affectedOr notFound result).
Proof. apply scopedM_pure. intros w. unfold affectedOr. by destruct (_ =? _). Qed.

Lemma scopedM_ExecWithTenant q : P q -> scopedM t P (ExecWithTenant t q).
Proof.
  intros Hq w. eexists. split; [apply ExecWithTenant_trace|].
  unfold directiveEvent, statementEvent.
  destruct (pick_ok (nextPick w)); repeat constructor; done.
Qed.

Lemma scopedM_QueryWithTenant q : P q -> scopedM t P (QueryWithTenant t q).
Proof.
  intros Hq w. eexists. split; [apply QueryWithTenant_trace|].
  unfold directiveEvent, statementEvent.
  destruct (pick_ok (nextPick w)); repeat constructor; done.
Qed.

Lemma scopedM_QueryRowWithTenant q : P q -> scopedM t P (QueryRowWithTenant t q).
Proof.
  intros Hq w. eexists. split; [apply QueryRowWithTenant_trace|].
  unfold directiveEvent, statementEvent. repeat constructor; done.
Qed.

Lemma scopedM_queryCount q msg : P q -> scopedM t P (queryCount t q msg).
Proof.
  intros Hq. unfold queryCount. apply scopedM_wrap, scopedM_bind.
  - by apply scopedM_QueryRowWithTenant.
  - intros row. apply scopedM_scanRow.
Qed.

Lemma scoped_block_tx conn session body tail :
  Forall (isTxStatement conn) body -> txEnd conn tail ->
  scoped t P (EvBegin conn :: EvStmt conn session (SetTenant t) :: body ++ tail).
Proof.
  intros Hb Ht. rewrite <- (app_nil_r tail). apply scoped_tx; [done|done|constructor].
Qed.

Lemma scopedM_TransactionWithTenant p : scopedM t P (TransactionWithTenant t (runTx p)).
Proof.
  intros w. destruct (pick_ok (nextPick w)) eqn:Hok.
  2: { exists []. rewrite app_nil_r. split; [|constructor].
       unfold TransactionWithTenant, BeginTxWithTenant, bind.
       rewrite BeginTx_failed by done. cbn. apply acquired_log. }
  destruct (pick_ok (nextPick (begun w))) eqn:Hok2.
  2: { destruct (BeginTxWithTenant_directive_failed t w Hok Hok2) as (w' & HB & Hl & _).
       exists (abortedTrace t w). unfold TransactionWithTenant, bind. rewrite HB.
       split; [done|]. unfold abortedTrace.
       apply (scoped_block_tx _ _ [] [EvRollback (slot w)]); [constructor|].
       right. by left. }
  destruct (BeginTxWithTenant_ok t w Hok Hok2) as (HB & Hl & Ht & Hh & Hs).
  destruct (runTx_invariant p {| tx_conn := slot w |} (directed t w) _ Hh)
    as (Hheld & es & Hlog & Hes).
  rewrite (TransactionWithTenant_unfold t (runTx p) w _ _ HB).
  destruct (runTx p {| tx_conn := slot w |} (directed t w)) as [[[]|err|] w2];
    cbn [fst snd tx_conn] in *.
  - destruct (Tx_Commit_held {| tx_conn := slot w |} w2 _ Hheld) as (w' & Hl' & _ & Hc).
    exists (openingTrace t w ++ es ++ [EvCommit (slot w)])%list. split.
    + destruct Hc as [(_ & -> & _)|(_ & -> & _)]; cbn [snd];
        by rewrite Hl', Hlog, Hl, <- !app_assoc.
    + unfold openingTrace. cbn [app]. apply scoped_block_tx; [done | by left].
  - destruct (Tx_Rollback_held {| tx_conn := slot w |} w2 _ Hheld) as (w' & HR & Hl' & _).
    rewrite HR. cbn [snd].
    exists (openingTrace t w ++ es ++ [EvRollback (slot w)])%list. split.
    + by rewrite Hl', Hlog, Hl, <- !app_assoc.
    + unfold openingTrace. cbn [app]. apply scoped_block_tx; [done | right; by left].
  - exists (openingTrace t w ++ es ++ [])%list. split.
    + by rewrite Hlog, Hl, app_nil_r, <- !app_assoc.
    + unfold openingTrace. cbn [app]. apply scoped_block_tx; [done | right; by right].
Qed.

End TraceFacts.

Section RepositoryTraces.
Import Db Postgres Repo.
Local Open Scope db_scope.

Lemma scopedM_bind_tenant {A} t P ctx (k : string -> M A) :
  hasTenant ctx t -> scopedM t P (k t) -> scopedM t P (bind (tenantOf ctx) k).
Proof. intros Ht Hk w. unfold bind. rewrite (tenantOf_present _ _ _ Ht). apply Hk. Qed.

Lemma unscoped_bind_tenant {A} ctx (k : string -> M A) w :
  noTenant ctx -> snd (bind (tenantOf ctx) k w) = w.
Proof. intros H. unfold bind. by rewrite (tenantOf_missing _ _ H). Qed.

Create HintDb repo_ops discriminated.

#[local] Hint Unfold
  CustomerRepository.Create CustomerRepository.GetByID CustomerRepository.Update
  CustomerRepository.Delete CustomerRepository.List_ CustomerRepository.Search
  CustomerRepository.getBy CustomerRepository.GetByEmail CustomerRepository.GetByTaxID
  CustomerRepository.ListByType CustomerRepository.ListActive
  CustomerRepository.ListInactive CustomerRepository.Count
  CustomerRepository.CountByType CustomerRepository.CountActive
  CustomerRepository.existsBy CustomerRepository.ExistsByEmail
  CustomerRepository.ExistsByTaxID
  VehicleRepository.Create VehicleRepository.getBy VehicleRepository.GetByID
  VehicleRepository.Update VehicleRepository.Delete VehicleRepository.List_
  VehicleRepository.ListByCustomer VehicleRepository.ListActiveByCustomer
  VehicleRepository.GetByVIN VehicleRepository.GetByLicensePlate
  VehicleRepository.listBy VehicleRepository.SearchByMakeModel
  VehicleRepository.FindCompatibleVehicles VehicleRepository.ListByMakeModelYear
  VehicleRepository.Count VehicleRepository.CountByCustomer
  VehicleRepository.CountActive VehicleRepository.existsBy
  VehicleRepository.ExistsByVIN VehicleRepository.ExistsByLicensePlate
  VehicleRepository.CreateBatch
  CustomerNoteRepository.Create CustomerNoteRepository.GetByID
  CustomerNoteRepository.Delete CustomerNoteRepository.List_
  CustomerNoteRepository.ListByCustomer CustomerNoteRepository.ListByCustomerAndType
  CustomerNoteRepository.ListByStaff CustomerNoteRepository.ListByType
  CustomerNoteRepository.ListRecent CustomerNoteRepository.ListByDateRange
  CustomerNoteRepository.ListRecentByCustomer CustomerNoteRepository.Count
  CustomerNoteRepository.CountByCustomer CustomerNoteRepository.CountByType
  CustomerNoteRepository.CountByStaff CustomerNoteRepository.GetNoteTypesCount
  CustomerNoteRepository.GetMostActiveStaff : repo_ops.

(** One step through the structure of a repository function. *)
Ltac scoped_step Ht :=
  first
    [ apply scopedM_bind_tenant; [exact Ht|]
    | apply scopedM_queryCount; exact I
    | apply scopedM_ExecWithTenant; exact I
    | apply scopedM_QueryWithTenant; exact I
    | apply scopedM_QueryRowWithTenant; exact I
    | apply scopedM_TransactionWithTenant
    | apply scopedM_wrap
    | apply scopedM_try
    | apply scopedM_notFoundOr
    | apply scopedM_ret
    | apply scopedM_fail
    | apply scopedM_lift
    | apply scopedM_scanRow
    | apply scopedM_scanAll
    | apply scopedM_affectedOr
    | apply scopedM_bind; [|intros ?]
    | match goal with
      | |- scopedM _ _ (if ?b then _ else _) => destruct b
      | |- scopedM _ _ (match ?x with _ => _ end) => destruct x
      | |- scopedM _ _ (let _ := _ in _) => cbv zeta
      end ].

Lemma runCall_scoped call ctx t :
  hasTenant ctx t -> scopedM t anyQuery (runCall call ctx).
Proof.
  intros Ht. destruct call; cbn [runCall]; unfold outcome; autounfold with repo_ops;
    repeat scoped_step Ht.
Qed.

Lemma runCall_unscoped call ctx w : noTenant ctx -> snd (runCall call ctx w) = w.
Proof.
  intros H. destruct call; cbn [runCall]; unfold outcome; autounfold with repo_ops;
    try (unfold bind; rewrite ?(tenantOf_missing _ _ H); reflexivity).
  match goal with |- context [(length ?vs =? 0)%nat] => destruct (length vs =? 0)%nat end;
    [done|].
  unfold bind. by rewrite (tenantOf_missing _ _ H).
Qed.

(** X12.  What the repositories send, on any pool and whatever the
    database answers.  The events one operation (any of the 51) adds
    to the trace are a sequence of blocks, each of them the directive
    of the tenant of the context alone (when it failed), that
    directive with one statement right after it, or a transaction that
    opens with that directive on its own connection.  So no statement
    is ever sent that the directive of the caller's tenant does not
    precede, no directive names another tenant, and without a tenant
    nothing is sent. *)
Theorem every_statement_follows_the_directive (call : RepoCall) (ctx : Ctx.Context)
  (w : World) :
  exists es, log (snd (runCall call ctx w)) = (log w ++ es)%list
             /\ scopedFor ctx anyQuery es.
Proof.
  unfold scopedFor. destruct (Ctx.GetTenantID ctx) as [t [|]] eqn:Ht.
  - apply (runCall_scoped call ctx t Ht w).
  - exists []. rewrite app_nil_r. split; [|done].
    rewrite runCall_unscoped; [done|]. unfold noTenant. by rewrite Ht.
Qed.

End RepositoryTraces.

(** ** The tenant in the context *)

Section ContextFacts.

(** X13.  The tenant helpers of the context.  [WithTenantID] (and
    [WithTenantContext]) followed by [GetTenantID] gives the tenant
    back, whatever the context held before: the innermost value wins.
    Values under other keys do not disturb it.  [Background] has no
    tenant.  A value under the tenant key that is not a string hides a
    tenant attached further out, and the empty string is a tenant like
    any other. *)
Theorem tenant_round_trip (ctx : Ctx.Context) (t name : string) (v : Ctx.Value) :
  Ctx.GetTenantID (Ctx.WithTenantID ctx t) = (t, true)
  /\ Ctx.GetTenantIDFromContext (Ctx.WithTenantContext ctx t) = inr t
  /\ Ctx.GetTenantID (Ctx.WithValue ctx (Ctx.OtherKey name) v) = Ctx.GetTenantID ctx
  /\ Ctx.GetTenantIDFromContext Ctx.Background = inl ErrTenantMissing
  /\ Ctx.GetTenantIDFromContext (Ctx.WithValue (Ctx.WithTenantID ctx t) Ctx.TenantIDKey Ctx.VOther)
     = inl ErrTenantMissing
  /\ Ctx.GetTenantIDFromContext (Ctx.WithTenantID ctx "") = inr "".
Proof. by repeat split. Qed.

(** X14.  Behind [TenantInterceptor] the rest of the call always finds
    a tenant: either the request is refused with [InvalidArgument]
    (no metadata, no [x-tenant-id] value, or an empty first value), or
    the handler runs in a context whose tenant is the first
    [x-tenant-id] value, which is not empty, also when the incoming
    context already carried another tenant. *)
Theorem interceptor_attaches_the_tenant (md : option Middleware.MD) (ctx : Ctx.Context) :
  match Middleware.TenantInterceptor md ctx Ctx.GetTenantIDFromContext with
  | inl status => status = (Handler.InvalidArgument, "tenant_id is required")
                  /\ forall R (handler : Ctx.Context -> R),
                       Middleware.TenantInterceptor md ctx handler = inl status
  | inr found =>
      exists t values m,
        md = Some m /\ m !! "x-tenant-id" = Some (t :: values) /\ t <> ""
        /\ found = inr t
        /\ forall R (handler : Ctx.Context -> R),
             Middleware.TenantInterceptor md ctx handler
             = inr (handler (Ctx.WithTenantID ctx t))
  end.
Proof.
  unfold Middleware.TenantInterceptor, Middleware.Get.
  destruct md as [m|]; [|done].
  destruct (m !! "x-tenant-id") as [[|t values]|] eqn:E; [done| |done].
  destruct (GoString.isEmpty t) eqn:Et; [done|].
  exists t, values, m. repeat split; try done.
  intros H. apply isEmpty_spec in H. congruence.
Qed.

End ContextFacts.

(** ** From the repository to the status of the call *)

Section StatusFacts.
Import Db Postgres Repo Handler.
Local Open Scope db_scope.

Lemma GetByID_without_tenant ctx id w :
  noTenant ctx -> CustomerRepository.GetByID ctx id w = (Fail ErrTenantMissing, w).
Proof.
  intros H. unfold CustomerRepository.GetByID, bind. by rewrite (tenantOf_missing _ _ H).
Qed.

(** X15.  A call that reaches the customer service without a tenant in
    its context is answered [NotFound], "customer not found": the
    repository returns the missing-tenant error before any statement,
    the service wraps it, and the handlers of [DeleteCustomer] and
    [UpdateCustomer] read the words [not found] in its text, [tenant ID
    not found in context]. *)
Theorem missing_tenant_reads_not_found (driver : string) (now : Time) (ctx : Ctx.Context)
  (id : Z) (update : CustomerUpdate.t Z) (w : World) :
  noTenant ctx ->
  (exists err, CustomerService.DeleteCustomer now ctx id w = (Fail err, w)
               /\ DeleteCustomer_status driver err = (NotFound, "customer not found"))
  /\ (exists err, CustomerService.UpdateCustomer now ctx update w = (Fail err, w)
                  /\ UpdateCustomer_status driver err = (NotFound, "customer not found")).
Proof.
  intros H. split.
  - eexists. split.
    + unfold CustomerService.DeleteCustomer, bind, wrap.
      by rewrite (GetByID_without_tenant _ _ _ H).
    + reflexivity.
  - eexists. split.
    + unfold CustomerService.UpdateCustomer, bind, wrap.
      by rewrite (GetByID_without_tenant _ _ _ H).
    + reflexivity.
Qed.

Lemma missing_tenant_reads_not_found_witness :
  exists err,
    CustomerService.DeleteCustomer 200 Ctx.Background 7 oneConnection = (Fail err, oneConnection)
    /\ DeleteCustomer_status "" err = (NotFound, "customer not found").
Proof.
  exact (proj1 (missing_tenant_reads_not_found "" 200 Ctx.Background 7
                  {| CustomerUpdate.ID := 7; CustomerUpdate.FirstName := None;
                     CustomerUpdate.LastName := None; CustomerUpdate.Email := None;
                     CustomerUpdate.Phone := None; CustomerUpdate.CustomerType := None;
                     CustomerUpdate.CompanyName := None; CustomerUpdate.TaxID := None;
                     CustomerUpdate.Address := None; CustomerUpdate.Birthday := None;
                     CustomerUpdate.Notes := None; CustomerUpdate.Preferences := None;
                     CustomerUpdate.IsActive := None |} oneConnection eq_refl)).
Defined.

(** X16.  A customer that fails [Validate] reaches the client as
    [InvalidArgument], through [CreateCustomer] and through
    [UpdateCustomer] alike: the service wraps the error in [validation
    error: ...], and none of the five messages of [Validate] holds
    [not found] or [does not exist], which [UpdateCustomer] looks for
    first. *)
Theorem validation_reads_invalid_argument {K} (driver : string) (c : Customer.t K)
  (err : Error) :
  Customer.Validate c = Some err ->
  fst (CreateCustomer_status driver (ErrWrap "validation error" err)) = InvalidArgument
  /\ fst (UpdateCustomer_status driver (ErrWrap "validation error" err)) = InvalidArgument.
Proof.
  unfold Customer.Validate. intros H.
  repeat match type of H with
         | (if ?b then _ else _) = _ => destruct b
         | match ?x with _ => _ end = _ => destruct x
         end;
    try discriminate; injection H as <-; split; reflexivity.
Qed.

Lemma validation_reads_invalid_argument_witness :
  fst (UpdateCustomer_status "" (ErrWrap "validation error"
                                   (ErrValidation "first_name" "el nombre es requerido")))
  = InvalidArgument.
Proof.
  exact (proj2 (validation_reads_invalid_argument ""
                  (namedCustomer "individual" "" "Diaz" None) _ eq_refl)).
Defined.

End StatusFacts.

(** ** The customer service on any pool *)

Section Inversion.
Import Db Postgres Repo.
Local Open Scope db_scope.

Lemma bind_Ok {A B} (m : M A) (k : A -> M B) w b w' :
  bind m k w = (Ok b, w') -> exists a w1, m w = (Ok a, w1) /\ k a w1 = (Ok b, w').
Proof.
  unfold bind. destruct (m w) as [[a|e|] w1]; [|done|done]. intros H. by exists a, w1.
Qed.

Lemma wrap_Ok {A} msg (m : M A) w a w' : wrap msg m w = (Ok a, w') -> m w = (Ok a, w').
Proof. unfold wrap. by destruct (m w) as [[a0|e|] w1]. Qed.

Lemma tenantOf_Ok ctx w t w1 : tenantOf ctx w = (Ok t, w1) -> hasTenant ctx t /\ w1 = w.
Proof.
  unfold tenantOf, Ctx.GetTenantIDFromContext, hasTenant.
  destruct (Ctx.GetTenantID ctx) as [t0 [|]]; cbn; [|done]. by intros [= -> ->].
Qed.

Lemma Create_Ok ctx customer w c w' :
  CustomerRepository.Create ctx customer w = (Ok c, w') ->
  exists t r, hasTenant ctx t /\ c = CustomerRepository.created t r customer.
Proof.
  unfold CustomerRepository.Create. intros H.
  apply bind_Ok in H as (t & w1 & Ht & H). apply tenantOf_Ok in Ht as [Ht ->].
  apply bind_Ok in H as (r & w2 & _ & H). injection H as <- _. by exists t, r.
Qed.

End Inversion.

(** One step through the structure of a service or repository
    function; [obligation] settles what is asked of a statement. *)
Ltac scoped_through obligation Ht :=
  first
    [ apply scopedM_bind_tenant; [exact Ht|]
    | apply scopedM_queryCount; obligation
    | apply scopedM_ExecWithTenant; obligation
    | apply scopedM_QueryWithTenant; obligation
    | apply scopedM_QueryRowWithTenant; obligation
    | apply scopedM_TransactionWithTenant
    | apply scopedM_wrap
    | apply scopedM_try
    | apply scopedM_notFoundOr
    | apply scopedM_ret
    | apply scopedM_fail
    | apply scopedM_lift
    | apply scopedM_scanRow
    | apply scopedM_scanAll
    | apply scopedM_affectedOr
    | apply scopedM_bind; [|intros ?]
    | match goal with
      | |- scopedM _ _ (if ?b then _ else _) => destruct b
      | |- scopedM _ _ (let _ := _ in _) => cbv zeta
      end ].

Section CustomerServiceFacts.
Import Db Postgres Repo.
Local Open Scope db_scope.

(** X17.  [CreateCustomer].  When the new customer fails [Validate],
    the call returns that error wrapped in [validation error] and
    nothing is sent, with or without a tenant.  When the call succeeds,
    the customer it returns passed [Validate], is active, and belongs
    to the tenant of the context: the [TenantID] of the create data is
    never stored nor returned. *)
Theorem CreateCustomer_outcomes (now : Time) (ctx : Ctx.Context)
  (create : CustomerCreate.t) (w : World) :
  (forall err, Customer.Validate (Customer.NewCustomer now 0 create) = Some err ->
               CustomerService.CreateCustomer now ctx create w
               = (Fail (ErrWrap "validation error" err), w))
  /\ (forall c w', CustomerService.CreateCustomer now ctx create w = (Ok c, w') ->
        Customer.Validate c = None
        /\ Customer.IsActive c = true
        /\ hasTenant ctx (Customer.TenantID c)
        /\ exists r, c = CustomerRepository.created (Customer.TenantID c) r
                           (Customer.NewCustomer now 0 create)).
Proof.
  unfold CustomerService.CreateCustomer. split.
  - by intros err ->.
  - intros c w' H.
    destruct (Customer.Validate (Customer.NewCustomer now 0 create)) as [err|] eqn:Hv;
      [done|].
    apply bind_Ok in H as (_ & w1 & _ & H). apply bind_Ok in H as (_ & w2 & _ & H).
    apply wrap_Ok, Create_Ok in H as (t & r & Ht & ->).
    split; [exact Hv | split; [done | split; [exact Ht | by exists r]]].
Qed.




End CustomerServiceFacts.

(** ** The customer service on a steady pool *)

Section SteadyService.
Import Db Postgres Repo.
Local Open Scope db_scope.

Lemma steady_queryCount k t q msg w n :
  steady k w ->
  rowsOf (fst (evalIn t q w)) = inr (RCount n) ->
  exists w1, queryCount t q msg w = (Ok n, w1) /\ after k t q w w1.
Proof.
  intros Hst Hr.
  destruct (steady_QueryRowWithTenant k t q w Hst) as (w1 & H1 & Ha).
  exists w1. split; [|done].
  unfold queryCount, wrap, bind. by rewrite H1, Hr.
Qed.

Lemma after_log k t q w w1 :
  after k t q w w1 -> log w1 = (log w ++ callEvents k (sessionOf k w) t q)%list.
Proof. by intros (_ & _ & _ & _ & _ & _ & H). Qed.

(** X19.  A duplicate email stops [CreateCustomer] before the
    [INSERT].  On a steady pool, for a new customer that passes
    [Validate] and has a non-empty email: when the database counts one
    or more customers with that email, the call fails with [customer
    with email ... already exists], which the handlers read as a
    duplicate, and the count is the only statement it has sent. *)
Theorem duplicate_email_stops_create (k : nat) (driver : string) (now : Time)
  (ctx : Ctx.Context) (t email : string) (create : CustomerCreate.t) (n : Z) (w : World) :
  steady k w -> hasTenant ctx t ->
  Customer.Validate (Customer.NewCustomer now 0 create) = None ->
  CustomerCreate.Email create = Some email -> email <> "" ->
  pick_rows (sched w (S (clock w))) = RCount n -> 0 < n ->
  exists w1,
    CustomerService.CreateCustomer now ctx create w
    = (Fail (ErrExists "customer with email" email), w1)
    /\ log w1 = (log w ++ callEvents k (sessionOf k w) t
                            (QOther "SELECT COUNT FROM customers WHERE email = $1" []))%list
    /\ tables w1 = tables w
    /\ Handler.isDuplicateError driver (Some (ErrExists "customer with email" email)) = true.
Proof.
  intros Hst Ht Hv He Hne Hrows Hn.
  unfold CustomerService.CreateCustomer. rewrite Hv.
  change (Customer.Email (Customer.NewCustomer now 0 create))
    with (CustomerCreate.Email create). rewrite He.
  assert (GoString.isEmpty email = false) as ->.
  { destruct (GoString.isEmpty email) eqn:E; [|done]. by apply isEmpty_spec in E. }
  cbn [negb].
  destruct (steady_queryCount k t (QOther "SELECT COUNT FROM customers WHERE email = $1" [])
              "failed to check email existence" w n Hst) as (w1 & H1 & Ha).
  { unfold evalIn. cbn. by rewrite Hrows. }
  exists w1. split; [| split; [by apply after_log | split]].
  - unfold bind at 1. unfold bind at 1. unfold wrap.
    unfold CustomerRepository.ExistsByEmail, CustomerRepository.existsBy, bind.
    rewrite (tenantOf_present _ _ _ Ht), H1. cbn [ret].
    by destruct (Z.gtb_spec n 0); [|lia].
  - by destruct Ha as (_ & -> & _).
  - unfold Handler.isDuplicateError. cbn [Error_]. rewrite !orb_true_iff. left. left.
    do 3 apply containsString_prefixed. reflexivity.
Qed.

Lemma duplicate_email_stops_create_witness :
  exists w1,
    CustomerService.CreateCustomer 200 tenantA (createData "Ana" (Some "ana@example.com"))
      (answering (RCount 1))
    = (Fail (ErrExists "customer with email" "ana@example.com"), w1)
    /\ log w1 = [EvStmt 0 None (SetTenant "tenant-a");
                 EvStmt 0 (Some "tenant-a")
                   (Sql (QOther "SELECT COUNT FROM customers WHERE email = $1" []))].
Proof.
  destruct (duplicate_email_stops_create 0 "" 200 tenantA "tenant-a" "ana@example.com"
              (createData "Ana" (Some "ana@example.com")) 1 (answering (RCount 1)))
    as (w1 & H & Hl & _).
  - split; [done|]. split; [cbn; lia | done].
  - reflexivity.
  - reflexivity.
  - reflexivity.
  - done.
  - reflexivity.
  - lia.
  - exists w1. split; [exact H | exact Hl].
Defined.

Lemma steady_set_flag k now active msg1 msg2 ctx t id row rest w :
  steady k w -> hasTenant ctx t ->
  customerRows t id (tables w) = row :: rest ->
  exists w1,
    bind (wrap msg1 (CustomerRepository.GetByID ctx id))
         (fun customer =>
            wrap msg2 (CustomerRepository.Update ctx (Customer.setActive now active customer))) w
    = (Ok tt, w1)
    /\ steady k w1
    /\ log w1 = (log w ++ flagTrace k (sessionOf k w) t id now active row)%list
    /\ vehicles (tables w1) = vehicles (tables w)
    /\ exists row' rest',
         customerRows t id (tables w1) = row' :: rest'
         /\ Customer.IsActive row' = active
         /\ Customer.UpdatedAt row' = now
         /\ Customer.FirstName row' = Customer.FirstName row
         /\ Customer.LastName row' = Customer.LastName row
         /\ Customer.Email row' = Customer.Email row.
Proof.
  intros Hst Ht Hrow.
  destruct (customerRows_head _ _ _ _ _ Hrow) as [Hrid Hrt].
  destruct (steady_GetByID k ctx t id w Hst Ht)
    as (w1 & G1 & Hst1 & Ht1 & He1 & _ & _ & Hs1 & Hl1).
  rewrite Hrow in G1. cbn [evalIn eval snd] in Ht1.
  set (c := Customer.setActive now active (CustomerRepository.scanCustomer row)).
  destruct (steady_Update k ctx t c w1 Hst1 Ht)
    as (w2 & G2 & Hst2 & Ht2 & He2 & _ & _ & Hs2 & Hl2).
  change (Customer.ID c) with (Customer.ID row) in G2.
  rewrite Hrid, Ht1, Hrow in G2.
  exists w2. unfold bind, wrap. rewrite G1. fold c. rewrite G2.
  split; [done|]. split; [done|]. split; [| split].
  - rewrite Hl2, Hl1, Hs1. unfold flagTrace, flagUpdate. by rewrite <- app_assoc.
  - rewrite Ht2. unfold evalIn. cbn [eval snd withCustomers vehicles]. by rewrite Ht1.
  - pose proof (customerRows_updated (engine w1)
                  (pick_rows (sched w1 (S (clock w1))), pick_affected (sched w1 (S (clock w1))))
                  t (CustomerRepository.updateArgs c) (tables w1) row rest) as Hu.
    change (a_id (CustomerRepository.updateArgs c)) with (Customer.ID row) in Hu.
    rewrite Hrid, Ht1 in Hu. specialize (Hu Hrow).
    rewrite Ht2. unfold evalIn. rewrite Ht1, Hu.
    eexists _, _. split; [reflexivity|]. cbn.
    split; [done|]. split; [done|]. split; [done|]. split; [done|].
    by destruct (Customer.Email row).
Qed.

(** X20.  [DeactivateCustomer] and [ActivateCustomer] on a customer
    the tenant can see, on a steady pool: both succeed;
    [DeactivateCustomer] is a lookup by id and one [UPDATE]; after it
    the stored row is inactive, after [ActivateCustomer] it is active
    again, with
    [UpdatedAt] the instant of the last call and names and email as
    they were. *)
Theorem deactivate_then_activate (k : nat) (now later : Time) (ctx : Ctx.Context)
  (t : string) (id : Z) (row : Customer.t Z) (rest : list (Customer.t Z)) (w : World) :
  steady k w -> hasTenant ctx t ->
  customerRows t id (tables w) = row :: rest ->
  exists w1 w2 off on_,
    CustomerService.DeactivateCustomer now ctx id w = (Ok tt, w1)
    /\ log w1 = (log w ++ flagTrace k (sessionOf k w) t id now false row)%list
    /\ fst (CustomerRepository.GetByID ctx id w1) = Ok off
    /\ Customer.IsActive off = false /\ Customer.UpdatedAt off = now
    /\ CustomerService.ActivateCustomer later ctx id w1 = (Ok tt, w2)
    /\ fst (CustomerRepository.GetByID ctx id w2) = Ok on_
    /\ Customer.IsActive on_ = true /\ Customer.UpdatedAt on_ = later
    /\ Customer.FirstName on_ = Customer.FirstName row
    /\ Customer.LastName on_ = Customer.LastName row
    /\ Customer.Email on_ = Customer.Email row.
Proof.
  intros Hst Ht Hrow.
  destruct (steady_set_flag k now false "failed to get customer" "failed to deactivate customer"
              ctx t id row rest w Hst Ht Hrow)
    as (w1 & G1 & Hst1 & Hl1 & _ & row1 & rest1 & Hrow1 & Ha1 & Hu1 & Hf1 & Hn1 & He1).
  destruct (steady_set_flag k later true "failed to get customer" "failed to activate customer"
              ctx t id row1 rest1 w1 Hst1 Ht Hrow1)
    as (w2 & G2 & Hst2 & Hl2 & _ & row2 & rest2 & Hrow2 & Ha2 & Hu2 & Hf2 & Hn2 & He2).
  destruct (steady_GetByID k ctx t id w1 Hst1 Ht) as (w1' & R1 & _).
  destruct (steady_GetByID k ctx t id w2 Hst2 Ht) as (w2' & R2 & _).
  rewrite Hrow1 in R1. rewrite Hrow2 in R2.
  exists w1, w2, (CustomerRepository.scanCustomer row1), (CustomerRepository.scanCustomer row2).
  split; [exact G1|]. split; [exact Hl1|]. split; [by rewrite R1|].
  split; [exact Ha1|]. split; [exact Hu1|]. split; [exact G2|]. split; [by rewrite R2|].
  split; [exact Ha2|]. split; [exact Hu2|].
  split; [by rewrite <- Hf1, <- Hf2|]. split; [by rewrite <- Hn1, <- Hn2|].
  cbn. rewrite He2, He1. by destruct (Customer.Email row).
Qed.

Lemma deactivate_then_activate_witness :
  exists w1 w2 on_,
    CustomerService.DeactivateCustomer 200 tenantA 7 oneConnection = (Ok tt, w1)
    /\ CustomerService.ActivateCustomer 300 tenantA 7 w1 = (Ok tt, w2)
    /\ fst (CustomerRepository.GetByID tenantA 7 w2) = Ok on_
    /\ Customer.IsActive on_ = true /\ Customer.UpdatedAt on_ = 300.
Proof.
  destruct (deactivate_then_activate 0 200 300 tenantA "tenant-a" 7
              (sampleCustomer 7 "tenant-a") [] oneConnection)
    as (w1 & w2 & off & on_ & H1 & _ & _ & _ & _ & H2 & H3 & H4 & H5 & _).
  - split; [done|]. split; [cbn; lia | done].
  - reflexivity.
  - reflexivity.
  - by exists w1, w2, on_.
Defined.

End SteadyService.

(** ** Searching customers *)

Section SearchFacts.
Import Db Postgres Repo.
Local Open Scope db_scope.

Lemma knownSearchField_iff field :
  CustomerRepository.knownSearchField field = true <-> field ∈ searchable.
Proof.
  unfold CustomerRepository.knownSearchField, searchable.
  rewrite !orb_true_iff, !String.eqb_eq, !elem_of_cons, elem_of_nil. tauto.
Qed.

Lemma no_known_field fields :
  Forall (fun field => field ∉ searchable) fields ->
  existsb CustomerRepository.knownSearchField fields = false.
Proof.
  induction 1 as [|f l Hf _ IH]; [done|]. cbn [existsb]. rewrite IH, orb_false_r.
  destruct (CustomerRepository.knownSearchField f) eqn:E; [|done].
  by apply knownSearchField_iff in E.
Qed.

Lemma Search_emits ctx t filter w :
  hasTenant ctx t -> ~ nothingToSearch filter ->
  emits (CustomerRepository.Search ctx filter) w
    (directiveEvent t w ::
     if pick_ok (nextPick w)
     then [statementEvent t
             (searchStatement (if 0 <? CustomerSearchFilter.Limit filter
                               then CustomerSearchFilter.Limit filter else 20)) w]
     else []).
Proof.
  intros Ht Hn. unfold emits, CustomerRepository.Search.
  unfold bind at 1. rewrite (tenantOf_present _ _ _ Ht).
  destruct (GoString.isEmpty (CustomerSearchFilter.Query filter)) eqn:Eq.
  { exfalso. apply Hn. left. by apply isEmpty_spec. }
  cbv zeta.
  assert (existsb CustomerRepository.knownSearchField
            match CustomerSearchFilter.SearchFields filter with
            | [] => ["name"; "email"; "phone"; "tax_id"]
            | _ :: _ => CustomerSearchFilter.SearchFields filter
            end = true) as Hk.
  { destruct (CustomerSearchFilter.SearchFields filter) as [|f l] eqn:Ef; [done|].
    destruct (existsb _ _) eqn:Ex; [done|]. exfalso. apply Hn. right.
    split; [by rewrite Ef|]. rewrite Ef. apply Forall_forall. intros x Hx Hs.
    apply knownSearchField_iff in Hs.
    assert (existsb CustomerRepository.knownSearchField (f :: l) = true); [|congruence].
    apply existsb_exists. exists x. split; [by apply list_elem_of_In | done]. }
  destruct (CustomerSearchFilter.SearchFields filter) as [|f l] eqn:Ef;
    rewrite Hk; cbn [negb].
  all: assert ((if CustomerSearchFilter.Limit filter <=? 0 then 20
                else CustomerSearchFilter.Limit filter)
               = (if 0 <? CustomerSearchFilter.Limit filter
                  then CustomerSearchFilter.Limit filter else 20)) as ->
      by (destruct (Z.leb_spec (CustomerSearchFilter.Limit filter) 0),
                   (Z.ltb_spec 0 (CustomerSearchFilter.Limit filter)); lia).
  all: pose proof (QueryWithTenant_trace t
                     (searchStatement (if 0 <? CustomerSearchFilter.Limit filter
                                       then CustomerSearchFilter.Limit filter else 20)) w)
         as Htr; unfold emits in Htr; rewrite <- Htr; unfold searchStatement.
  all: unfold bind, wrap; destruct (QueryWithTenant _ _ w) as [[r|e|] w1]; cbn [snd];
    try done; unfold scanAll; by destruct (asCustomers r).
Qed.

(** X21.  A search with nothing to look for sends nothing.  The
    service answers an empty query with an empty list before it
    reaches the repository, so also without a tenant; the repository,
    given a tenant, answers an empty query, or a list of fields none of
    which it knows, with an empty list and no statement.  Otherwise it
    sends one statement after the directive, with [LIMIT] the filter's
    limit if positive and 20 if not. *)
Theorem search_with_nothing_to_look_for (ctx : Ctx.Context) (t : string)
  (filter : CustomerSearchFilter.t) (w : World) :
  (CustomerSearchFilter.Query filter = "" ->
   CustomerService.SearchCustomers ctx filter w = (Ok [], w))
  /\ (hasTenant ctx t -> nothingToSearch filter ->
      CustomerRepository.Search ctx filter w = (Ok [], w))
  /\ (hasTenant ctx t -> ~ nothingToSearch filter ->
      emits (CustomerRepository.Search ctx filter) w
        (directiveEvent t w ::
         if pick_ok (nextPick w)
         then [statementEvent t
                 (searchStatement (if 0 <? CustomerSearchFilter.Limit filter
                                   then CustomerSearchFilter.Limit filter else 20)) w]
         else [])).
Proof.
  split; [| split].
  - intros Hq. unfold CustomerService.SearchCustomers. by rewrite Hq.
  - intros Ht Hn. unfold CustomerRepository.Search, bind.
    rewrite (tenantOf_present _ _ _ Ht).
    destruct (GoString.isEmpty (CustomerSearchFilter.Query filter)) eqn:Eq; [done|].
    destruct Hn as [Hq|[Hne Hall]].
    { apply isEmpty_spec in Hq. congruence. }
    cbv zeta. destruct (CustomerSearchFilter.SearchFields filter) as [|f l]; [done|].
    by rewrite (no_known_field _ Hall).
  - intros Ht Hn. by apply Search_emits.
Qed.

End SearchFacts.

(** ** The list handler *)

Section ListHandlerFacts.
Import Db Postgres Repo.
Local Open Scope db_scope.






End ListHandlerFacts.

(** ** The vehicle handler *)

Section VehicleHandlerFacts.
Import Db Postgres Repo.

Lemma stringPtrFromProto_cases (s : string) :
  (s = "" /\ Handler.stringPtrFromProto s = None)
  \/ (s <> "" /\ Handler.stringPtrFromProto s = Some s).
Proof. destruct s; [by left | by right]. Qed.

(** X23.  A request that gets through the checks of the handler's
    [CreateVehicle] gives a vehicle that passes every check of
    [Vehicle.Validate] but, possibly, the one on the VIN: the customer
    id is positive, make and model are there, and the year is in range.
    The handler is stricter on the year than the model: it wants a year
    above 1900, where [Validate] accepts 1900 itself.  What is left to
    the service is the VIN: the two validations pass exactly when the
    request's VIN is empty (it is then passed as [nil]) or has 17
    bytes, none of them I, O or Q. *)
Theorem CreateVehicle_checks (now : Time) (req : CreateVehicleRequest.t)
  (create : VehicleCreate.t Z) :
  VehicleHandler.CreateVehicle_decode req = inr create ->
  let v := Vehicle.NewVehicle now 0 create in
  vehicleBasicsValid v
  /\ 1900 < Vehicle.Year v
  /\ Vehicle.VIN v = Handler.stringPtrFromProto (CreateVehicleRequest.Vin req)
  /\ (Vehicle.Validate v = None /\ Vehicle.ValidateVIN v = None
      <-> CreateVehicleRequest.Vin req = ""
          \/ (String.length (CreateVehicleRequest.Vin req) = 17%nat
              /\ ~ hasIOQ (CreateVehicleRequest.Vin req))).
Proof.
  unfold VehicleHandler.CreateVehicle_decode. intros H. cbv zeta.
  destruct (Z.leb_spec (CreateVehicleRequest.CustomerId req) 0) as [|Hid]; [done|].
  destruct (GoString.isEmpty (CreateVehicleRequest.Make req)) eqn:Hmk; [done|].
  destruct (GoString.isEmpty (CreateVehicleRequest.Model req)) eqn:Hmd; [done|].
  destruct (Z.leb_spec (CreateVehicleRequest.Year req) 1900) as [|Hy1]; [done|].
  destruct (Z.gtb_spec (CreateVehicleRequest.Year req) 2100) as [|Hy2]; [done|].
  cbn [orb] in H. injection H as <-.
  assert (vehicleBasicsValid
            (Vehicle.NewVehicle now 0
               {| VehicleCreate.CustomerID := CreateVehicleRequest.CustomerId req;
                  VehicleCreate.Make := CreateVehicleRequest.Make req;
                  VehicleCreate.Model := CreateVehicleRequest.Model req;
                  VehicleCreate.Year := CreateVehicleRequest.Year req;
                  VehicleCreate.VIN := Handler.stringPtrFromProto (CreateVehicleRequest.Vin req);
                  VehicleCreate.LicensePlate :=
                    Handler.stringPtrFromProto (CreateVehicleRequest.LicensePlate req);
                  VehicleCreate.Color :=
                    Handler.stringPtrFromProto (CreateVehicleRequest.Color req);
                  VehicleCreate.Engine :=
                    Handler.stringPtrFromProto (CreateVehicleRequest.Engine req);
                  VehicleCreate.Notes :=
                    Handler.stringPtrFromProto (CreateVehicleRequest.Notes req);
                  VehicleCreate.Metadata := match CreateVehicleRequest.Metadata req with
                                            | Some m => Some m
                                            | None => Some ∅
                                            end |})) as Hb.
  { unfold vehicleBasicsValid. cbn. split; [lia|]. split; [|split; [|lia]].
    - intros E. rewrite E in Hmk. done.
    - intros E. rewrite E in Hmd. done. }
  split; [exact Hb|]. split; [cbn; lia|]. split; [done|].
  rewrite Validate_None_iff, ValidateVIN_None_iff. cbn [Vehicle.NewVehicle Vehicle.VIN
    VehicleCreate.VIN vinAcceptable].
  destruct (stringPtrFromProto_cases (CreateVehicleRequest.Vin req)) as [[E ->]|[E ->]].
  - split; [by left | done].
  - split.
    + intros ((_ & _) & [?|?]); [done | by right].
    + intros [?|[Hlen Hq]]; [done|]. split; [split; [done | by right] | by right].
Qed.

Lemma CreateVehicle_checks_witness :
  exists create,
    VehicleHandler.CreateVehicle_decode (vehicleRequest 1901 "") = inr create
    /\ Vehicle.Validate (Vehicle.NewVehicle 200 0 create) = None
    /\ VehicleHandler.CreateVehicle_decode (vehicleRequest 1900 "")
       = inl (Handler.InvalidArgument, "year must be between 1900 and 2100").
Proof.
  eexists. split; [reflexivity|]. split; [|reflexivity].
  destruct (CreateVehicle_checks 200 (vehicleRequest 1901 "") _ eq_refl) as (_ & _ & _ & Hv).
  apply Hv. by left.
Defined.

End VehicleHandlerFacts.

(** ** Optional strings on the wire *)

Section ProtoFacts.

(** X24.  Optional strings between the model and the messages.  A
    message has no [nil]: [customerToProto] writes a [nil] field as the
    empty string, and [stringPtrFromProto] reads the empty string as
    [nil].  Reading back what was written therefore gives the field
    again exactly when it was not a pointer to the empty string; for
    email and phone what survives is what [HasEmail] and [HasPhone]
    report.  In the other direction nothing is lost. *)
Theorem optional_strings_on_the_wire (c : Customer.t Z) (p : option string) (s : string) :
  (Handler.stringPtrFromProto (CustomerHandler.fromPtr p) = p <-> p <> Some "")
  /\ CustomerHandler.fromPtr (Handler.stringPtrFromProto s) = s
  /\ Handler.stringPtrFromProto (PbCustomer.Email (CustomerHandler.customerToProto c))
     = (if Customer.HasEmail c then Customer.Email c else None)
  /\ Handler.stringPtrFromProto (PbCustomer.Phone (CustomerHandler.customerToProto c))
     = (if Customer.HasPhone c then Customer.Phone c else None).
Proof.
  split; [| split; [| split]].
  - destruct p as [[|a s']|]; cbn; split; done.
  - by destruct s.
  - unfold Customer.HasEmail. cbn. by destruct (Customer.Email c) as [[|a s']|].
  - unfold Customer.HasPhone. cbn. by destruct (Customer.Phone c) as [[|a s']|].
Qed.

End ProtoFacts.

(** ** The vehicle service *)

Section VehicleServiceFacts.
Import Db Postgres Repo.
Local Open Scope db_scope.

Lemma scopedM_bind_fail {A B} t P e (k : A -> M B) : scopedM t P (bind (fail e) k).
Proof. intros w. exists []. rewrite app_nil_r. split; [done | constructor]. Qed.

Lemma CreateVehicle_scoped now ctx create t :
  hasTenant ctx t ->
  scopedM t (fun q => isLookup q \/ vehicleValid (Vehicle.NewVehicle now 0 create))
    (VehicleService.CreateVehicle now ctx create).
Proof.
  intros Ht. unfold VehicleService.CreateVehicle.
  apply scopedM_bind.
  { unfold CustomerRepository.GetByID.
    repeat scoped_through ltac:(left; by eexists) Ht. }
  intros _. cbv zeta. unfold VehicleService.validate.
  destruct (Vehicle.Validate _) as [err|] eqn:Hv; [apply scopedM_bind_fail|].
  destruct (Vehicle.ValidateVIN _) as [err|] eqn:Hvin; [apply scopedM_bind_fail|].
  assert (Hok : vehicleValid (Vehicle.NewVehicle now 0 create)) by done.
  apply scopedM_bind; [apply scopedM_ret|]. intros _.
  unfold VehicleService.unique, VehicleRepository.ExistsByVIN,
    VehicleRepository.ExistsByLicensePlate, VehicleRepository.existsBy,
    VehicleRepository.Create.
  repeat first [ scoped_through ltac:(by right) Ht
               | match goal with |- scopedM _ _ (match ?x with _ => _ end) => destruct x end ].
Qed.

Lemma vehicle_Create_Ok ctx vehicle w v w' :
  VehicleRepository.Create ctx vehicle w = (Ok v, w') ->
  exists r, v = VehicleRepository.created r vehicle.
Proof.
  unfold VehicleRepository.Create. intros H.
  apply bind_Ok in H as (t & w1 & _ & H).
  apply bind_Ok in H as (r & w2 & _ & H). injection H as <- _. by exists r.
Qed.

(** X25.  [CreateVehicle] validates before it looks for duplicates or
    writes.  On any pool, every statement it sends other than the
    lookup of the customer is sent for a vehicle that passed [Validate]
    and [ValidateVIN] (and every statement follows the directive of the
    tenant of the context).  When the call succeeds, the vehicle it
    returns is the validated one with the identifier and the instants
    the database returned: it passes both validations and is active. *)
Theorem CreateVehicle_validates_first (now : Time) (ctx : Ctx.Context)
  (create : VehicleCreate.t Z) (w : World) :
  (exists es,
     log (snd (VehicleService.CreateVehicle now ctx create w)) = (log w ++ es)%list
     /\ scopedFor ctx
          (fun q => isLookup q \/ vehicleValid (Vehicle.NewVehicle now 0 create)) es)
  /\ (forall v w', VehicleService.CreateVehicle now ctx create w = (Ok v, w') ->
        vehicleValid (Vehicle.NewVehicle now 0 create)
        /\ vehicleValid v
        /\ Vehicle.IsActive v = true
        /\ exists r, v = VehicleRepository.created r (Vehicle.NewVehicle now 0 create)).
Proof.
  split.
  - unfold scopedFor. destruct (Ctx.GetTenantID ctx) as [t [|]] eqn:Ht.
    + apply (CreateVehicle_scoped now ctx create t Ht w).
    + exists []. rewrite app_nil_r. split; [|done].
      unfold VehicleService.CreateVehicle, bind, wrap.
      rewrite GetByID_without_tenant; [done|]. unfold noTenant. by rewrite Ht.
  - intros v w' H. unfold VehicleService.CreateVehicle in H.
    apply bind_Ok in H as (_ & w1 & _ & H). cbv zeta in H.
    apply bind_Ok in H as (u & w2 & Hval & H).
    apply bind_Ok in H as (_ & w3 & _ & H). apply bind_Ok in H as (_ & w4 & _ & H).
    apply wrap_Ok, vehicle_Create_Ok in H as (r & ->).
    unfold VehicleService.validate in Hval.
    destruct (Vehicle.Validate (Vehicle.NewVehicle now 0 create)) eqn:Hv; [done|].
    destruct (Vehicle.ValidateVIN (Vehicle.NewVehicle now 0 create)) eqn:Hvin; [done|].
    split; [done|]. split; [done|]. split; [done|]. by exists r.
Qed.



End VehicleServiceFacts.

(** ** Statements inside a transaction *)

Section TransactionFacts.
Import Db Postgres Repo.
Local Open Scope db_scope.

Lemma send_sql_session i j p q w :
  sessionOf j (snd (send i p (Sql q) w)) = sessionOf j w.
Proof.
  unfold send. destruct (pick_ok p); cbn; [|done].
  by destruct (eval _ _ _ _ _) as [[e|r] tb].
Qed.

Lemma runTx_session p tx w saved t :
  heldOf (tx_conn tx) w = Some saved ->
  sessionOf (tx_conn tx) w = Some t ->
  heldOf (tx_conn tx) (snd (runTx p tx w)) = Some saved
  /\ exists es, log (snd (runTx p tx w)) = (log w ++ es)%list
                /\ Forall (inSessionOf (tx_conn tx) t) es.
Proof.
  revert w. induction p as [[e|]| |q k IH]; intros w Hheld Hsess; cbn [runTx].
  - split; [done|]. exists []. by rewrite app_nil_r.
  - split; [done|]. exists []. by rewrite app_nil_r.
  - split; [done|]. exists []. by rewrite app_nil_r.
  - unfold bind, try, Tx_ExecContext. rewrite Hheld.
    pose proof (send_sql_held (tx_conn tx) (tx_conn tx) (sched w (clock w)) q (tick w)) as Hh.
    pose proof (send_sql_session (tx_conn tx) (tx_conn tx) (sched w (clock w)) q (tick w)) as Hs.
    pose proof (send_log (tx_conn tx) (sched w (clock w)) (Sql q) (tick w)) as Hl.
    change (sessionOf (tx_conn tx) (tick w)) with (sessionOf (tx_conn tx) w) in Hs, Hl.
    change (heldOf (tx_conn tx) (tick w)) with (heldOf (tx_conn tx) w) in Hh.
    change (log (tick w)) with (log w) in Hl.
    rewrite Hsess in Hs, Hl. rewrite Hheld in Hh.
    destruct (send (tx_conn tx) (sched w (clock w)) (Sql q) (tick w)) as [[r|e|] w1];
      cbn [snd] in Hh, Hs, Hl.
    + destruct (IH (inr r) w1 Hh Hs) as (H1 & es & H2 & H3).
      split; [done|]. eexists (_ :: es). rewrite H2, Hl, <- app_assoc. split; [done|].
      constructor; [by eexists | done].
    + destruct (IH (inl e) w1 Hh Hs) as (H1 & es & H2 & H3).
      split; [done|]. eexists (_ :: es). rewrite H2, Hl, <- app_assoc. split; [done|].
      constructor; [by eexists | done].
    + cbn. split; [done|]. eexists [_]. split; [exact Hl|].
      constructor; [by eexists | done].
Qed.

Lemma literalValue_plain t : plainTenant t -> literalValue t = Some t.
Proof.
  unfold plainTenant, occurs. induction t as [|a t IH]; [done|].
  cbn [list_ascii_of_string literalValue]. intros Hnot.
  apply not_elem_of_cons in Hnot as [Hne Hnot].
  destruct (Ascii.eqb_spec a "'") as [->|_]; [done|].
  by rewrite (IH Hnot).
Qed.

(** X27.  Inside [TransactionWithTenant] the directive does hold for
    the statements of the function.  For a tenant id that holds no
    quote, and whatever connections the pool would hand out: once the
    transaction is open and its directive has succeeded, every
    statement the function sends through the handle runs on the
    connection of the transaction while that connection's session is
    scoped to the caller's tenant, a session in which a customer is
    visible exactly when its tenant id is the caller's; the trace is
    the [BEGIN], the directive, these statements, and the end of the
    transaction (a commit, a rollback, or nothing after a panic). *)
Theorem transaction_statements_in_tenant_session (t : string) (p : TxProg) (w : World) :
  plainTenant t ->
  pick_ok (nextPick w) = true ->
  pick_ok (nextPick (begun w)) = true ->
  exists es tail,
    log (snd (TransactionWithTenant t (runTx p) w))
    = (log w ++ openingTrace t w ++ es ++ tail)%list
    /\ Forall (inSessionOf (slot w) t) es
    /\ txEnd (slot w) tail
    /\ forall c, visible (Some t) c = String.eqb (Customer.TenantID c) t.
Proof.
  intros Hplain Hok Hok2.
  destruct (BeginTxWithTenant_ok t w Hok Hok2) as (HB & Hl & Ht & Hh & Hs).
  destruct (runTx_session p {| tx_conn := slot w |} (directed t w) _ t Hh Hs)
    as (Hheld & es & Hlog & Hes).
  assert (Hvis : forall c, visible (Some t) c = String.eqb (Customer.TenantID c) t).
  { intros c. unfold visible. by rewrite (literalValue_plain t Hplain). }
  exists es.
  rewrite (TransactionWithTenant_unfold t (runTx p) w _ _ HB).
  destruct (runTx p {| tx_conn := slot w |} (directed t w)) as [[[]|err|] w2];
    cbn [fst snd tx_conn] in *.
  - destruct (Tx_Commit_held {| tx_conn := slot w |} w2 _ Hheld) as (w' & Hl' & _ & Hc).
    exists [EvCommit (slot w)]. split; [| split; [done | split; [by left | done]]].
    destruct Hc as [(_ & -> & _)|(_ & -> & _)]; cbn [snd];
      by rewrite Hl', Hlog, Hl, <- !app_assoc.
  - destruct (Tx_Rollback_held {| tx_conn := slot w |} w2 _ Hheld)
      as (w' & HR & Hl' & _).
    exists [EvRollback (slot w)]. split; [| split; [done | split; [right; by left | done]]].
    rewrite HR. cbn [snd tx_conn] in *. by rewrite Hl', Hlog, Hl, <- !app_assoc.
  - exists []. split; [| split; [done | split; [right; by right | done]]].
    cbn [snd]. by rewrite Hlog, Hl, app_nil_r, <- !app_assoc.
Qed.

Lemma transaction_statements_in_tenant_session_witness :
  exists es tail,
    log (snd (TransactionWithTenant "tenant-a" (runTx (deleteThen (TxReturn None)))
                twoConnections))
    = (openingTrace "tenant-a" twoConnections ++ es ++ tail)%list
    /\ Forall (inSessionOf 0 "tenant-a") es
    /\ txEnd 0 tail.
Proof.
  destruct (transaction_statements_in_tenant_session "tenant-a" (deleteThen (TxReturn None))
              twoConnections) as (es & tail & Hl & Hes & Hend & _).
  - unfold plainTenant, occurs. apply (bool_decide_unpack _). by vm_compute.
  - reflexivity.
  - reflexivity.
  - by exists es, tail.
Defined.

End TransactionFacts.

(** ** Rows as maps *)

Section ScanFacts.
Import Scan.

Lemma fill_absent cols vals (m0 : gmap string Value) col :
  col ∉ cols ->
  foldl (fun m cv => <[fst cv := textOf (snd cv)]> m) m0 (zip cols vals) !! col = m0 !! col.
Proof.
  revert vals m0. induction cols as [|c cs IH]; intros [|v vs] m0 Hnot; try done.
  apply not_elem_of_cons in Hnot as [Hne Hnot].
  cbn. rewrite IH by done. by apply lookup_insert_ne.
Qed.

Lemma fill_last cols vals (m0 : gmap string Value) j col v :
  cols !! j = Some col ->
  (forall j', (j < j')%nat -> cols !! j' <> Some col) ->
  vals !! j = Some v ->
  foldl (fun m cv => <[fst cv := textOf (snd cv)]> m) m0 (zip cols vals) !! col
  = Some (textOf v).
Proof.
  revert vals m0 j. induction cols as [|c cs IH]; intros [|v0 vs] m0 j Hc Hlast Hv; try done.
  destruct j as [|j]; cbn in *.
  - injection Hc as ->. injection Hv as ->.
    rewrite fill_absent; [by rewrite lookup_insert_eq|].
    intros Hin. apply list_elem_of_lookup in Hin as [i Hi].
    by apply (Hlast (S i)); [lia|].
  - apply (IH vs _ j); [done| |done].
    intros j' Hlt. apply (Hlast (S j')). lia.
Qed.

Lemma fill_keys cols vals (m0 : gmap string Value) col :
  length vals = length cols ->
  is_Some (foldl (fun m cv => <[fst cv := textOf (snd cv)]> m) m0 (zip cols vals) !! col)
  <-> col ∈ cols \/ is_Some (m0 !! col).
Proof.
  revert vals m0. induction cols as [|c cs IH]; intros [|v vs] m0 Hlen; try done.
  - cbn. split; [by right | intros [H|H]; [by apply elem_of_nil in H | done]].
  - cbn. rewrite IH by (cbn in Hlen; lia). rewrite elem_of_cons.
    destruct (decide (col = c)) as [->|Hne].
    + rewrite lookup_insert_eq. split; intros _; [left; by left | by right].
    + rewrite lookup_insert_ne by done.
      split; [intros [H|H]; [left; by right | by right]
             | intros [[H|H]|H]; [done | by left | by right]].
Qed.

Lemma fill_text cols vals (m0 : gmap string Value) :
  (forall col b, m0 !! col <> Some (VBytes b)) ->
  forall col b,
    foldl (fun m cv => <[fst cv := textOf (snd cv)]> m) m0 (zip cols vals) !! col
    <> Some (VBytes b).
Proof.
  revert vals m0. induction cols as [|c cs IH]; intros [|v vs] m0 H0; try done.
  cbn. apply IH. intros col b.
  destruct (decide (col = c)) as [->|Hne].
  - rewrite lookup_insert_eq. by destruct v.
  - rewrite lookup_insert_ne by done. apply H0.
Qed.

Lemma scanLoop_spec cols data results :
  Forall (fun values => length values = length cols) data ->
  scanLoop cols data results = inr (results ++ (rowMap cols <$> data))%list.
Proof.
  revert results. induction data as [|values rest IH]; intros results Hw; cbn.
  - by rewrite app_nil_r.
  - apply Forall_cons in Hw as [Hv Hrest].
    rewrite (proj2 (Nat.eqb_eq _ _) Hv), IH by done. by rewrite <- app_assoc.
Qed.

(** X28.  [ScanRowsToMap] on rows of the width of the column list:
    one map per row, in order; the keys of each map are the column
    names; under a column name stands the value of that column, a
    [[]byte] as the string of its bytes and any other value as it is
    (of columns that share a name, the last one); no map holds a
    [[]byte]. *)
Theorem ScanRowsToMap_maps (cols : list string) (rows : list (list Value)) :
  Forall (fun values => length values = length cols) rows ->
  exists maps,
    ScanRowsToMap {| columns := inr cols; data := rows |} = inr maps
    /\ length maps = length rows
    /\ forall i values, rows !! i = Some values ->
         exists m, maps !! i = Some m
           /\ (forall col, is_Some (m !! col) <-> col ∈ cols)
           /\ (forall j col v,
                 cols !! j = Some col ->
                 (forall j', (j < j')%nat -> cols !! j' <> Some col) ->
                 values !! j = Some v ->
                 m !! col = Some (textOf v))
           /\ (forall col b, m !! col <> Some (VBytes b)).
Proof.
  intros Hw. exists (rowMap cols <$> rows).
  split; [| split].
  - unfold ScanRowsToMap. cbn. by rewrite scanLoop_spec.
  - by rewrite length_fmap.
  - intros i values Hi. exists (rowMap cols values).
    split; [by rewrite list_lookup_fmap, Hi|].
    assert (Hlen : length values = length cols).
    { by apply (proj1 (Forall_lookup _ _) Hw i). }
    unfold rowMap. split; [| split].
    + intros col. rewrite fill_keys by done. rewrite lookup_empty.
      split; [intros [H|[x H]]; [done|done] | by left].
    + intros j col v. apply fill_last.
    + apply fill_text. intros col b. by rewrite lookup_empty.
Qed.

Lemma ScanRowsToMap_maps_witness :
  exists m,
    ScanRowsToMap {| columns := inr ["id"; "name"];
                     data := [[VInt 1; VBytes "Ana"]] |} = inr [m]
    /\ m !! "name" = Some (VString "Ana").
Proof.
  destruct (ScanRowsToMap_maps ["id"; "name"] [[VInt 1; VBytes "Ana"]])
    as (maps & H & Hlen & Hrow).
  - by repeat constructor.
  - destruct (Hrow 0%nat [VInt 1; VBytes "Ana"] eq_refl) as (m & Hm & _ & Hv & _).
    exists m. destruct maps as [|m0 [|m1 maps]]; [done| |done].
    injection Hm as ->. split; [exact H|].
    apply (Hv 1%nat "name" (VBytes "Ana")); [done| |done].
    intros [|[|[|j']]] Hlt; try lia; done.
Defined.

End ScanFacts.

(** ** The search handler *)

Section SearchHandlerFacts.
Import Db Postgres Repo.
Local Open Scope db_scope.

Lemma emits_try_then {A B} (m : M A) (k : Error + A -> M B) w es :
  (forall r w', snd (k r w') = w') ->
  emits m w es -> emits (bind (try m) k) w es.
Proof.
  intros Hk. unfold emits, bind, try.
  destruct (m w) as [[a|e|] w1]; cbn [snd]; by rewrite ?Hk.
Qed.

Lemma emits_wrap {A} msg (m : M A) w es : emits m w es -> emits (wrap msg m) w es.
Proof. unfold emits, wrap. by destruct (m w) as [[a|e|] w1]. Qed.

(** X29.  The search handler.  A request with an empty query is
    answered with no customers and total 0, and nothing is sent, with
    or without a tenant.  A request with a query and no tenant in the
    context is answered [Internal].  A request with a query and a
    tenant sends the directive and then one search statement, whose
    [LIMIT] is the request's limit when it is between 1 and 50, 50 when
    it is larger, and 20 when it is zero or negative; whatever the
    request names as search fields, the repository is asked for one of
    its own lists, so the statement is always sent. *)
Theorem SearchCustomers_request (driver : string) (ctx : Ctx.Context)
  (req : SearchCustomersRequest.t) (w : World) :
  (SearchCustomersRequest.Query req = "" ->
   CustomerHandler.SearchCustomers driver ctx req w
   = (Ok (inr {| SearchCustomersResponse.Customers := [];
                 SearchCustomersResponse.Total := 0 |}), w))
  /\ (SearchCustomersRequest.Query req <> "" -> noTenant ctx ->
      CustomerHandler.SearchCustomers driver ctx req w
      = (Ok (inl (Handler.Internal,
                  "failed to search customers: failed to search customers: tenant ID not found in context")),
         w))
  /\ (forall t, SearchCustomersRequest.Query req <> "" -> hasTenant ctx t ->
      emits (CustomerHandler.SearchCustomers driver ctx req) w
        (directiveEvent t w ::
         if pick_ok (nextPick w)
         then [statementEvent t
                 (searchStatement (if 0 <? SearchCustomersRequest.Limit req
                                   then Z.min (SearchCustomersRequest.Limit req) 50
                                   else 20)) w]
         else [])).
Proof.
  assert (Hq : SearchCustomersRequest.Query req <> "" ->
               GoString.isEmpty (SearchCustomersRequest.Query req) = false).
  { intros Hne. destruct (GoString.isEmpty _) eqn:E; [|done]. by apply isEmpty_spec in E. }
  split; [| split].
  - intros H. unfold CustomerHandler.SearchCustomers. by rewrite H.
  - intros Hne Hno. unfold CustomerHandler.SearchCustomers. rewrite (Hq Hne). cbv zeta.
    unfold CustomerService.SearchCustomers. cbn [CustomerSearchFilter.Query].
    rewrite (Hq Hne). unfold bind, try, wrap, CustomerRepository.Search, bind.
    by rewrite (tenantOf_missing _ _ Hno).
  - intros t Hne Ht. unfold CustomerHandler.SearchCustomers. rewrite (Hq Hne). cbv zeta.
    apply emits_try_then; [by intros [e|l] w'|]. unfold CustomerService.SearchCustomers.
    cbn [CustomerSearchFilter.Query]. rewrite (Hq Hne). apply emits_wrap.
    set (filter := CustomerSearchFilter.mk _ _ _).
    assert (Hlimit : (if 0 <? CustomerSearchFilter.Limit filter
                      then CustomerSearchFilter.Limit filter else 20)
                     = (if 0 <? SearchCustomersRequest.Limit req
                        then Z.min (SearchCustomersRequest.Limit req) 50 else 20)).
    { subst filter. cbn [CustomerSearchFilter.Limit]. unfold CustomerHandler.searchLimit.
      cbv zeta.
      destruct (Z.leb_spec (SearchCustomersRequest.Limit req) 0); cbv iota;
        [| destruct (Z.gtb_spec (SearchCustomersRequest.Limit req) 50); cbv iota].
      all: repeat (match goal with
              | |- context [?a <=? ?b] => destruct (Z.leb_spec a b)
              | |- context [?a <? ?b] => destruct (Z.ltb_spec a b)
              | |- context [?a >? ?b] => destruct (Z.gtb_spec a b)
              end; cbv iota); lia. }
    rewrite <- Hlimit. apply Search_emits; [exact Ht|].
    intros [Hempty|[Hfields Hall]]; [by apply Hne|].
    subst filter. cbn [CustomerSearchFilter.SearchFields] in Hfields, Hall.
    revert Hfields Hall. destruct (negb _); intros Hfields Hall; [|done].
    apply Forall_cons in Hall as [Hname _]. apply Hname. unfold searchable. by left.
Qed.

End SearchHandlerFacts.
